(** * galleon/lisa: the retrieval core

    A shallow embedding of the in-memory store (class [MemStorage], the
    module that routes.ts imports as ./storage.js), of the per-chunk
    embedding loop ([generateChunkEmbeddings] of
    services/documentProcessor.ts) and of the upload and chat-send handlers
    of server/routes.ts, followed by the properties of the specification
    that concern them.

    Conventions of the embedding.
    - A JavaScript [Map<number, V>] is an association list in insertion
      order: [Array.from(m.values())] enumerates it front to back, [set] on a
      present key keeps the key's position, [set] on a new key appends.
    - Integer columns of the schema (ids, sizes, counts, progress, timestamps
      in milliseconds) are [Z].  Embedding components and similarity scores
      are mathematical reals [R]: the arithmetic of [cosineSimilarity] is
      read exactly, without the rounding, overflow and NaN of IEEE doubles.
    - An optional argument or an optional property is an [option]; JavaScript
      truthiness of an optional string is [truthy].
    - A stateful method is a function from the store to a result and a store.
      The handlers of routes.ts run in a small state-and-exception monad in
      which a [throw] keeps the writes made before it.  A handler runs from
      its first statement to its last without another request in between.
    - The extractor, the embedder and the generator are outside the
      repository; they are oracles that say what a call returns or that it
      throws.

    Further parts embed the other routes of routes.ts ([Api]), the chat
    request and the stream wrapper of services/openai.ts ([OpenAI]), the text
    extraction of services/documentProcessor.ts ([DocumentText], with the
    parser of LlamaIndex and the UTF-8 decoder as oracles) and the labels of
    the client ([DocumentList], [ChatMessages]); their properties follow
    those of the specification.  There a character of a string stands for
    one code unit of the JavaScript string, and the time differences of the
    client are integers, divided exactly. *)

From Stdlib Require Import ZArith List String Bool Reals Lra Lia.
From Stdlib Require Import Sorted Permutation.
Import ListNotations.

Local Open Scope string_scope.
Local Open Scope list_scope.
Local Open Scope Z_scope.

(** ** JavaScript helpers *)

(** [if (s)] for [s?: string]: [undefined] and the empty string are falsy. *)
Definition truthy (s : option string) : bool :=
  match s with
  | None => false
  | Some x => negb (String.eqb x "")
  end.

(** [a ?? b] *)
Definition nullish {A : Type} (a : option A) (b : A) : A :=
  match a with
  | Some x => x
  | None => b
  end.

(** [x === y] on [string | null] *)
Definition owner_eqb (x y : option string) : bool :=
  match x, y with
  | Some a, Some b => String.eqb a b
  | None, None => true
  | _, _ => false
  end.

Module JSArray.
Section Generic.
Context {A : Type}.

(** [after x y] is [compare(x, y) > 0]: [x] has to come after [y]. *)
Variable after : A -> A -> bool.

Fixpoint insert (x : A) (l : list A) : list A :=
  match l with
  | [] => [x]
  | y :: l' => if after x y then y :: insert x l' else x :: l
  end.

(** [Array.prototype.sort(compare)]: a stable sort.  An element is moved
    behind exactly those later elements it has to come after. *)
Definition sort (l : list A) : list A := fold_right insert [] l.

(** [arr.slice(0, end)] for an integer [end]; a negative [end] counts from
    the back of the array. *)
Definition slice0 (stop : Z) (l : list A) : list A :=
  if stop <? 0
  then firstn (Z.to_nat (Z.max (Z.of_nat (List.length l) + stop) 0)) l
  else firstn (Z.to_nat stop) l.
End Generic.
End JSArray.

Module JSMap.
Section Generic.
Context {V : Type}.

Definition t := list (Z * V).

Fixpoint get (k : Z) (m : t) : option V :=
  match m with
  | [] => None
  | (k', v) :: m' => if k =? k' then Some v else get k m'
  end.

Definition has (k : Z) (m : t) : bool :=
  match get k m with Some _ => true | None => false end.

Fixpoint set (k : Z) (v : V) (m : t) : t :=
  match m with
  | [] => [(k, v)]
  | (k', v') :: m' =>
      if k =? k' then (k, v) :: m' else (k', v') :: set k v m'
  end.

(** [m.delete(k)]: the map without [k]; whether [k] was present is [has]. *)
Fixpoint delete (k : Z) (m : t) : t :=
  match m with
  | [] => []
  | (k', v') :: m' =>
      if k =? k' then m' else (k', v') :: delete k m'
  end.

Definition keys (m : t) : list Z := map fst m.
Definition values (m : t) : list V := map snd m.
End Generic.
Arguments t : clear implicits.
End JSMap.

(** ** Cosine similarity (MemStorage.cosineSimilarity) *)

Module Cosine.
Local Open Scope R_scope.

Record Acc := mkAcc { dotProduct : R; normA : R; normB : R }.

(** One iteration of the [for] loop, on the pair [(a[i], b[i])]. *)
Definition step (acc : Acc) (xy : R * R) : Acc :=
  let (x, y) := xy in
  {| dotProduct := dotProduct acc + x * y;
     normA := normA acc + x * x;
     normB := normB acc + y * y |}.

(** The loop over [i = 0 .. a.length - 1]; it runs after the length test,
    so that the pairs are those of [combine]. *)
Definition loop (a b : list R) : Acc :=
  fold_left step (combine a b) (mkAcc 0 0 0).

Definition cosineSimilarity (a b : list R) : R :=
  if negb (Nat.eqb (List.length a) (List.length b)) then 0
  else
    let acc := loop a b in
    if Req_dec_T (normA acc) 0 then 0
    else if Req_dec_T (normB acc) 0 then 0
    else dotProduct acc / (sqrt (normA acc) * sqrt (normB acc)).




End Cosine.

(** ** The schema (shared/schema.ts) *)

(** [jsonb] columns and values of type [any]. *)
#[local] Unset Elimination Schemes.
Inductive Json : Type :=
| JNull
| JNum (n : Z)
| JStr (s : string)
| JArr (items : list Json)
| JObj (fields : list (string * Json)).
#[local] Set Elimination Schemes.

Module Document.
Record t := mk {
  id : Z;
  name : string;
  originalName : string;
  mimeType : string;
  size : Z;
  content : string;
  chunkCount : Z;
  status : string;
  progress : Z;
  userId : option string;
  uploadedAt : option Z
}.

(** [Partial<Document>]: [None] is an absent property. *)
Record partial := mkPartial {
  p_id : option Z;
  p_name : option string;
  p_originalName : option string;
  p_mimeType : option string;
  p_size : option Z;
  p_content : option string;
  p_chunkCount : option Z;
  p_status : option string;
  p_progress : option Z;
  p_userId : option (option string);
  p_uploadedAt : option (option Z)
}.

(** [{ ...document, ...updates }] *)
Definition spread (d : t) (u : partial) : t :=
  {| id := nullish (p_id u) (id d);
     name := nullish (p_name u) (name d);
     originalName := nullish (p_originalName u) (originalName d);
     mimeType := nullish (p_mimeType u) (mimeType d);
     size := nullish (p_size u) (size d);
     content := nullish (p_content u) (content d);
     chunkCount := nullish (p_chunkCount u) (chunkCount d);
     status := nullish (p_status u) (status d);
     progress := nullish (p_progress u) (progress d);
     userId := nullish (p_userId u) (userId d);
     uploadedAt := nullish (p_uploadedAt u) (uploadedAt d) |}.

(** [new Date(d.uploadedAt!).getTime()]; [new Date(null)] is the epoch. *)
Definition time (d : t) : Z := nullish (uploadedAt d) 0.
End Document.

Module InsertDocument.
Record t := mk {
  name : string;
  originalName : string;
  mimeType : string;
  size : Z;
  content : string;
  chunkCount : option Z;
  status : option string;
  progress : option Z;
  userId : option string
}.
End InsertDocument.

Module Chunk.
Record t := mk {
  id : Z;
  documentId : Z;
  content : string;
  embedding : list R;
  metadata : Json;
  createdAt : option Z
}.
End Chunk.

Module InsertChunk.
Record t := mk {
  documentId : Z;
  content : string;
  embedding : option (list R);
  metadata : option Json
}.
End InsertChunk.

Module ChatMessage.
Record t := mk {
  id : Z;
  content : string;
  role : string;
  sources : Json;
  userId : option string;
  createdAt : option Z
}.

Definition time (m : t) : Z := nullish (createdAt m) 0.
End ChatMessage.

Module InsertChatMessage.
Record t := mk {
  content : string;
  role : string;
  sources : option Json;
  userId : option string
}.
End InsertChatMessage.

(** A search result: [Chunk & { similarity: number }]. *)
Module Scored.
Record t := mk { chunk : Chunk.t; similarity : R }.
End Scored.

(** ** The in-memory store (class MemStorage) *)

Module MemStorage.
Record t := mk {
  documents : JSMap.t Document.t;
  chunks : JSMap.t Chunk.t;
  chatMessages : JSMap.t ChatMessage.t;
  currentDocumentId : Z;
  currentChunkId : Z;
  currentMessageId : Z
}.

(** The constructor. *)
Definition init : t := mk [] [] [] 1 1 1.

Definition with_documents (s : t) (m : JSMap.t Document.t) : t :=
  mk m (chunks s) (chatMessages s)
     (currentDocumentId s) (currentChunkId s) (currentMessageId s).

Definition with_chunks (s : t) (m : JSMap.t Chunk.t) : t :=
  mk (documents s) m (chatMessages s)
     (currentDocumentId s) (currentChunkId s) (currentMessageId s).

Definition with_chatMessages (s : t) (m : JSMap.t ChatMessage.t) : t :=
  mk (documents s) (chunks s) m
     (currentDocumentId s) (currentChunkId s) (currentMessageId s).

(** *** Documents *)

(** [now] is the value of [new Date()] at the call. *)
Definition createDocument (now : Z) (ins : InsertDocument.t) (s : t)
  : Document.t * t :=
  let id := currentDocumentId s in
  let document :=
    {| Document.id := id;
       Document.name := InsertDocument.name ins;
       Document.originalName := InsertDocument.originalName ins;
       Document.mimeType := InsertDocument.mimeType ins;
       Document.size := InsertDocument.size ins;
       Document.content := InsertDocument.content ins;
       Document.chunkCount := nullish (InsertDocument.chunkCount ins) 0;
       Document.status := nullish (InsertDocument.status ins) "processing";
       Document.progress := nullish (InsertDocument.progress ins) 0;
       Document.userId := InsertDocument.userId ins;
       Document.uploadedAt := Some now |} in
  (document,
   mk (JSMap.set id document (documents s)) (chunks s) (chatMessages s)
      (id + 1) (currentChunkId s) (currentMessageId s)).

Definition getDocument (id : Z) (s : t) : option Document.t :=
  JSMap.get id (documents s).

(** [(a, b) => time(b) - time(a)] is positive when [a] is the older one. *)
Definition older (a b : Document.t) : bool :=
  Document.time a <? Document.time b.

Definition getAllDocuments (userId : option string) (s : t)
  : list Document.t :=
  let docs := JSMap.values (documents s) in
  let docs :=
    if truthy userId
    then filter (fun doc => owner_eqb (Document.userId doc) userId) docs
    else docs in
  JSArray.sort older docs.

Definition getUserDocuments (userId : string) (s : t) : list Document.t :=
  getAllDocuments (Some userId) s.

Definition updateDocumentProgress
  (id : Z) (progress : Z) (status : option string) (s : t)
  : option Document.t * t :=
  match JSMap.get id (documents s) with
  | None => (None, s)
  | Some document =>
      let updates :=
        {| Document.p_id := None; Document.p_name := None;
           Document.p_originalName := None; Document.p_mimeType := None;
           Document.p_size := None; Document.p_content := None;
           Document.p_chunkCount := None;
           Document.p_status := if truthy status then status else None;
           Document.p_progress := Some progress;
           Document.p_userId := None; Document.p_uploadedAt := None |} in
      let updated := Document.spread document updates in
      (Some updated, with_documents s (JSMap.set id updated (documents s)))
  end.

Definition updateDocument (id : Z) (updates : Document.partial) (s : t)
  : option Document.t * t :=
  match JSMap.get id (documents s) with
  | None => (None, s)
  | Some document =>
      let updated := Document.spread document updates in
      (Some updated, with_documents s (JSMap.set id updated (documents s)))
  end.

(** *** Chunks *)

Definition createChunk (now : Z) (ins : InsertChunk.t) (s : t)
  : Chunk.t * t :=
  let id := currentChunkId s in
  let chunk :=
    {| Chunk.id := id;
       Chunk.documentId := InsertChunk.documentId ins;
       Chunk.content := InsertChunk.content ins;
       Chunk.embedding := nullish (InsertChunk.embedding ins) [];
       Chunk.metadata := nullish (InsertChunk.metadata ins) JNull;
       Chunk.createdAt := Some now |} in
  (chunk,
   mk (documents s) (JSMap.set id chunk (chunks s)) (chatMessages s)
      (currentDocumentId s) (id + 1) (currentMessageId s)).

Definition getChunksByDocument (documentId : Z) (s : t) : list Chunk.t :=
  filter (fun chunk => Chunk.documentId chunk =? documentId)
         (JSMap.values (chunks s)).

Definition getAllChunks (s : t) : list Chunk.t := JSMap.values (chunks s).

Definition deleteChunksByDocument (documentId : Z) (s : t) : bool * t :=
  let chunkIds :=
    map Chunk.id
        (filter (fun chunk => Chunk.documentId chunk =? documentId)
                (JSMap.values (chunks s))) in
  (Nat.ltb 0 (List.length chunkIds),
   with_chunks s (fold_left (fun m id => JSMap.delete id m) chunkIds (chunks s))).

Definition deleteDocument (id : Z) (s : t) : bool * t :=
  let deleted := JSMap.has id (documents s) in
  let s1 := with_documents s (JSMap.delete id (documents s)) in
  if deleted
  then (deleted, snd (deleteChunksByDocument id s1))
  else (deleted, s1).

(** *** Chat messages *)

Definition createChatMessage (now : Z) (ins : InsertChatMessage.t) (s : t)
  : ChatMessage.t * t :=
  let id := currentMessageId s in
  let message :=
    {| ChatMessage.id := id;
       ChatMessage.content := InsertChatMessage.content ins;
       ChatMessage.role := InsertChatMessage.role ins;
       ChatMessage.sources := nullish (InsertChatMessage.sources ins) JNull;
       ChatMessage.userId := InsertChatMessage.userId ins;
       ChatMessage.createdAt := Some now |} in
  (message,
   mk (documents s) (chunks s) (JSMap.set id message (chatMessages s))
      (currentDocumentId s) (currentChunkId s) (id + 1)).

(** [(a, b) => time(a) - time(b)] is positive when [a] is the newer one. *)
Definition newer (a b : ChatMessage.t) : bool :=
  ChatMessage.time b <? ChatMessage.time a.

Definition getAllChatMessages (userId : option string) (s : t)
  : list ChatMessage.t :=
  let messages := JSMap.values (chatMessages s) in
  let messages :=
    if truthy userId
    then filter (fun msg => owner_eqb (ChatMessage.userId msg) userId) messages
    else messages in
  JSArray.sort newer messages.

Definition getUserChatMessages (userId : string) (s : t)
  : list ChatMessage.t :=
  getAllChatMessages (Some userId) s.

Definition clearChatMessages (userId : option string) (s : t) : bool * t :=
  if truthy userId
  then
    let userMessages :=
      filter (fun msg => owner_eqb (ChatMessage.userId msg) userId)
             (JSMap.values (chatMessages s)) in
    (true,
     with_chatMessages s
       (fold_left (fun m msg => JSMap.delete (ChatMessage.id msg) m)
                  userMessages (chatMessages s)))
  else (true, with_chatMessages s []).

(** *** Vector search *)

(** [(a, b) => b.similarity - a.similarity] is positive when [a] scores
    strictly less than [b]. *)
Definition lower (a b : Scored.t) : bool :=
  if Rlt_dec (Scored.similarity a) (Scored.similarity b) then true else false.

Definition score (queryEmbedding : list R) (chunk : Chunk.t) : Scored.t :=
  {| Scored.chunk := chunk;
     Scored.similarity :=
       Cosine.cosineSimilarity queryEmbedding (Chunk.embedding chunk) |}.

(** The local [chunks] of [findSimilarChunks] once both filters are applied:
    the chunks with a non-empty embedding and, under a truthy [userId], a
    [documentId] among the ids of the documents of that user. *)
Definition candidates (userId : option string) (s : t) : list Chunk.t :=
  let chunks :=
    filter (fun chunk => Nat.ltb 0 (List.length (Chunk.embedding chunk)))
           (JSMap.values (chunks s)) in
  match userId with
  | Some u =>
      if truthy userId then
        let userDocuments := getUserDocuments u s in
        let userDocumentIds := map Document.id userDocuments in
        filter (fun chunk =>
                  existsb (Z.eqb (Chunk.documentId chunk)) userDocumentIds)
               chunks
      else chunks
  | None => chunks
  end.

(** [limit] is [None] when the caller leaves it out (default 5). *)
Definition findSimilarChunks
  (queryEmbedding : list R) (userId : option string) (limit : option Z)
  (s : t) : list Scored.t :=
  let limit := nullish limit 5 in
  let similarities := map (score queryEmbedding) (candidates userId s) in
  JSArray.slice0 limit (JSArray.sort lower similarities).
End MemStorage.

(** ** Per-chunk embedding (services/documentProcessor.ts) *)

Module DocumentProcessor.
Module RawChunk.
Record t := mk { content : string; metadata : Json }.
End RawChunk.

Module ProcessedDocument.
Record t := mk { content : string; chunks : list RawChunk.t }.
End ProcessedDocument.

Module EmbeddedChunk.
Record t := mk { content : string; metadata : Json; embedding : list R }.
End EmbeddedChunk.

Section WithEmbedder.
(** The embedder of services/openai.ts is an external call: the oracle
    gives the outcome of the [i]-th call of a run on its text, [None]
    when the call throws. *)
Variable generateEmbedding : nat -> string -> option (list R).

(** The body of the [for] loop: [try { push {...chunk, embedding} }
    catch { push {...chunk, embedding: []} }]. *)
Definition embedChunk (i : nat) (chunk : RawChunk.t) : EmbeddedChunk.t :=
  match generateEmbedding i (RawChunk.content chunk) with
  | Some embedding =>
      EmbeddedChunk.mk (RawChunk.content chunk) (RawChunk.metadata chunk)
                       embedding
  | None =>
      EmbeddedChunk.mk (RawChunk.content chunk) (RawChunk.metadata chunk) []
  end.

(** The array [chunksWithEmbeddings] grows by one [push] per chunk; the
    call made for a chunk is the one numbered by the array's length. *)
Definition generateChunkEmbeddings (chunks : list RawChunk.t)
  : list EmbeddedChunk.t :=
  fold_left
    (fun chunksWithEmbeddings chunk =>
       chunksWithEmbeddings
         ++ [embedChunk (List.length chunksWithEmbeddings) chunk])
    chunks [].

(** The chunks with their embeddings, the first of them being the subject
    of the [i]-th call. *)
Fixpoint embedFrom (i : nat) (chunks : list RawChunk.t)
  : list EmbeddedChunk.t :=
  match chunks with
  | [] => []
  | chunk :: rest => embedChunk i chunk :: embedFrom (S i) rest
  end.


End WithEmbedder.

End DocumentProcessor.

(** ** The upload and chat-send handlers (server/routes.ts) *)

Module Routes.
Import DocumentProcessor.

Module File.
Record t := mk {
  originalname : string;
  mimetype : string;
  size : Z;
  buffer : list Byte.byte
}.
End File.

(** What the generator yields before it either finishes or throws;
    [completes = false] with no fragment is a failure before the stream. *)
Module GenResult.
Record t := mk { fragments : list string; completes : bool }.
End GenResult.

Inductive Body : Type :=
| Message (message : string)
| Created (document : Document.t).

(** The frames written on the event stream. *)
Inductive Event : Type :=
| EvChunk (content : string)
| EvSources (sources : Json)
| EvDone
| EvError (message : string).

(** What a handler writes on the response and the calls it makes to the
    generator, in order. *)
Inductive Effect : Type :=
| ResJson (status : Z) (body : Body)
| ResWriteHead (status : Z)
| ResWrite (event : Event)
| ResEnd
| CallGenerator (query : string) (context : list string)
                (history : list (string * string)).

(** The awaited store calls of the processing block of the upload handler.
    The handler reaches the store through the [IStorage] interface, whose
    methods return promises; [rejects] below says which call rejects.
    With [MemStorage] none does. *)
Inductive PipelineCall : Type :=
| Progress25
| Progress50
| Progress75
| Persist (i : nat)
| Finalize.

Record World := mkWorld { store : MemStorage.t; trace : list Effect }.

Inductive outcome (A : Type) : Type :=
| Ok (a : A)
| Thrown.
Arguments Ok {A} a.
Arguments Thrown {A}.

(** State and exceptions; a [Thrown] carries the world as it was when the
    exception was raised. *)
Definition M (A : Type) : Type := World -> outcome A * World.

Definition ret {A} (a : A) : M A := fun w => (Ok a, w).

Definition bind {A B} (m : M A) (f : A -> M B) : M B :=
  fun w =>
    match m w with
    | (Ok a, w') => f a w'
    | (Thrown, w') => (Thrown, w')
    end.

Definition throw {A} : M A := fun w => (Thrown, w).

(** [try { m } catch { h }] *)
Definition try_catch {A} (m : M A) (h : M A) : M A :=
  fun w =>
    match m w with
    | (Ok a, w') => (Ok a, w')
    | (Thrown, w') => h w'
    end.

Definition emit (e : Effect) : M unit :=
  fun w => (Ok tt, mkWorld (store w) (trace w ++ [e])).

(** A call of a [MemStorage] method. *)
Definition storage {A} (op : MemStorage.t -> A * MemStorage.t) : M A :=
  fun w => let (a, s') := op (store w) in (Ok a, mkWorld s' (trace w)).

(** A read-only [MemStorage] method. *)
Definition query {A} (op : MemStorage.t -> A) : M A :=
  fun w => (Ok (op (store w)), w).

Declare Scope routes_scope.
Delimit Scope routes_scope with routes.
Notation "x <- m ;; k" := (bind m (fun x => k))
  (at level 100, m at next level, right associativity) : routes_scope.
Notation "m ;;; k" := (bind m (fun _ => k))
  (at level 100, right associativity) : routes_scope.
Local Open Scope routes_scope.

(** [Math.round(x)] *)
Definition Math_round (x : R) : Z := Int_part (x + / 2)%R.

Section Handlers.
(** The collaborators. *)
Variable processDocument : File.t -> option ProcessedDocument.t.
Variable generateEmbedding : nat -> string -> option (list R).
Variable streamChatResponse :
  string -> list string -> list (string * string) -> GenResult.t.
Variable rejects : PipelineCall -> bool.
(** [now k] is the value of the [k]-th [new Date()] of the request. *)
Variable now : nat -> Z.

Definition pipeline {A} (call : PipelineCall)
  (op : MemStorage.t -> A * MemStorage.t) : M A :=
  if rejects call then throw else storage op.

(** [for (const chunkData of chunksWithEmbeddings) await createChunk(..)];
    [i] numbers the iterations. *)
Fixpoint saveChunks (documentId : Z) (i : nat)
  (chunksWithEmbeddings : list EmbeddedChunk.t) : M unit :=
  match chunksWithEmbeddings with
  | [] => ret tt
  | chunkData :: rest =>
      pipeline (Persist i)
        (MemStorage.createChunk (now (S i))
           {| InsertChunk.documentId := documentId;
              InsertChunk.content := EmbeddedChunk.content chunkData;
              InsertChunk.embedding :=
                Some (EmbeddedChunk.embedding chunkData);
              InsertChunk.metadata :=
                Some (EmbeddedChunk.metadata chunkData) |}) ;;;
      saveChunks documentId (S i) rest
  end.

(** The body of the inner [try] of the upload handler. *)
Definition processUpload (document : Document.t) (file : File.t) : M unit :=
  pipeline Progress25
    (MemStorage.updateDocumentProgress
       (Document.id document) 25 (Some "processing")) ;;;
  processed <-
    match processDocument file with
    | Some p => ret p
    | None => throw
    end ;;
  pipeline Progress50
    (MemStorage.updateDocumentProgress (Document.id document) 50 None) ;;;
  let chunksWithEmbeddings :=
    generateChunkEmbeddings generateEmbedding
      (ProcessedDocument.chunks processed) in
  pipeline Progress75
    (MemStorage.updateDocumentProgress (Document.id document) 75 None) ;;;
  saveChunks (Document.id document) 0 chunksWithEmbeddings ;;;
  pipeline Finalize
    (MemStorage.updateDocument (Document.id document)
       {| Document.p_id := None; Document.p_name := None;
          Document.p_originalName := None; Document.p_mimeType := None;
          Document.p_size := None;
          Document.p_content := Some (ProcessedDocument.content processed);
          Document.p_chunkCount :=
            Some (Z.of_nat (List.length chunksWithEmbeddings));
          Document.p_status := Some "completed";
          Document.p_progress := Some 100;
          Document.p_userId := None;
          Document.p_uploadedAt := None |}) ;;;
  ret tt.

(** [catch (error) { await storage.updateDocumentProgress(id, 0, "error") }];
    the call is [MemStorage]'s, which does not reject. *)
Definition markError (document : Document.t) : M unit :=
  storage
    (MemStorage.updateDocumentProgress
       (Document.id document) 0 (Some "error")) ;;;
  ret tt.

(** The record the upload handler passes to [createDocument]. *)
Definition newDocument (f : File.t) (userId : string) : InsertDocument.t :=
  {| InsertDocument.name := File.originalname f;
     InsertDocument.originalName := File.originalname f;
     InsertDocument.mimeType := File.mimetype f;
     InsertDocument.size := File.size f;
     InsertDocument.content := "";
     InsertDocument.chunkCount := Some 0;
     InsertDocument.status := Some "processing";
     InsertDocument.progress := Some 0;
     InsertDocument.userId := Some userId |}.

(** POST /api/documents/upload; [userId] is what [getUserId] returns. *)
Definition upload (file : option File.t) (userId : string) : M unit :=
  try_catch
    (match file with
     | None => emit (ResJson 400 (Message "No file uploaded"))
     | Some f =>
         document <-
           storage (MemStorage.createDocument (now 0) (newDocument f userId)) ;;
         emit (ResJson 200 (Created document)) ;;;
         try_catch (processUpload document f) (markError document)
     end)
    (emit (ResJson 500 (Message "Failed to upload document"))).

(** [for await (const chunk of responseStream)]: every fragment is added
    to [fullResponse] and written as a chunk frame; a generator that
    fails throws once its fragments are consumed. *)
Fixpoint consume (fragments : list string) (completes : bool)
  (fullResponse : string) : M string :=
  match fragments with
  | [] => if completes then ret fullResponse else throw
  | chunk :: rest =>
      emit (ResWrite (EvChunk chunk)) ;;;
      consume rest completes (fullResponse ++ chunk)%string
  end.

Definition citation (chunk : Scored.t) : Json :=
  JObj [ ("documentId", JNum (Chunk.documentId (Scored.chunk chunk)));
         ("content",
          JStr (substring 0 200 (Chunk.content (Scored.chunk chunk))
                  ++ "...")%string);
         ("similarity",
          JNum (Math_round (Scored.similarity chunk * 100)%R));
         ("metadata", Chunk.metadata (Scored.chunk chunk)) ].

(** The inner [try] of the chat handler. *)
Definition respond (content userId : string)
  (similarChunks : list Scored.t) (formattedHistory : list (string * string))
  : M unit :=
  let contextTexts :=
    map (fun chunk => Chunk.content (Scored.chunk chunk)) similarChunks in
  emit (CallGenerator content contextTexts formattedHistory) ;;;
  let responseStream :=
    streamChatResponse content contextTexts formattedHistory in
  fullResponse <-
    consume (GenResult.fragments responseStream)
            (GenResult.completes responseStream) "" ;;
  let sources := JArr (map citation similarChunks) in
  emit (ResWrite (EvSources sources)) ;;;
  emit (ResWrite EvDone) ;;;
  storage
    (MemStorage.createChatMessage (now 1)
       {| InsertChatMessage.content := fullResponse;
          InsertChatMessage.role := "assistant";
          InsertChatMessage.sources := Some sources;
          InsertChatMessage.userId := Some userId |}) ;;;
  ret tt.

(** The record the chat handler passes to [createChatMessage] first;
    [sources: null] is stored as it is. *)
Definition userMessage (content userId : string) : InsertChatMessage.t :=
  {| InsertChatMessage.content := content;
     InsertChatMessage.role := "user";
     InsertChatMessage.sources := None;
     InsertChatMessage.userId := Some userId |}.

(** POST /api/chat/send; [body] is [req.body.content]. *)
Definition chatSend (body : Json) (userId : string) : M unit :=
  try_catch
    (match body with
     | JStr content =>
         if String.eqb content "" then
           emit (ResJson 400 (Message "Message content is required"))
         else
           storage
             (MemStorage.createChatMessage (now 0)
                (userMessage content userId)) ;;;
           queryEmbedding <-
             match generateEmbedding 0 content with
             | Some e => ret e
             | None => throw
             end ;;
           similarChunks <-
             query (MemStorage.findSimilarChunks
                      queryEmbedding (Some userId) (Some 5)) ;;
           chatHistory <- query (MemStorage.getUserChatMessages userId) ;;
           let formattedHistory :=
             map (fun msg => (ChatMessage.role msg, ChatMessage.content msg))
                 chatHistory in
           emit (ResWriteHead 200) ;;;
           try_catch
             (respond content userId similarChunks formattedHistory)
             (emit (ResWrite (EvError "Failed to generate response"))) ;;;
           emit ResEnd
     | _ => emit (ResJson 400 (Message "Message content is required"))
     end)
    (emit (ResJson 500 (Message "Failed to process message"))).
(** *** Vocabulary for the properties of the upload handler *)

(** The chunk that the [i]-th iteration of the saving loop stores under
    [id]. *)
Definition savedChunk (documentId : Z) (i : nat) (id : Z)
  (chunkData : EmbeddedChunk.t) : Chunk.t :=
  {| Chunk.id := id;
     Chunk.documentId := documentId;
     Chunk.content := EmbeddedChunk.content chunkData;
     Chunk.embedding := EmbeddedChunk.embedding chunkData;
     Chunk.metadata := EmbeddedChunk.metadata chunkData;
     Chunk.createdAt := Some (now (S i)) |}.

Fixpoint savedEntries (documentId : Z) (i : nat) (id : Z)
  (l : list EmbeddedChunk.t) : JSMap.t Chunk.t :=
  match l with
  | [] => []
  | chunkData :: rest =>
      (id, savedChunk documentId i id chunkData)
        :: savedEntries documentId (S i) (id + 1) rest
  end.

(** The number of chunks saved before a [createChunk] rejects. *)
Fixpoint savedBefore (i : nat) (l : list EmbeddedChunk.t) : nat :=
  match l with
  | [] => 0%nat
  | _ :: rest =>
      if rejects (Persist i) then 0%nat else S (savedBefore (S i) rest)
  end.

(** Some step of the processing block raises: an awaited store call rejects
    or the extractor throws. *)
Definition raises (file : File.t) : bool :=
  rejects Progress25 ||
  match processDocument file with
  | None => true
  | Some processed =>
      let chunksWithEmbeddings :=
        generateChunkEmbeddings generateEmbedding
          (ProcessedDocument.chunks processed) in
      rejects Progress50 || rejects Progress75 ||
      Nat.ltb (savedBefore 0 chunksWithEmbeddings)
              (List.length chunksWithEmbeddings) ||
      rejects Finalize
  end.

(** The chunks saved when the processing block raises: none when the
    extractor throws, else the first ones of the embedded chunks. *)
Definition saved_on_error (f : File.t) (saved : list EmbeddedChunk.t) : Prop :=
  match processDocument f with
  | None => saved = []
  | Some processed =>
      exists rest,
        generateChunkEmbeddings generateEmbedding
          (ProcessedDocument.chunks processed)
        = saved ++ rest
  end.

(** A document as the completed pipeline leaves it. *)
Definition completed (d : Document.t) (processed : ProcessedDocument.t)
  : Document.t :=
  {| Document.id := Document.id d;
     Document.name := Document.name d;
     Document.originalName := Document.originalName d;
     Document.mimeType := Document.mimeType d;
     Document.size := Document.size d;
     Document.content := ProcessedDocument.content processed;
     Document.chunkCount :=
       Z.of_nat (List.length (ProcessedDocument.chunks processed));
     Document.status := "completed";
     Document.progress := 100;
     Document.userId := Document.userId d;
     Document.uploadedAt := Document.uploadedAt d |}.

(** A document as the [catch] of the pipeline leaves it. *)
Definition failed (d : Document.t) : Document.t :=
  {| Document.id := Document.id d;
     Document.name := Document.name d;
     Document.originalName := Document.originalName d;
     Document.mimeType := Document.mimeType d;
     Document.size := Document.size d;
     Document.content := Document.content d;
     Document.chunkCount := Document.chunkCount d;
     Document.status := "error";
     Document.progress := 0;
     Document.userId := Document.userId d;
     Document.uploadedAt := Document.uploadedAt d |}.
End Handlers.

(** [MemStorage] rejects no call. *)
Definition never (call : PipelineCall) : bool := false.


(** The calls of the generator in a trace. *)
Definition generatorCalls (trace : list Effect) : list Effect :=
  filter (fun e => match e with CallGenerator _ _ _ => true | _ => false end)
         trace.

(** The frames written on the stream in a trace. *)
Fixpoint frames (trace : list Effect) : list Event :=
  match trace with
  | [] => []
  | ResWrite ev :: rest => ev :: frames rest
  | _ :: rest => frames rest
  end.

Definition isAssistant (m : ChatMessage.t) : bool :=
  String.eqb (ChatMessage.role m) "assistant".
End Routes.

(** ** Store invariants *)

Module Invariant.
(** The counter of a map is at least 1; the keys of the map are pairwise
    distinct, at least 1 and below the counter. *)
Definition keys_ok {V : Type} (counter : Z) (m : JSMap.t V) : Prop :=
  1 <= counter /\
  NoDup (JSMap.keys m) /\
  Forall (fun k => 1 <= k < counter) (JSMap.keys m).

(** Every record sits under its own [id]. *)
Definition keyed {V : Type} (id_of : V -> Z) (m : JSMap.t V) : Prop :=
  Forall (fun kv => id_of (snd kv) = fst kv) m.

(** What holds of the three maps whatever the methods are called with. *)
Record keys_wf (s : MemStorage.t) : Prop := mk_keys_wf {
  document_keys :
    keys_ok (MemStorage.currentDocumentId s) (MemStorage.documents s);
  chunk_keys : keys_ok (MemStorage.currentChunkId s) (MemStorage.chunks s);
  message_keys :
    keys_ok (MemStorage.currentMessageId s) (MemStorage.chatMessages s)
}.

(** In addition, every chunk and every message carries the id it is stored
    under.  This much holds after any sequence of calls. *)
Record sound (s : MemStorage.t) : Prop := mk_sound {
  sound_keys : keys_wf s;
  chunks_keyed : keyed Chunk.id (MemStorage.chunks s);
  messages_keyed : keyed ChatMessage.id (MemStorage.chatMessages s)
}.

(** A well-formed store: the documents carry the id of their key too. *)
Record wf (s : MemStorage.t) : Prop := mk_wf {
  wf_sound : sound s;
  documents_keyed : keyed Document.id (MemStorage.documents s)
}.

(** The methods of [IStorage] that write, with their arguments. *)
Inductive Op : Type :=
| CreateDocument (now : Z) (ins : InsertDocument.t)
| UpdateDocument (id : Z) (updates : Document.partial)
| UpdateDocumentProgress (id : Z) (progress : Z) (status : option string)
| DeleteDocument (id : Z)
| CreateChunk (now : Z) (ins : InsertChunk.t)
| DeleteChunksByDocument (documentId : Z)
| CreateChatMessage (now : Z) (ins : InsertChatMessage.t)
| ClearChatMessages (userId : option string).

(** The store after a call. *)
Definition run (op : Op) (s : MemStorage.t) : MemStorage.t :=
  match op with
  | CreateDocument now ins => snd (MemStorage.createDocument now ins s)
  | UpdateDocument id updates => snd (MemStorage.updateDocument id updates s)
  | UpdateDocumentProgress id progress status =>
      snd (MemStorage.updateDocumentProgress id progress status s)
  | DeleteDocument id => snd (MemStorage.deleteDocument id s)
  | CreateChunk now ins => snd (MemStorage.createChunk now ins s)
  | DeleteChunksByDocument documentId =>
      snd (MemStorage.deleteChunksByDocument documentId s)
  | CreateChatMessage now ins => snd (MemStorage.createChatMessage now ins s)
  | ClearChatMessages userId => snd (MemStorage.clearChatMessages userId s)
  end.

(** A call that does not rewrite the [id] of a document: every call but an
    [updateDocument] whose partial update carries another [id]. *)
Definition keeps_ids (op : Op) : Prop :=
  match op with
  | UpdateDocument id updates =>
      Document.p_id updates = None \/ Document.p_id updates = Some id
  | _ => True
  end.

(** The stores reached from the constructor by calls that are [allowed]. *)
Inductive reachable (allowed : Op -> Prop) : MemStorage.t -> Prop :=
| reach_init : reachable allowed MemStorage.init
| reach_run (op : Op) (s : MemStorage.t) :
    reachable allowed s -> allowed op -> reachable allowed (run op s).

Definition any_call (op : Op) : Prop := True.


End Invariant.

(** ** Frames and sample stores *)

Module Frame.
(** Two versions of a document that differ at most in [progress] and
    [status]. *)
Definition same_but_progress_status (d d' : Document.t) : Prop :=
  Document.id d' = Document.id d /\
  Document.name d' = Document.name d /\
  Document.originalName d' = Document.originalName d /\
  Document.mimeType d' = Document.mimeType d /\
  Document.size d' = Document.size d /\
  Document.content d' = Document.content d /\
  Document.chunkCount d' = Document.chunkCount d /\
  Document.userId d' = Document.userId d /\
  Document.uploadedAt d' = Document.uploadedAt d.

(** Two stores that differ at most in the documents map. *)
Definition same_but_documents (s s' : MemStorage.t) : Prop :=
  MemStorage.chunks s' = MemStorage.chunks s /\
  MemStorage.chatMessages s' = MemStorage.chatMessages s /\
  MemStorage.currentDocumentId s' = MemStorage.currentDocumentId s /\
  MemStorage.currentChunkId s' = MemStorage.currentChunkId s /\
  MemStorage.currentMessageId s' = MemStorage.currentMessageId s.
End Frame.

Module Sample.
Import Invariant.

Definition upload_of (owner : option string) (name : string) : InsertDocument.t :=
  InsertDocument.mk name name "text/plain" 12 "" None None None owner.

Definition chunk_of (documentId : Z) (text : string) (e : list R) : InsertChunk.t :=
  InsertChunk.mk documentId text (Some e) None.

Definition message_of (owner : option string) (text : string) : InsertChatMessage.t :=
  InsertChatMessage.mk text "user" None owner.

(** Documents 1 (of alice), 2 (of bob) and 3 (without owner), one chunk for
    each of the first two, and one message of alice and one of bob. *)
Definition ops : list Op :=
  [ CreateDocument 100 (upload_of (Some "alice") "a.txt");
    CreateDocument 200 (upload_of (Some "bob") "b.txt");
    CreateDocument 250 (upload_of None "c.txt");
    CreateChunk 300 (chunk_of 1 "alpha" [1%R; 0%R]);
    CreateChunk 400 (chunk_of 2 "beta" [0%R; 1%R]);
    CreateChatMessage 500 (message_of (Some "alice") "hello");
    CreateChatMessage 600 (message_of (Some "bob") "hi") ].

Definition play (l : list Op) (s : MemStorage.t) : MemStorage.t :=
  fold_left (fun s op => run op s) l s.

Definition library : MemStorage.t := play ops MemStorage.init.

(** A transcript with a message of the owner [""] and one of bob. *)
Definition mixed : MemStorage.t :=
  play [ CreateChatMessage 500 (message_of (Some "") "hello");
         CreateChatMessage 600 (message_of (Some "bob") "hi") ]
       MemStorage.init.

(** [{ id: 2 }] as a partial update. *)
Definition id_two : Document.partial :=
  Document.mkPartial (Some 2) None None None None None None None None None None.

(** The sample store after [updateDocument(1, { id: 2 })]. *)
Definition rewritten : MemStorage.t := run (UpdateDocument 1 id_two) library.

(** [{ id: 4 }] as a partial update. *)
Definition id_four : Document.partial :=
  Document.mkPartial (Some 4) None None None None None None None None None None.

End Sample.

(** ** Ranking vocabulary *)

Module Ranking.



(** [l] starts [l']. *)
Definition prefix {A : Type} (l l' : list A) : Prop := exists rest, l' = l ++ rest.
End Ranking.

(** ** Sample collaborators *)

Module SampleRun.
Import DocumentProcessor Routes.

Definition file : File.t := File.mk "notes.txt" "text/plain" 2 [].

Definition twoChunks : ProcessedDocument.t :=
  ProcessedDocument.mk "ab" [RawChunk.mk "a" JNull; RawChunk.mk "b" JNull].

(** An extractor that succeeds, and one that throws. *)
Definition extracts (f : File.t) : option ProcessedDocument.t := Some twoChunks.

(** An embedder that throws on its second call only. *)
Definition secondFails (i : nat) (text : string) : option (list R) :=
  if Nat.eqb i 1 then None else Some [1%R].

(** A generator that yields two fragments and fails. *)
Definition breaks (query : string) (context : list string)
  (history : list (string * string)) : GenResult.t :=
  GenResult.mk ["Hel"; "lo"] false.


Definition clock (k : nat) : Z := 1000 + Z.of_nat k.

Definition fresh : World := mkWorld MemStorage.init [].

Definition stocked : World := mkWorld Sample.library [].
End SampleRun.

From Stdlib Require DecimalString.

(** ** Vocabulary for further properties of the store *)

Module Vector.
End Vector.

Module Listing.
(** [a] may stand before [b] in a list of documents, most recent first. *)
Definition newest_first (a b : Document.t) : Prop :=
  Document.time b <= Document.time a.

Definition uploaded_at (v : Z) (d : Document.t) : bool := Document.time d =? v.

(** [a] may stand before [b] in a transcript, oldest first. *)
Definition oldest_first (a b : ChatMessage.t) : Prop :=
  ChatMessage.time a <= ChatMessage.time b.

Definition created_at (v : Z) (m : ChatMessage.t) : bool :=
  ChatMessage.time m =? v.

(** [l] lists the records [l0]: the same records, in the order [before],
    those of one timestamp in the order they have in [l0]. *)
Definition lists {A : Type} (before : A -> A -> Prop) (stamped : Z -> A -> bool)
  (l0 l : list A) : Prop :=
  Permutation l l0 /\
  StronglySorted before l /\
  forall v, filter (stamped v) l = filter (stamped v) l0.

(** The stored documents that a listing for [userId] starts from. *)
Definition documents_of (userId : option string) (s : MemStorage.t)
  : list Document.t :=
  if truthy userId
  then filter (fun doc => owner_eqb (Document.userId doc) userId)
              (JSMap.values (MemStorage.documents s))
  else JSMap.values (MemStorage.documents s).

Definition messages_of (userId : option string) (s : MemStorage.t)
  : list ChatMessage.t :=
  if truthy userId
  then filter (fun msg => owner_eqb (ChatMessage.userId msg) userId)
              (JSMap.values (MemStorage.chatMessages s))
  else JSMap.values (MemStorage.chatMessages s).

(** The messages were stored in the order of their timestamps. *)
Definition chronological (s : MemStorage.t) : Prop :=
  StronglySorted oldest_first (JSMap.values (MemStorage.chatMessages s)).

(** No stored message is later than [now]. *)
Definition not_after (now : Z) (s : MemStorage.t) : Prop :=
  Forall (fun m => ChatMessage.time m <= now)
         (JSMap.values (MemStorage.chatMessages s)).

(** The owner of the parent document of a chunk is [userId]. *)
Definition parent_owned (userId : string) (s : MemStorage.t) (chunk : Chunk.t)
  : bool :=
  match MemStorage.getDocument (Chunk.documentId chunk) s with
  | Some d => owner_eqb (Document.userId d) (Some userId)
  | None => false
  end.
End Listing.

(** ** The other routes of server/routes.ts *)

Module Api.
(** [getUserId(req)]: the identifier of the session, made on first contact.
    [stamp] and [suffix] are the texts of [Date.now()] and of
    [Math.random().toString(36).substr(2, 9)] at the call; the session is
    [req.session.userId]. *)
Definition getUserId (stamp suffix : string) (session : option string)
  : string * option string :=
  match session with
  | Some userId =>
      if truthy session then (userId, session)
      else
        let fresh := "user_" ++ stamp ++ "_" ++ suffix in
        (fresh, Some fresh)
  | None =>
      let fresh := "user_" ++ stamp ++ "_" ++ suffix in
      (fresh, Some fresh)
  end%string.

Inductive Payload : Type :=
| Progress (progress : Z) (status : string)
| Note (message : string)
| Stats (documentCount chunkCount messageCount totalTokensUsed : Z).

(** [res.status(code).json(payload)]; [res.json] answers 200. *)
Record Response := respond { code : Z; payload : Payload }.

(** GET /api/documents/:id/progress; [id] is [parseInt(req.params.id)],
    [None] when it is [NaN], which is the key of no document. *)
Definition documentProgress (id : option Z) (userId : string)
  (s : MemStorage.t) : Response :=
  match match id with Some k => MemStorage.getDocument k s | None => None end with
  | None => respond 404 (Note "Document not found")
  | Some document =>
      if negb (owner_eqb (Document.userId document) (Some userId))
      then respond 403 (Note "Access denied")
      else respond 200 (Progress (Document.progress document)
                                 (Document.status document))
  end.

(** DELETE /api/documents/:id *)
Definition removeDocument (id : option Z) (userId : string)
  (s : MemStorage.t) : Response * MemStorage.t :=
  match id with
  | None => (respond 404 (Note "Document not found"), s)
  | Some k =>
      match MemStorage.getDocument k s with
      | None => (respond 404 (Note "Document not found"), s)
      | Some document =>
          if negb (owner_eqb (Document.userId document) (Some userId))
          then (respond 403 (Note "Access denied"), s)
          else
            let (success, s') := MemStorage.deleteDocument k s in
            if success
            then (respond 200 (Note "Document deleted successfully"), s')
            else (respond 404 (Note "Document not found"), s')
      end
  end.

(** DELETE /api/chat/messages *)
Definition clearMessages (userId : string) (s : MemStorage.t)
  : Response * MemStorage.t :=
  let (_, s') := MemStorage.clearChatMessages (Some userId) s in
  (respond 200 (Note "Chat history cleared"), s').

(** The loop of GET /api/stats that adds up the chunks of the documents. *)
Definition countChunks (documents : list Document.t) (s : MemStorage.t) : Z :=
  fold_left
    (fun chunkCount doc =>
       chunkCount
       + Z.of_nat (List.length
                     (MemStorage.getChunksByDocument (Document.id doc) s)))
    documents 0.

(** GET /api/stats *)
Definition stats (userId : string) (s : MemStorage.t) : Response :=
  let documents := MemStorage.getUserDocuments userId s in
  let messages := MemStorage.getUserChatMessages userId s in
  let chunkCount := countChunks documents s in
  respond 200
    (Stats (Z.of_nat (List.length documents)) chunkCount
           (Z.of_nat (List.length messages))
           (Z.of_nat (List.length messages) * 100)).

(** DELETE /api/chat/messages for a session: the identifier comes from
    [getUserId]. *)
Definition clearMessagesOf (stamp suffix : string) (session : option string)
  (s : MemStorage.t) : Response * MemStorage.t * option string :=
  let (userId, session') := getUserId stamp suffix session in
  (clearMessages userId s, session').
End Api.

(** ** Vocabulary for the chat handler *)

Module Chat.
Section Run.
Variable generateEmbedding : nat -> string -> option (list R).
Variable streamChatResponse :
  string -> list string -> list (string * string) -> Routes.GenResult.t.
Variable now : nat -> Z.
Variables (content userId : string) (queryEmbedding : list R)
          (w : Routes.World).

(** The store once the user's message is saved. *)
Definition posted : ChatMessage.t * MemStorage.t :=
  MemStorage.createChatMessage (now 0) (Routes.userMessage content userId)
    (Routes.store w).

(** The local [similarChunks] of the handler. *)
Definition similarChunks : list Scored.t :=
  MemStorage.findSimilarChunks queryEmbedding (Some userId) (Some 5)
    (snd posted).

Definition contextTexts : list string :=
  map (fun chunk => Chunk.content (Scored.chunk chunk)) similarChunks.

Definition formattedHistory : list (string * string) :=
  map (fun msg => (ChatMessage.role msg, ChatMessage.content msg))
      (MemStorage.getUserChatMessages userId (snd posted)).

Definition answer : Routes.GenResult.t :=
  streamChatResponse content contextTexts formattedHistory.

(** [fullResponse] once every fragment has been added to it. *)
Definition fullResponse : string :=
  fold_left String.append (Routes.GenResult.fragments answer) "".

Definition sources : Json := JArr (map Routes.citation similarChunks).

(** The record the handler passes to [createChatMessage] at the end. *)
Definition assistantMessage : InsertChatMessage.t :=
  {| InsertChatMessage.content := fullResponse;
     InsertChatMessage.role := "assistant";
     InsertChatMessage.sources := Some sources;
     InsertChatMessage.userId := Some userId |}.

Definition chunkFrames : list Routes.Effect :=
  map (fun chunk => Routes.ResWrite (Routes.EvChunk chunk))
      (Routes.GenResult.fragments answer).

(** What the handler writes once the embedding of the question is there. *)
Definition written : list Routes.Effect :=
  [Routes.ResWriteHead 200;
   Routes.CallGenerator content contextTexts formattedHistory]
    ++ chunkFrames
    ++ (if Routes.GenResult.completes answer
        then [Routes.ResWrite (Routes.EvSources sources);
              Routes.ResWrite Routes.EvDone; Routes.ResEnd]
        else [Routes.ResWrite
                (Routes.EvError "Failed to generate response");
              Routes.ResEnd]).

(** The store the handler leaves. *)
Definition final : MemStorage.t :=
  if Routes.GenResult.completes answer
  then snd (MemStorage.createChatMessage (now 1) assistantMessage (snd posted))
  else snd posted.
End Run.
End Chat.

Module SampleChat.
(** An embedder that throws on every call. *)
Definition embedderThrows (i : nat) (text : string) : option (list R) := None.

(** An embedder that returns the same vector for every text. *)
Definition embeds (i : nat) (text : string) : option (list R) :=
  Some [1%R; 0%R].

(** A generator that yields two fragments and completes. *)
Definition answers (query : string) (context : list string)
  (history : list (string * string)) : Routes.GenResult.t :=
  Routes.GenResult.mk ["Hel"; "lo"] true.
End SampleChat.

(** ** The chat requests of services/openai.ts *)

Module OpenAI.
Import Stdlib.Strings.Ascii.

(** The line feed of a template literal. *)
Definition nl : string := String "010"%char EmptyString.

(** [`...Context:\n${contextString}`] *)
Definition systemPrompt (contextString : string) : string :=
  ("You are a helpful AI assistant that answers questions based on the provided document context. "
   ++ nl
   ++ "Use the context to provide accurate, detailed answers. If the context doesn't contain enough information to answer the question, say so clearly."
   ++ nl
   ++ "Always cite which parts of the context you're using in your response."
   ++ nl ++ nl
   ++ "Context:" ++ nl ++ contextString)%string.

(** [arr.slice(-n)]: the last [n] elements, all of them when there are
    fewer. *)
Definition slice_last {A : Type} (n : nat) (l : list A) : list A :=
  skipn (List.length l - n) l.

(** The array [messages] of [streamChatResponse] (and, alike, of
    [generateChatResponse]); an entry is a role and a content. *)
Definition messages (query : string) (context : list string)
  (chatHistory : list (string * string)) : list (string * string) :=
  [("system", systemPrompt (String.concat (nl ++ nl) context))]
    ++ slice_last 10 chatHistory
    ++ [("user", query)].

(** The argument of [openai.chat.completions.create]. *)
Record Request := mkRequest {
  model : string;
  request_messages : list (string * string);
  max_tokens : Z;
  temperature : R;
  stream : bool
}.

Definition request (streamed : bool) (query : string) (context : list string)
  (chatHistory : list (string * string)) : Request :=
  {| model := "gpt-4o";
     request_messages := messages query context chatHistory;
     max_tokens := 1000;
     temperature := (1 / 10)%R;
     stream := streamed |}.

(** What the API streams back: [chunk.choices[0]?.delta?.content] of every
    chunk, [None] when it is [undefined] or [null], and whether the
    iteration ends ([false]: it throws after these chunks). *)
Record Stream := mkStream { deltas : list (option string); ends : bool }.

(** The generator [streamChatResponse] returns yields the truthy contents. *)
Definition yielded (deltas : list (option string)) : list string :=
  map (fun content => nullish content "") (filter truthy deltas).

Section WithApi.
(** [openai.chat.completions.create] with [stream: true]; [None] when the
    call throws. *)
Variable create : Request -> option Stream.

Definition streamChatResponse (query : string) (context : list string)
  (chatHistory : list (string * string)) : Routes.GenResult.t :=
  match create (request true query context chatHistory) with
  | Some stream =>
      Routes.GenResult.mk (yielded (deltas stream)) (ends stream)
  | None => Routes.GenResult.mk [] false
  end.
End WithApi.
End OpenAI.

(** ** The labels of the client (DocumentList.tsx, ChatMessages) *)

(** [`${n} ${unit}${n > 1 ? "s" : ""} ago`] for an integer [n]. *)
Definition ago (n : Z) (unit : string) : string :=
  let plural : string := if 1 <? n then "s" else "" in
  (DecimalString.NilZero.string_of_int (Z.to_int n)
   ++ " " ++ unit ++ plural ++ " ago")%string.

Module DocumentList.


(** [formatTimeAgo]; [diff] is [now.getTime() - uploaded.getTime()], in
    milliseconds. *)
Definition formatTimeAgo (diff : Z) : string :=
  let diffInHours := diff / (1000 * 60 * 60) in
  if diffInHours <? 1 then "Just now"
  else if diffInHours <? 24 then ago diffInHours "hour"
  else
    let diffInDays := diffInHours / 24 in
    ago diffInDays "day".
End DocumentList.

Module ChatMessages.
(** [formatTimeAgo] of the message list; [diff] is [now.getTime() -
    messageTime.getTime()]. *)
Definition formatTimeAgo (diff : Z) : string :=
  let diffInMinutes := diff / (1000 * 60) in
  if diffInMinutes <? 1 then "Just now"
  else if diffInMinutes <? 60 then ago diffInMinutes "minute"
  else
    let diffInHours := diffInMinutes / 60 in
    if diffInHours <? 24 then ago diffInHours "hour"
    else
      let diffInDays := diffInHours / 24 in
      ago diffInDays "day".
End ChatMessages.

Module SampleApi.
(** An API that streams four chunks, two of them without text. *)
Definition streams (r : OpenAI.Request) : option OpenAI.Stream :=
  Some (OpenAI.mkStream [Some "Hel"; None; Some ""; Some "lo"] true).

Definition history : list (string * string) :=
  [("user", "a"); ("assistant", "b")].
End SampleApi.

(** ** Text extraction (services/documentProcessor.ts) *)

Module DocumentText.
Import Stdlib.Strings.Ascii.

(** A character of a string stands for one code unit; [buffer.toString
    ('latin1')] is then the string of the bytes. *)
Definition code (c : ascii) : nat := nat_of_ascii c.

(** [/[a-zA-Z]/] on one character. *)
Definition isLetter (c : ascii) : bool :=
  ((Nat.leb 65 (code c) && Nat.leb (code c) 90)
   || (Nat.leb 97 (code c) && Nat.leb (code c) 122))%bool.

(** [/[a-zA-Z]/.test(text)] *)
Fixpoint hasLetter (text : string) : bool :=
  match text with
  | EmptyString => false
  | String c rest => isLetter c || hasLetter rest
  end.

(** [\s] on a code unit below 256: tab, line feed, vertical tab, form feed,
    carriage return, space and no-break space.  [trim] strips the same. *)
Definition isSpace (c : ascii) : bool :=
  existsb (Nat.eqb (code c)) [9; 10; 11; 12; 13; 32; 160]%nat.

(** [bufferStr.match(/\(([^)]+)\)/g)], each match without its two
    parentheses.  [current] is the run read since an opening parenthesis,
    [None] outside of one: a match starts at the first [(] that is followed
    by another character than [)] and runs to the next [)]; with no [)]
    left there is no further match. *)
Fixpoint groups (current : option string) (s : string) : list string :=
  match s with
  | EmptyString => []
  | String c rest =>
      match current with
      | None =>
          if Ascii.eqb c "(" then groups (Some EmptyString) rest
          else groups None rest
      | Some run =>
          if Ascii.eqb c ")" then
            match run with
            | EmptyString => groups None rest
            | String _ _ => run :: groups None rest
            end
          else groups (Some (run ++ String c EmptyString)%string) rest
      end
  end.

(** [text.replace(/\s+/g, ' ')]; [inRun] says that the previous character
    was white space. *)
Fixpoint collapse (inRun : bool) (s : string) : string :=
  match s with
  | EmptyString => EmptyString
  | String c rest =>
      if isSpace c then
        if inRun then collapse true rest
        else String " " (collapse true rest)
      else String c (collapse false rest)
  end.

Fixpoint trimStart (s : string) : string :=
  match s with
  | EmptyString => EmptyString
  | String c rest => if isSpace c then trimStart rest else s
  end.

Fixpoint trimEnd (s : string) : string :=
  match s with
  | EmptyString => EmptyString
  | String c rest =>
      match trimEnd rest with
      | EmptyString => if isSpace c then EmptyString else String c EmptyString
      | String _ _ as kept => String c kept
      end
  end.

(** [text.trim()] *)
Definition trim (s : string) : string := trimEnd (trimStart s).

(** [text.replace(/\s+/g, ' ').trim()] *)
Definition normalise (text : string) : string := trim (collapse false text).

(** Every white-space character of the string is a plain space that does
    not follow white space; [prev] says that the string itself follows white
    space. *)
Fixpoint tidy (prev : bool) (s : string) : bool :=
  match s with
  | EmptyString => true
  | String c rest =>
      if isSpace c
      then Ascii.eqb c " " && negb prev && tidy true rest
      else tidy false rest
  end.

(** The last character of the string is white space. *)
Fixpoint endsInSpace (s : string) : bool :=
  match s with
  | EmptyString => false
  | String c EmptyString => isSpace c
  | String _ rest => endsInSpace rest
  end.

Definition pdfNotice (filename : string) : string :=
  ("Document content could not be extracted from PDF: " ++ filename
   ++ ". This appears to be a PDF file that requires specialized parsing.")%string.

Definition docxNotice (filename : string) : string :=
  ("Document content from DOCX file: " ++ filename
   ++ ". This file requires specialized parsing for full text extraction.")%string.

(** The text of the PDF branch before its length is tested. *)
Definition pdfText (buffer : list Byte.byte) : string :=
  let bufferStr := string_of_list_byte buffer in
  let textMatches := groups None bufferStr in
  let text :=
    String.concat " "
      (filter (fun text => Nat.ltb 2 (String.length text) && hasLetter text)
              textMatches) in
  normalise text.

(** The document of LlamaIndex: its text, and the metadata [filename],
    [mimeType] and [source]. *)
Record LlamaDocument := mkDocument {
  text : string;
  filename : string;
  mimeType : string;
  source : string
}.

(** A node of the parser: [node.text], [node.getContent()], [node.id_]. *)
Record Node := mkNode {
  node_text : option string;
  getContent : string;
  id_ : string
}.

Section Processing.
(** [buffer.toString('utf8')] *)
Variable utf8 : list Byte.byte -> string.
(** [nodeParser.getNodesFromDocuments([document])] of LlamaIndex with chunk
    size 500 and overlap 50; [None] when it throws. *)
Variable getNodesFromDocuments : LlamaDocument -> option (list Node).
(** The object [{source, chunkIndex, nodeId, ...node.metadata}] of the
    chunk made from a node; [node.metadata] is the parser's. *)
Variable chunkMetadata : string -> nat -> Node -> Json.

Definition createDocumentFromBuffer (buffer : list Byte.byte)
  (filename mimeType : string) : LlamaDocument :=
  let text :=
    if String.eqb mimeType "application/pdf" then
      let text := pdfText buffer in
      if Nat.ltb (String.length text) 100 then pdfNotice filename else text
    else if String.eqb mimeType "text/plain" then utf8 buffer
    else if String.eqb mimeType
              "application/vnd.openxmlformats-officedocument.wordprocessingml.document"
    then
      let text := utf8 buffer in
      if negb (hasLetter text) || Nat.ltb (String.length text) 50
      then docxNotice filename
      else text
    else EmptyString in
  mkDocument text filename mimeType filename.

(** [nodes.map((node, index) => ...)], from [index] on. *)
Fixpoint chunksFrom (filename : string) (index : nat) (nodes : list Node)
  : list DocumentProcessor.RawChunk.t :=
  match nodes with
  | [] => []
  | node :: rest =>
      DocumentProcessor.RawChunk.mk
        (if truthy (node_text node) then nullish (node_text node) EmptyString
         else getContent node)
        (chunkMetadata filename index node)
        :: chunksFrom filename (S index) rest
  end.

(** [processDocument(buffer, mimetype, originalname)] as the upload route
    calls it; [None] when it throws. *)
Definition processDocument (file : Routes.File.t)
  : option DocumentProcessor.ProcessedDocument.t :=
  let document :=
    createDocumentFromBuffer (Routes.File.buffer file)
      (Routes.File.originalname file) (Routes.File.mimetype file) in
  match getNodesFromDocuments document with
  | Some nodes =>
      Some (DocumentProcessor.ProcessedDocument.mk (text document)
              (chunksFrom (Routes.File.originalname file) 0 nodes))
  | None => None
  end.
End Processing.
End DocumentText.

Module SamplePdf.
(** A PDF body with one short literal string. *)
Definition body : list Byte.byte := list_byte_of_string "BT (Hello) Tj ET".

Definition scan : Routes.File.t :=
  Routes.File.mk "scan.pdf" "application/pdf" 16 body.

Definition decode (buffer : list Byte.byte) : string :=
  string_of_list_byte buffer.

(** A parser that makes one node of the whole text. *)
Definition oneNode (document : DocumentText.LlamaDocument)
  : option (list DocumentText.Node) :=
  Some [DocumentText.mkNode (Some (DocumentText.text document))
          (DocumentText.text document) "n1"].

Definition noMetadata (filename : string) (index : nat)
  (node : DocumentText.Node) : Json := JNull.
End SamplePdf.

(** * Properties *)

(** ** Cosine similarity *)

Section CosineFacts.
Import Cosine.
Local Open Scope R_scope.
















End CosineFacts.



(** ** Maps and arrays *)

Section MapFacts.
Context {V : Type}.
Implicit Types (m : JSMap.t V) (k : Z) (v : V).

Lemma get_set_same k v m : JSMap.get k (JSMap.set k v m) = Some v.
Proof.
  induction m as [|[k' v'] m IH]; simpl.
  - now rewrite Z.eqb_refl.
  - destruct (k =? k') eqn:E; simpl; rewrite ?Z.eqb_refl, ?E; auto.
Qed.

Lemma get_set_other k k' v m :
  k' <> k -> JSMap.get k' (JSMap.set k v m) = JSMap.get k' m.
Proof.
  intros Hne. induction m as [|[k0 v0] m IH]; simpl.
  - apply Z.eqb_neq in Hne. now rewrite Hne.
  - destruct (k =? k0) eqn:E; simpl.
    + apply Z.eqb_eq in E. subst k0. apply Z.eqb_neq in Hne. now rewrite Hne.
    + now rewrite IH.
Qed.

Lemma get_none_not_in k m : JSMap.get k m = None <-> ~ In k (JSMap.keys m).
Proof.
  induction m as [|[k' v'] m IH]; simpl.
  - tauto.
  - destruct (k =? k') eqn:E.
    + apply Z.eqb_eq in E. split; [discriminate | intros H; exfalso; auto].
    + apply Z.eqb_neq in E. rewrite IH. split.
      * intros H [Hk|Hk]; [congruence | auto].
      * intros H Hk. apply H. now right.
Qed.

Lemma get_some_in k v m : JSMap.get k m = Some v -> In (k, v) m.
Proof.
  induction m as [|[k' v'] m IH]; simpl; [discriminate|].
  destruct (k =? k') eqn:E.
  - apply Z.eqb_eq in E. intros [= ->]. left. congruence.
  - auto.
Qed.

Lemma in_get k v m : NoDup (JSMap.keys m) -> In (k, v) m -> JSMap.get k m = Some v.
Proof.
  induction m as [|[k' v'] m IH]; simpl; [tauto|].
  intros Hnd [H|H].
  - injection H as -> ->. now rewrite Z.eqb_refl.
  - inversion Hnd as [|? ? Hk' Hnd']; subst.
    destruct (k =? k') eqn:E; [|auto].
    apply Z.eqb_eq in E. subst k'. exfalso. apply Hk'.
    change k with (fst (k, v)). now apply in_map.
Qed.

(** A [set] on an absent key appends. *)
Lemma set_absent k v m : JSMap.get k m = None -> JSMap.set k v m = m ++ [(k, v)].
Proof.
  induction m as [|[k' v'] m IH]; simpl; [reflexivity|].
  destruct (k =? k'); [discriminate|]. intros H. now rewrite IH.
Qed.

(** A [set] keeps the keys of a map that has the key. *)
Lemma keys_set_present k v m :
  JSMap.get k m <> None -> JSMap.keys (JSMap.set k v m) = JSMap.keys m.
Proof.
  induction m as [|[k' v'] m IH]; simpl; [congruence|].
  destruct (k =? k') eqn:E; simpl.
  - apply Z.eqb_eq in E. now subst.
  - intros H. now rewrite IH.
Qed.

Lemma in_set k v m kv :
  In kv (JSMap.set k v m) -> kv = (k, v) \/ In kv m.
Proof.
  induction m as [|[k' v'] m IH]; simpl.
  - intros [H|[]]. now left.
  - destruct (k =? k') eqn:E; simpl.
    + intros [H|H]; auto.
    + intros [H|H]; auto. destruct (IH H); auto.
Qed.

Lemma filter_keeps_all {A : Type} (p : A -> bool) (l : list A) :
  (forall x, In x l -> p x = true) -> filter p l = l.
Proof.
  intros H. rewrite (filter_ext_in p (fun _ => true) l H). apply filter_true.
Qed.

(** On a map with distinct keys [delete] is a filter. *)
Lemma delete_filter k m :
  NoDup (JSMap.keys m) ->
  JSMap.delete k m = filter (fun kv => negb (fst kv =? k)) m.
Proof.
  induction m as [|[k' v'] m IH]; simpl; [reflexivity|].
  intros Hnd. inversion Hnd as [|? ? Hk' Hnd']; subst.
  rewrite (Z.eqb_sym k' k). destruct (k =? k') eqn:E; simpl.
  - apply Z.eqb_eq in E. subst k'. symmetry. apply filter_keeps_all.
    intros [k0 v0] Hin. simpl. apply negb_true_iff, Z.eqb_neq. intros ->.
    apply Hk'. change k with (fst (k, v0)). now apply in_map.
  - now rewrite IH.
Qed.

Lemma keys_filter_NoDup (p : Z * V -> bool) m :
  NoDup (JSMap.keys m) -> NoDup (JSMap.keys (filter p m)).
Proof.
  induction m as [|kv m IH]; simpl; [auto|].
  intros Hnd. inversion Hnd as [|? ? Hk Hnd']; subst.
  destruct (p kv); simpl; [|auto]. constructor; [|auto].
  intros Hin. apply Hk. unfold JSMap.keys in *.
  apply in_map_iff in Hin. destruct Hin as [x [Hx Hin]].
  apply filter_In in Hin. rewrite <- Hx. apply in_map, Hin.
Qed.

Lemma filter_filter_and {A : Type} (p q : A -> bool) (m : list A) :
  filter q (filter p m) = filter (fun kv => p kv && q kv) m.
Proof.
  induction m as [|kv m IH]; simpl; [reflexivity|].
  destruct (p kv); simpl; [destruct (q kv)|]; now rewrite IH.
Qed.

(** Deleting a list of keys one after the other. *)
Lemma delete_all_filter (ids : list Z) : forall m,
  NoDup (JSMap.keys m) ->
  fold_left (fun m id => JSMap.delete id m) ids m
  = filter (fun kv => negb (existsb (Z.eqb (fst kv)) ids)) m.
Proof.
  induction ids as [|id ids IH]; intros m Hnd; simpl.
  - symmetry. apply filter_keeps_all. auto.
  - rewrite delete_filter by exact Hnd.
    rewrite IH by (apply keys_filter_NoDup, Hnd).
    rewrite filter_filter_and. apply filter_ext. intros kv.
    destruct (fst kv =? id); reflexivity.
Qed.

Lemma NoDup_keys_inj m k v v' :
  NoDup (JSMap.keys m) -> In (k, v) m -> In (k, v') m -> v = v'.
Proof.
  intros Hnd H1 H2. apply in_get in H1; [|exact Hnd].
  apply in_get in H2; [|exact Hnd]. congruence.
Qed.

(** Deleting, by their own ids, the records that satisfy [p]. *)
Lemma delete_matching (id_of : V -> Z) (p : V -> bool) m :
  NoDup (JSMap.keys m) -> Invariant.keyed id_of m ->
  fold_left (fun m id => JSMap.delete id m)
            (map id_of (filter p (JSMap.values m))) m
  = filter (fun kv => negb (p (snd kv))) m.
Proof.
  intros Hnd Hkeyed. rewrite delete_all_filter by exact Hnd.
  apply filter_ext_in. intros [k v] Hin. simpl. f_equal.
  unfold Invariant.keyed in Hkeyed. rewrite Forall_forall in Hkeyed.
  destruct (p v) eqn:Hp.
  - apply existsb_exists. exists (id_of v). split.
    + apply in_map, filter_In. split; [|exact Hp].
      change v with (snd (k, v)). apply in_map, Hin.
    + apply Z.eqb_eq. symmetry. apply (Hkeyed (k, v) Hin).
  - apply not_true_is_false. intros H. apply existsb_exists in H.
    destruct H as [i [Hi Hk]]. apply Z.eqb_eq in Hk. subst i.
    apply in_map_iff in Hi. destruct Hi as [v' [Hid Hv']].
    apply filter_In in Hv'. destruct Hv' as [Hv' Hp'].
    apply in_map_iff in Hv'. destruct Hv' as [[k' v''] [Hs Hin']].
    simpl in Hs. subst v''. pose proof (Hkeyed _ Hin') as Hk'. simpl in Hk'.
    assert (Hkk : k' = k) by congruence. rewrite Hkk in Hin'.
    rewrite (NoDup_keys_inj m k v v' Hnd Hin Hin') in Hp. congruence.
Qed.
End MapFacts.

(** ** The document store *)

(** C9. [updateDocumentProgress] on a present id returns the updated
    document and stores it under the same key: its progress is the one given,
    its status is unchanged when no status is passed, every other field is the
    former one, every other key keeps its document, and the chunks, the
    messages and the counters are untouched.  On an absent id it returns
    nothing and the store is the same. *)
Theorem updateDocumentProgress_frame
  (s : MemStorage.t) (id progress : Z) (status : option string) :
  (forall document,
     MemStorage.getDocument id s = Some document ->
     exists updated s',
       MemStorage.updateDocumentProgress id progress status s
       = (Some updated, s') /\
       Document.progress updated = progress /\
       (status = None -> Document.status updated = Document.status document) /\
       (forall st, status = Some st -> st <> "" ->
                   Document.status updated = st) /\
       Frame.same_but_progress_status document updated /\
       MemStorage.getDocument id s' = Some updated /\
       (forall id', id' <> id ->
                    MemStorage.getDocument id' s' = MemStorage.getDocument id' s) /\
       JSMap.keys (MemStorage.documents s') = JSMap.keys (MemStorage.documents s) /\
       Frame.same_but_documents s s') /\
  (MemStorage.getDocument id s = None ->
   MemStorage.updateDocumentProgress id progress status s = (None, s)).
Proof.
  unfold MemStorage.getDocument, MemStorage.updateDocumentProgress. split.
  - intros document Hget. rewrite Hget. eexists. eexists.
    split; [reflexivity|]. simpl.
    split; [reflexivity|].
    split; [intros ->; reflexivity|].
    split.
    { intros st -> Hst. simpl. apply String.eqb_neq in Hst. now rewrite Hst. }
    split; [repeat split|].
    split; [apply get_set_same|].
    split; [intros id' Hne; now apply get_set_other|].
    split; [apply keys_set_present; congruence|].
    repeat split.
  - intros Hget. now rewrite Hget.
Qed.

Lemma updateDocumentProgress_frame_witness :
  (exists document,
     MemStorage.getDocument 1 Sample.library = Some document /\
     exists updated s',
       MemStorage.updateDocumentProgress 1 50 None Sample.library
       = (Some updated, s') /\
       Document.progress updated = 50 /\
       Document.status updated = Document.status document /\
       Frame.same_but_progress_status document updated /\
       MemStorage.getDocument 2 s' = MemStorage.getDocument 2 Sample.library) /\
  MemStorage.getDocument 9 Sample.library = None /\
  MemStorage.updateDocumentProgress 9 50 (Some "error") Sample.library
  = (None, Sample.library).
Proof.
  split.
  - eexists. split; [reflexivity|].
    destruct (proj1 (updateDocumentProgress_frame Sample.library 1 50 None)
                _ eq_refl)
      as (updated & s' & Hrun & Hp & Hnone & _ & Hframe & _ & Hother & _).
    exists updated, s'. split; [exact Hrun|]. split; [exact Hp|].
    split; [exact (Hnone eq_refl)|]. split; [exact Hframe|].
    apply Hother. discriminate.
  - split; [reflexivity|].
    exact (proj2 (updateDocumentProgress_frame Sample.library 9 50 (Some "error"))
             eq_refl).
Defined.

(** ** Preservation of the invariants *)

Section InvariantFacts.
Import Invariant.
Context {V : Type}.
Implicit Types (m : JSMap.t V) (k n : Z) (v : V).

Lemma keys_ok_fresh n m : keys_ok n m -> JSMap.get n m = None.
Proof.
  intros (_ & _ & Hlt). apply get_none_not_in. intros Hin.
  rewrite Forall_forall in Hlt. specialize (Hlt n Hin). lia.
Qed.

Lemma keys_ok_set_fresh n v m : keys_ok n m -> keys_ok (n + 1) (JSMap.set n v m).
Proof.
  intros Hok. pose proof (keys_ok_fresh n m Hok) as Hnone.
  destruct Hok as (H1 & Hnd & Hlt).
  rewrite set_absent by exact Hnone. unfold keys_ok, JSMap.keys.
  rewrite map_app. simpl. split; [lia|]. split.
  - apply NoDup_app; [exact Hnd | repeat constructor; auto |].
    intros a Ha [<-|[]]. apply get_none_not_in in Hnone. auto.
  - apply Forall_app. split.
    + eapply Forall_impl; [|exact Hlt]. simpl. intros; lia.
    + repeat constructor; lia.
Qed.

Lemma keys_ok_set_present n k v m :
  JSMap.get k m <> None -> keys_ok n m -> keys_ok n (JSMap.set k v m).
Proof.
  intros Hk Hok. unfold keys_ok. now rewrite keys_set_present.
Qed.

Lemma keys_ok_filter n (p : Z * V -> bool) m :
  keys_ok n m -> keys_ok n (filter p m).
Proof.
  intros (H1 & Hnd & Hlt). split; [exact H1|].
  split; [apply keys_filter_NoDup, Hnd|].
  rewrite Forall_forall in *. intros k Hk. apply Hlt.
  unfold JSMap.keys in *. apply in_map_iff in Hk. destruct Hk as [x [<- Hx]].
  apply filter_In in Hx. apply in_map, Hx.
Qed.

Lemma keys_ok_delete n k m : keys_ok n m -> keys_ok n (JSMap.delete k m).
Proof.
  intros Hok. rewrite delete_filter by apply Hok. now apply keys_ok_filter.
Qed.

Lemma keys_ok_delete_all n (ids : list Z) m :
  keys_ok n m -> keys_ok n (fold_left (fun m id => JSMap.delete id m) ids m).
Proof.
  intros Hok. rewrite delete_all_filter by apply Hok. now apply keys_ok_filter.
Qed.

Lemma keys_ok_empty n : 1 <= n -> keys_ok n ([] : JSMap.t V).
Proof. intros H. split; [exact H|]. split; constructor. Qed.

Lemma keyed_set (id_of : V -> Z) k v m :
  id_of v = k -> keyed id_of m -> keyed id_of (JSMap.set k v m).
Proof.
  unfold keyed. rewrite !Forall_forall. intros Hv Hm kv Hin.
  destruct (in_set k v m kv Hin) as [->|H]; auto.
Qed.

Lemma keyed_filter (id_of : V -> Z) (p : Z * V -> bool) m :
  keyed id_of m -> keyed id_of (filter p m).
Proof.
  unfold keyed. rewrite !Forall_forall. intros Hm kv Hin.
  apply filter_In in Hin. apply Hm, Hin.
Qed.

Lemma keyed_delete (id_of : V -> Z) k m :
  NoDup (JSMap.keys m) -> keyed id_of m -> keyed id_of (JSMap.delete k m).
Proof.
  intros Hnd Hm. rewrite delete_filter by exact Hnd. now apply keyed_filter.
Qed.

Lemma keyed_delete_all (id_of : V -> Z) (ids : list Z) m :
  NoDup (JSMap.keys m) -> keyed id_of m ->
  keyed id_of (fold_left (fun m id => JSMap.delete id m) ids m).
Proof.
  intros Hnd Hm. rewrite delete_all_filter by exact Hnd.
  now apply keyed_filter.
Qed.

(** Deleting the records of a list by their ids is deleting the list of
    their ids. *)
Lemma delete_records_ids (id_of : V -> Z) (l : list V) : forall m,
  fold_left (fun m r => JSMap.delete (id_of r) m) l m
  = fold_left (fun m id => JSMap.delete id m) (map id_of l) m.
Proof. induction l as [|r l IH]; intros m; simpl; auto. Qed.
End InvariantFacts.

Section Preservation.
Import Invariant.

Lemma init_wf : wf MemStorage.init.
Proof.
  split; [split; [split|..]|]; simpl; try apply keys_ok_empty; try lia;
    constructor.
Qed.

Lemma clearChatMessages_store (userId : option string) (s : MemStorage.t) :
  NoDup (JSMap.keys (MemStorage.chatMessages s)) ->
  keyed ChatMessage.id (MemStorage.chatMessages s) ->
  snd (MemStorage.clearChatMessages userId s)
  = MemStorage.with_chatMessages s
      (if truthy userId
       then filter (fun kv => negb (owner_eqb (ChatMessage.userId (snd kv)) userId))
                   (MemStorage.chatMessages s)
       else []).
Proof.
  intros Hnd Hk. unfold MemStorage.clearChatMessages.
  destruct (truthy userId); simpl; [|reflexivity].
  rewrite delete_records_ids, delete_matching by assumption. reflexivity.
Qed.

Lemma deleteChunksByDocument_store (documentId : Z) (s : MemStorage.t) :
  NoDup (JSMap.keys (MemStorage.chunks s)) ->
  keyed Chunk.id (MemStorage.chunks s) ->
  snd (MemStorage.deleteChunksByDocument documentId s)
  = MemStorage.with_chunks s
      (filter (fun kv => negb (Chunk.documentId (snd kv) =? documentId))
              (MemStorage.chunks s)).
Proof.
  intros Hnd Hk. unfold MemStorage.deleteChunksByDocument. simpl.
  now rewrite delete_matching.
Qed.

(** The keys stay distinct and below the counters, whatever is called. *)
Lemma run_keys_wf (op : Op) (s : MemStorage.t) : keys_wf s -> keys_wf (run op s).
Proof.
  intros [Hd Hc Hm]. destruct op; simpl.
  - split; simpl; auto using keys_ok_set_fresh.
  - unfold MemStorage.updateDocument.
    destruct (JSMap.get id (MemStorage.documents s)) eqn:E; simpl.
    + split; simpl; auto. apply keys_ok_set_present; congruence.
    + split; auto.
  - unfold MemStorage.updateDocumentProgress.
    destruct (JSMap.get id (MemStorage.documents s)) eqn:E; simpl.
    + split; simpl; auto. apply keys_ok_set_present; congruence.
    + split; auto.
  - unfold MemStorage.deleteDocument.
    destruct (JSMap.has id (MemStorage.documents s)); simpl.
    + split; simpl; auto using keys_ok_delete, keys_ok_delete_all.
    + split; simpl; auto using keys_ok_delete.
  - split; simpl; auto using keys_ok_set_fresh.
  - split; simpl; auto using keys_ok_delete_all.
  - split; simpl; auto using keys_ok_set_fresh.
  - unfold MemStorage.clearChatMessages. destruct (truthy userId); simpl.
    + split; simpl; auto. rewrite delete_records_ids.
      now apply keys_ok_delete_all.
    + split; simpl; auto. apply keys_ok_empty, Hm.
Qed.

(** Chunks and messages keep the id of their key, whatever is called. *)
Lemma run_sound (op : Op) (s : MemStorage.t) : sound s -> sound (run op s).
Proof.
  intros [Hk Hc Hm]. split; [now apply run_keys_wf|..];
    destruct Hk as [Kd Kc Km]; destruct op; simpl in *; auto.
  - unfold MemStorage.updateDocument.
    destruct (JSMap.get id (MemStorage.documents s)); simpl; auto.
  - unfold MemStorage.updateDocumentProgress.
    destruct (JSMap.get id (MemStorage.documents s)); simpl; auto.
  - unfold MemStorage.deleteDocument.
    destruct (JSMap.has id (MemStorage.documents s)); simpl; auto.
    apply keyed_delete_all; auto; apply Kc.
  - now apply keyed_set.
  - apply keyed_delete_all; auto; apply Kc.
  - unfold MemStorage.clearChatMessages. destruct (truthy userId); simpl; auto.
  - unfold MemStorage.updateDocument.
    destruct (JSMap.get id (MemStorage.documents s)); simpl; auto.
  - unfold MemStorage.updateDocumentProgress.
    destruct (JSMap.get id (MemStorage.documents s)); simpl; auto.
  - unfold MemStorage.deleteDocument.
    destruct (JSMap.has id (MemStorage.documents s)); simpl; auto.
  - now apply keyed_set.
  - unfold MemStorage.clearChatMessages. destruct (truthy userId); simpl.
    + rewrite delete_records_ids. apply keyed_delete_all; auto; apply Km.
    + constructor.
Qed.

(** The documents keep the id of their key under every call that keeps ids. *)
Lemma run_wf (op : Op) (s : MemStorage.t) :
  keeps_ids op -> wf s -> wf (run op s).
Proof.
  intros Hop [Hs Hd]. split; [now apply run_sound|].
  destruct Hs as [[Kd Kc Km] _ _]. destruct op; simpl in *; auto.
  - now apply keyed_set.
  - unfold MemStorage.updateDocument.
    destruct (JSMap.get id (MemStorage.documents s)) as [d|] eqn:E; simpl; auto.
    apply keyed_set; [|exact Hd]. simpl.
    apply get_some_in in E. unfold keyed in Hd. rewrite Forall_forall in Hd.
    specialize (Hd _ E). simpl in Hd.
    destruct Hop as [-> | ->]; simpl; auto.
  - unfold MemStorage.updateDocumentProgress.
    destruct (JSMap.get id (MemStorage.documents s)) as [d|] eqn:E; simpl; auto.
    apply keyed_set; [|exact Hd]. simpl.
    apply get_some_in in E. unfold keyed in Hd. rewrite Forall_forall in Hd.
    apply (Hd _ E).
  - unfold MemStorage.deleteDocument.
    destruct (JSMap.has id (MemStorage.documents s)); simpl;
      apply keyed_delete; auto; apply Kd.
  - unfold MemStorage.clearChatMessages. destruct (truthy userId); simpl; auto.
Qed.

Lemma reachable_sound (s : MemStorage.t) : reachable any_call s -> sound s.
Proof.
  induction 1 as [|op s _ IH Hop]; [apply init_wf | now apply run_sound].
Qed.

Lemma reachable_wf (s : MemStorage.t) : reachable keeps_ids s -> wf s.
Proof.
  induction 1 as [|op s _ IH Hop]; [apply init_wf | now apply run_wf].
Qed.

Lemma play_reachable (allowed : Op -> Prop) (l : list Op) : forall s,
  Forall allowed l -> reachable allowed s -> reachable allowed (Sample.play l s).
Proof.
  induction l as [|op l IH]; intros s Hl Hs; simpl; [exact Hs|].
  inversion Hl; subst. apply IH; [assumption|]. now constructor.
Qed.

Lemma library_wf : wf Sample.library.
Proof.
  apply reachable_wf, play_reachable; [|constructor].
  repeat constructor.
Qed.
End Preservation.

(** ** Sorting and slicing *)

Section ArrayFacts.
Context {A : Type}.

Lemma insert_perm (after : A -> A -> bool) (x : A) (l : list A) :
  Permutation (JSArray.insert after x l) (x :: l).
Proof.
  induction l as [|y l IH]; simpl; [apply Permutation_refl|].
  destruct (after x y); [|apply Permutation_refl].
  eapply Permutation_trans; [apply perm_skip, IH | apply perm_swap].
Qed.

Lemma sort_perm (after : A -> A -> bool) (l : list A) :
  Permutation (JSArray.sort after l) l.
Proof.
  induction l as [|x l IH]; simpl; [constructor|].
  eapply Permutation_trans; [apply insert_perm | now apply perm_skip].
Qed.

Lemma slice0_prefix (stop : Z) (l : list A) :
  Ranking.prefix (JSArray.slice0 stop l) l.
Proof.
  unfold JSArray.slice0, Ranking.prefix.
  destruct (stop <? 0); eexists; symmetry; apply firstn_skipn.
Qed.

Lemma slice0_length (stop : Z) (l : list A) :
  0 <= stop -> Z.of_nat (List.length (JSArray.slice0 stop l)) <= stop.
Proof.
  intros H. unfold JSArray.slice0.
  destruct (stop <? 0) eqn:E; [apply Z.ltb_lt in E; lia|].
  pose proof (firstn_le_length (Z.to_nat stop) l). lia.
Qed.

Lemma slice0_all (stop : Z) (l : list A) :
  Z.of_nat (List.length l) <= stop -> JSArray.slice0 stop l = l.
Proof.
  intros H. unfold JSArray.slice0.
  destruct (stop <? 0) eqn:E; [apply Z.ltb_lt in E; lia|].
  apply firstn_all2. lia.
Qed.

Lemma prefix_in (l l' : list A) (x : A) :
  Ranking.prefix l l' -> In x l -> In x l'.
Proof. intros [rest ->] H. apply in_or_app. now left. Qed.

End ArrayFacts.

Section RankingFacts.
Import Ranking.








(** Every result is the score of a candidate. *)
Lemma findSimilarChunks_in q userId limit s r :
  In r (MemStorage.findSimilarChunks q userId limit s) ->
  exists chunk, In chunk (MemStorage.candidates userId s) /\
                r = MemStorage.score q chunk.
Proof.
  unfold MemStorage.findSimilarChunks. intros H.
  eapply prefix_in in H; [|apply slice0_prefix].
  eapply Permutation_in in H; [|apply sort_perm].
  apply in_map_iff in H. destruct H as [c [<- Hc]]. eauto.
Qed.

(** Every candidate is a stored chunk with a non-empty embedding. *)
Lemma candidates_stored userId s chunk :
  In chunk (MemStorage.candidates userId s) ->
  In chunk (JSMap.values (MemStorage.chunks s)) /\
  Chunk.embedding chunk <> [].
Proof.
  unfold MemStorage.candidates. intros H.
  assert (H0 : In chunk
                 (filter (fun c => Nat.ltb 0 (List.length (Chunk.embedding c)))
                         (JSMap.values (MemStorage.chunks s)))).
  { destruct userId as [u|]; [|exact H].
    destruct (truthy (Some u)); [|exact H]. apply filter_In in H. apply H. }
  apply filter_In in H0. destruct H0 as [Hin Hlen]. split; [exact Hin|].
  intros E. rewrite E in Hlen. discriminate.
Qed.
End RankingFacts.


Lemma ranked_length q userId s :
  List.length (JSArray.sort MemStorage.lower
                 (map (MemStorage.score q) (MemStorage.candidates userId s)))
  = List.length (MemStorage.candidates userId s).
Proof.
  rewrite (Permutation_length (sort_perm _ _)). apply length_map.
Qed.

(** ** Similarity search *)




Section OwnerFacts.
Import Invariant.

Lemma owner_eqb_eq (x y : option string) : owner_eqb x y = true <-> x = y.
Proof.
  destruct x as [a|], y as [b|]; simpl; split; try congruence; auto.
  - intros H. apply String.eqb_eq in H. congruence.
  - intros [= ->]. apply String.eqb_refl.
Qed.

Lemma truthy_nonempty (A : string) : A <> "" -> truthy (Some A) = true.
Proof. intros H. simpl. apply String.eqb_neq in H. now rewrite H. Qed.

(** The documents listed for a non-empty owner are stored documents of
    that owner. *)
Lemma getUserDocuments_owned (A : string) (s : MemStorage.t) (d : Document.t) :
  A <> "" -> In d (MemStorage.getUserDocuments A s) ->
  In d (JSMap.values (MemStorage.documents s)) /\ Document.userId d = Some A.
Proof.
  intros HA Hd. unfold MemStorage.getUserDocuments, MemStorage.getAllDocuments in Hd.
  rewrite (truthy_nonempty A HA) in Hd.
  eapply Permutation_in in Hd; [|apply sort_perm].
  apply filter_In in Hd. destruct Hd as [Hin Ho].
  split; [exact Hin | now apply owner_eqb_eq].
Qed.

(** In a well-formed store a stored document is the one found under its id. *)
Lemma stored_document_found (s : MemStorage.t) (d : Document.t) :
  wf s -> In d (JSMap.values (MemStorage.documents s)) ->
  MemStorage.getDocument (Document.id d) s = Some d.
Proof.
  intros [[[[_ [Hnd _]] _ _] _ _] Hk] Hin. unfold MemStorage.getDocument.
  apply in_map_iff in Hin. destruct Hin as [[k d'] [Hs Hin]]. simpl in Hs.
  subst d'. unfold keyed in Hk. rewrite Forall_forall in Hk.
  pose proof (Hk _ Hin) as Hid. simpl in Hid. rewrite Hid.
  now apply in_get.
Qed.

Lemma scoped_candidate_parent (A : string) (s : MemStorage.t) (chunk : Chunk.t) :
  wf s -> A <> "" -> In chunk (MemStorage.candidates (Some A) s) ->
  exists d, MemStorage.getDocument (Chunk.documentId chunk) s = Some d /\
            Document.userId d = Some A.
Proof.
  intros Hwf HA Hc. unfold MemStorage.candidates in Hc.
  rewrite (truthy_nonempty A HA) in Hc. apply filter_In in Hc.
  destruct Hc as [_ Hex]. apply existsb_exists in Hex.
  destruct Hex as [i [Hi Heq]]. apply Z.eqb_eq in Heq. subst i.
  apply in_map_iff in Hi. destruct Hi as [d [Hid Hd]].
  apply getUserDocuments_owned in Hd; [|exact HA]. destruct Hd as [Hin Ho].
  exists d. split; [|exact Ho]. rewrite <- Hid.
  now apply stored_document_found.
Qed.
End OwnerFacts.

(** C1, as the code has it.  In a well-formed store and for a non-empty
    owner [A], the parent document of every chunk that
    [findSimilarChunks] returns under the filter [A] exists and is owned by
    [A]: no chunk of a document of another owner, and no chunk of a document
    without owner, is returned.  Without a filter every stored chunk with a
    non-empty embedding is ranked, whoever owns its document: each is
    returned once the limit covers the store. *)
Theorem findSimilarChunks_owner_scoped
  (s : MemStorage.t) (q : list R) (A : string) (limit : option Z) :
  (Invariant.wf s -> A <> "" ->
   forall r, In r (MemStorage.findSimilarChunks q (Some A) limit s) ->
     exists d,
       MemStorage.getDocument (Chunk.documentId (Scored.chunk r)) s = Some d /\
       Document.userId d = Some A) /\
  (forall chunk,
     In chunk (MemStorage.getAllChunks s) -> Chunk.embedding chunk <> [] ->
     In (MemStorage.score q chunk)
        (MemStorage.findSimilarChunks q None
           (Some (Z.of_nat (List.length (MemStorage.getAllChunks s)))) s)).
Proof.
  split.
  - intros Hwf HA r Hr. apply findSimilarChunks_in in Hr.
    destruct Hr as [chunk [Hc ->]]. simpl.
    now apply (scoped_candidate_parent A).
  - intros chunk Hin Hne. unfold MemStorage.findSimilarChunks. simpl nullish.
    rewrite slice0_all.
    + eapply Permutation_in; [apply Permutation_sym, sort_perm|].
      apply in_map. unfold MemStorage.candidates. apply filter_In.
      split; [exact Hin|]. destruct (Chunk.embedding chunk); [congruence|].
      reflexivity.
    + rewrite ranked_length. unfold MemStorage.candidates.
      apply inj_le. apply filter_length_le.
Qed.

Lemma findSimilarChunks_owner_scoped_witness :
  Invariant.wf Sample.library /\ "alice" <> "" /\
  forall r,
    In r (MemStorage.findSimilarChunks [1%R; 0%R] (Some "alice") None
            Sample.library) ->
    exists d,
      MemStorage.getDocument (Chunk.documentId (Scored.chunk r)) Sample.library
      = Some d /\
      Document.userId d = Some "alice".
Proof.
  assert (HA : "alice" <> "") by discriminate.
  split; [exact library_wf|]. split; [exact HA|].
  exact (proj1 (findSimilarChunks_owner_scoped
                  Sample.library [1%R; 0%R] "alice" None)
           library_wf HA).
Defined.

(** C1 as stated fails for the owner [""]: the filter is then skipped, and
    the search over the sample store returns the chunk of bob's document.
    It also fails for alice once [updateDocument(1, { id: 2 })] has given her
    document the id of bob's. *)
Lemma findSimilarChunks_empty_owner :
  (exists r d,
     In r (MemStorage.findSimilarChunks [1%R; 0%R] (Some "") None
             Sample.library) /\
     MemStorage.getDocument (Chunk.documentId (Scored.chunk r)) Sample.library
     = Some d /\
     Document.userId d = Some "bob" /\ Some "bob" <> Some "") /\
  (exists r d,
     In r (MemStorage.findSimilarChunks [1%R; 0%R] (Some "alice") None
             Sample.rewritten) /\
     MemStorage.getDocument (Chunk.documentId (Scored.chunk r)) Sample.rewritten
     = Some d /\
     Document.userId d = Some "bob" /\ Some "bob" <> Some "alice").
Proof.
  split.
  - exists (MemStorage.score [1%R; 0%R]
              (Chunk.mk 2 2 "beta" [0%R; 1%R] JNull (Some 400))).
    eexists. split; [|split; [reflexivity|split; [reflexivity|discriminate]]].
    unfold MemStorage.findSimilarChunks. rewrite slice0_all.
    + eapply Permutation_in; [apply Permutation_sym, sort_perm|].
      apply in_map. right. left. reflexivity.
    + rewrite ranked_length. simpl. lia.
  - exists (MemStorage.score [1%R; 0%R]
              (Chunk.mk 2 2 "beta" [0%R; 1%R] JNull (Some 400))).
    eexists. split; [|split; [reflexivity|split; [reflexivity|discriminate]]].
    unfold MemStorage.findSimilarChunks. rewrite slice0_all.
    + eapply Permutation_in; [apply Permutation_sym, sort_perm|].
      apply in_map. left. reflexivity.
    + rewrite ranked_length. simpl. lia.
Qed.

(** ** Cascading delete *)

Section DeleteFacts.
Context {V : Type}.

Lemma get_delete_same (k : Z) (m : JSMap.t V) :
  NoDup (JSMap.keys m) -> JSMap.get k (JSMap.delete k m) = None.
Proof.
  intros Hnd. rewrite delete_filter by exact Hnd. apply get_none_not_in.
  intros Hin. unfold JSMap.keys in Hin. apply in_map_iff in Hin.
  destruct Hin as [kv [Hk Hin]]. apply filter_In in Hin.
  destruct Hin as [_ Hne]. rewrite Hk, Z.eqb_refl in Hne. discriminate.
Qed.

Lemma values_filter (p : V -> bool) (m : JSMap.t V) :
  JSMap.values (filter (fun kv => p (snd kv)) m) = filter p (JSMap.values m).
Proof. unfold JSMap.values. symmetry. apply filter_map_swap. Qed.

Lemma filter_none {A : Type} (p : A -> bool) (l : list A) :
  (forall x, In x l -> p x = false) -> filter p l = [].
Proof.
  intros H. rewrite (filter_ext_in p (fun _ => false) l H). apply filter_false.
Qed.
End DeleteFacts.

(** C6. In a store reached through its methods, [deleteDocument] returns
    [false] when no document has the id.  When one has, it returns [true]
    whether or not the document has chunks, although [deleteChunksByDocument]
    returns [false] for a document without chunks; afterwards the document is
    gone, [getChunksByDocument] of its id is empty, and the chunks of every
    other document are the same. *)
Theorem deleteDocument_cascade (s : MemStorage.t) (id : Z) :
  Invariant.sound s ->
  (MemStorage.getDocument id s = None ->
   fst (MemStorage.deleteDocument id s) = false) /\
  (forall d, MemStorage.getDocument id s = Some d ->
     fst (MemStorage.deleteDocument id s) = true /\
     MemStorage.getDocument id (snd (MemStorage.deleteDocument id s)) = None /\
     MemStorage.getChunksByDocument id (snd (MemStorage.deleteDocument id s))
     = [] /\
     (forall id', id' <> id ->
        MemStorage.getChunksByDocument id'
          (snd (MemStorage.deleteDocument id s))
        = MemStorage.getChunksByDocument id' s) /\
     (MemStorage.getChunksByDocument id s = [] ->
      fst (MemStorage.deleteChunksByDocument id s) = false)).
Proof.
  intros [[[_ [Hdocs _]] [_ [Hnd _]] _] Hkeyed _].
  unfold MemStorage.getDocument, MemStorage.deleteDocument, JSMap.has. split.
  - intros Hget. now rewrite Hget.
  - intros d Hget. rewrite Hget. simpl fst.
    split; [reflexivity|].
    rewrite deleteChunksByDocument_store by assumption. simpl.
    unfold MemStorage.getChunksByDocument. simpl.
    split; [now apply get_delete_same|].
    rewrite (values_filter (fun c => negb (Chunk.documentId c =? id))).
    split; [|split].
    + apply filter_none. intros c Hc. apply filter_In in Hc.
      destruct Hc as [_ Hc]. now apply negb_true_iff in Hc.
    + intros id' Hne.
      rewrite (filter_filter_and
                 (fun c => negb (Chunk.documentId c =? id))
                 (fun c => Chunk.documentId c =? id')).
      apply filter_ext. intros c.
      destruct (Chunk.documentId c =? id) eqn:E1; simpl; [|reflexivity].
      apply Z.eqb_eq in E1. symmetry. apply Z.eqb_neq. congruence.
    + unfold MemStorage.deleteChunksByDocument. simpl. now intros ->.
Qed.

Lemma deleteDocument_cascade_witness :
  Invariant.sound Sample.library /\
  (MemStorage.getDocument 9 Sample.library = None /\
   fst (MemStorage.deleteDocument 9 Sample.library) = false) /\
  (exists d,
     MemStorage.getDocument 3 Sample.library = Some d /\
     MemStorage.getChunksByDocument 3 Sample.library = [] /\
     fst (MemStorage.deleteChunksByDocument 3 Sample.library) = false /\
     fst (MemStorage.deleteDocument 3 Sample.library) = true) /\
  (exists d,
     MemStorage.getDocument 1 Sample.library = Some d /\
     MemStorage.getChunksByDocument 1
       (snd (MemStorage.deleteDocument 1 Sample.library)) = [] /\
     MemStorage.getChunksByDocument 2
       (snd (MemStorage.deleteDocument 1 Sample.library))
     = MemStorage.getChunksByDocument 2 Sample.library).
Proof.
  pose proof (Invariant.wf_sound _ library_wf) as Hs.
  split; [exact Hs|]. split; [|split].
  - split; [reflexivity|].
    exact (proj1 (deleteDocument_cascade Sample.library 9 Hs) eq_refl).
  - eexists. split; [reflexivity|]. split; [reflexivity|].
    destruct (proj2 (deleteDocument_cascade Sample.library 3 Hs) _ eq_refl)
      as (Htrue & _ & _ & _ & Hflag).
    split; [exact (Hflag eq_refl) | exact Htrue].
  - eexists. split; [reflexivity|].
    destruct (proj2 (deleteDocument_cascade Sample.library 1 Hs) _ eq_refl)
      as (_ & _ & Hempty & Hother & _).
    split; [exact Hempty|]. apply Hother. discriminate.
Defined.

(** ** Clearing a transcript *)

(** C8, as the code has it.  In a store reached through its methods and for
    a non-empty owner [A], [clearChatMessages] with the filter [A] returns
    [true] and leaves the transcript without the messages of [A]: what stays
    is exactly the messages whose owner is not [A], each under its key and in
    the former order, and nothing else in the store changes.  Without a
    filter it returns [true] and leaves the transcript empty. *)
Theorem clearChatMessages_scoped (s : MemStorage.t) (A : string) :
  (Invariant.sound s -> A <> "" ->
   fst (MemStorage.clearChatMessages (Some A) s) = true /\
   snd (MemStorage.clearChatMessages (Some A) s)
   = MemStorage.with_chatMessages s
       (filter (fun kv => negb (owner_eqb (ChatMessage.userId (snd kv)) (Some A)))
               (MemStorage.chatMessages s)) /\
   (forall k msg,
      In (k, msg)
         (MemStorage.chatMessages (snd (MemStorage.clearChatMessages (Some A) s)))
      <-> In (k, msg) (MemStorage.chatMessages s) /\
          ChatMessage.userId msg <> Some A)) /\
  (fst (MemStorage.clearChatMessages None s) = true /\
   snd (MemStorage.clearChatMessages None s) = MemStorage.with_chatMessages s []).
Proof.
  split; [|split; reflexivity].
  intros [[_ _ [_ [Hnd _]]] _ Hkeyed] HA.
  pose proof (clearChatMessages_store (Some A) s Hnd Hkeyed) as Hstore.
  rewrite (truthy_nonempty A HA) in Hstore.
  split.
  - unfold MemStorage.clearChatMessages. now rewrite (truthy_nonempty A HA).
  - split; [exact Hstore|]. intros k msg. rewrite Hstore. simpl.
    rewrite filter_In. simpl. rewrite negb_true_iff.
    split; intros [Hin Ho]; (split; [exact Hin|]).
    + intros E. apply owner_eqb_eq in E. congruence.
    + apply not_true_is_false. intros E. apply owner_eqb_eq in E. auto.
Qed.

Lemma clearChatMessages_scoped_witness :
  Invariant.sound Sample.library /\ "alice" <> "" /\
  fst (MemStorage.clearChatMessages (Some "alice") Sample.library) = true /\
  forall k msg,
    In (k, msg)
       (MemStorage.chatMessages
          (snd (MemStorage.clearChatMessages (Some "alice") Sample.library)))
    <-> In (k, msg) (MemStorage.chatMessages Sample.library) /\
        ChatMessage.userId msg <> Some "alice".
Proof.
  pose proof (Invariant.wf_sound _ library_wf) as Hs.
  assert (HA : "alice" <> "") by discriminate.
  split; [exact Hs|]. split; [exact HA|].
  destruct (proj1 (clearChatMessages_scoped Sample.library "alice") Hs HA)
    as (Htrue & _ & Hkept).
  split; [exact Htrue | exact Hkept].
Defined.

(** C8 as stated fails for the owner [""]: the call then clears the whole
    transcript, the message of bob included. *)
Lemma clearChatMessages_empty_owner :
  (exists k msg,
     In (k, msg) (MemStorage.chatMessages Sample.mixed) /\
     ChatMessage.userId msg = Some "") /\
  (exists k msg,
     In (k, msg) (MemStorage.chatMessages Sample.mixed) /\
     ChatMessage.userId msg = Some "bob" /\
     ~ In (k, msg)
          (MemStorage.chatMessages
             (snd (MemStorage.clearChatMessages (Some "") Sample.mixed)))).
Proof.
  split.
  - do 2 eexists. split; [left; reflexivity | reflexivity].
  - do 2 eexists. split; [right; left; reflexivity|].
    split; [reflexivity|]. simpl. auto.
Qed.

(** ** Identifiers *)

Section IdFacts.
Import Invariant.
Context {V : Type}.


End IdFacts.




(** ** The ingestion pipeline *)

Section EmbedFacts.
Import DocumentProcessor.
Variable generateEmbedding : nat -> string -> option (list R).

Lemma generateChunkEmbeddings_from (chunks : list RawChunk.t) :
  forall acc,
    fold_left
      (fun chunksWithEmbeddings chunk =>
         chunksWithEmbeddings
           ++ [embedChunk generateEmbedding
                 (List.length chunksWithEmbeddings) chunk])
      chunks acc
    = acc ++ embedFrom generateEmbedding (List.length acc) chunks.
Proof.
  induction chunks as [|c rest IH]; intros acc; simpl.
  - now rewrite app_nil_r.
  - rewrite IH. rewrite length_app, <- app_assoc. simpl.
    now rewrite Nat.add_1_r.
Qed.

Lemma generateChunkEmbeddings_embedFrom (chunks : list RawChunk.t) :
  generateChunkEmbeddings generateEmbedding chunks
  = embedFrom generateEmbedding 0 chunks.
Proof.
  unfold generateChunkEmbeddings. now rewrite generateChunkEmbeddings_from.
Qed.

Lemma embedFrom_length (chunks : list RawChunk.t) : forall i,
  List.length (embedFrom generateEmbedding i chunks) = List.length chunks.
Proof. induction chunks; intros i; simpl; auto. Qed.

Lemma embedFrom_content (chunks : list RawChunk.t) : forall i,
  map EmbeddedChunk.content (embedFrom generateEmbedding i chunks)
  = map RawChunk.content chunks.
Proof.
  induction chunks as [|c rest IH]; intros i; simpl; [reflexivity|].
  rewrite IH. f_equal. unfold embedChunk.
  destruct (generateEmbedding i (RawChunk.content c)); reflexivity.
Qed.


End EmbedFacts.

Section UploadFacts.
Import DocumentProcessor Routes Invariant.
Variable processDocument : File.t -> option ProcessedDocument.t.
Variable generateEmbedding : nat -> string -> option (list R).
Variable rejects : PipelineCall -> bool.
Variable now : nat -> Z.

Lemma set_set {V : Type} (k : Z) (v v' : V) (m : JSMap.t V) :
  JSMap.set k v (JSMap.set k v' m) = JSMap.set k v m.
Proof.
  induction m as [|[k0 v0] m IH]; simpl.
  - now rewrite Z.eqb_refl.
  - destruct (k =? k0) eqn:E; simpl; rewrite ?Z.eqb_refl, ?E; [reflexivity|].
    now rewrite IH.
Qed.

(** The saving loop stores the chunks one after the other until a call
    rejects. *)
Lemma saveChunks_run (documentId : Z) (l : list EmbeddedChunk.t) :
  forall (i : nat) (w : World),
    keys_ok (MemStorage.currentChunkId (store w)) (MemStorage.chunks (store w)) ->
    saveChunks rejects now documentId i l w
    = (if Nat.ltb (savedBefore rejects i l) (List.length l)
       then Thrown else Ok tt,
       mkWorld
         (MemStorage.mk
            (MemStorage.documents (store w))
            (MemStorage.chunks (store w)
               ++ savedEntries now documentId i
                    (MemStorage.currentChunkId (store w))
                    (firstn (savedBefore rejects i l) l))
            (MemStorage.chatMessages (store w))
            (MemStorage.currentDocumentId (store w))
            (MemStorage.currentChunkId (store w)
               + Z.of_nat (savedBefore rejects i l))
            (MemStorage.currentMessageId (store w)))
         (trace w)).
Proof.
  induction l as [|c rest IH]; intros i [s tr] Hok; simpl.
  - unfold ret. destruct s; simpl. now rewrite app_nil_r, Z.add_0_r.
  - unfold bind, pipeline. destruct (rejects (Persist i)) eqn:E; simpl.
    + unfold throw. destruct s; simpl. now rewrite app_nil_r, Z.add_0_r.
    + unfold storage. simpl. rewrite IH; simpl.
      * rewrite (set_absent _ _ _ (keys_ok_fresh _ _ Hok)).
        rewrite <- app_assoc. simpl. f_equal. f_equal. f_equal. lia.
      * now apply keys_ok_set_fresh.
Qed.

Lemma progress_run (call : PipelineCall) (id p : Z) (st : option string)
  (d : Document.t) (w : World) :
  JSMap.get id (MemStorage.documents (store w)) = Some d ->
  pipeline rejects call (MemStorage.updateDocumentProgress id p st) w
  = if rejects call then (Thrown, w)
    else
      let d' :=
        Document.spread d
          (Document.mkPartial None None None None None None None
             (if truthy st then st else None) (Some p) None None) in
      (Ok (Some d'),
       mkWorld (MemStorage.with_documents (store w)
                  (JSMap.set id d' (MemStorage.documents (store w))))
               (trace w)).
Proof.
  intros Hget. unfold pipeline. destruct (rejects call); [reflexivity|].
  unfold storage, MemStorage.updateDocumentProgress. now rewrite Hget.
Qed.

Lemma finalize_run (id : Z) (u : Document.partial) (d : Document.t) (w : World) :
  JSMap.get id (MemStorage.documents (store w)) = Some d ->
  pipeline rejects Finalize (MemStorage.updateDocument id u) w
  = if rejects Finalize then (Thrown, w)
    else
      (Ok (Some (Document.spread d u)),
       mkWorld (MemStorage.with_documents (store w)
                  (JSMap.set id (Document.spread d u)
                     (MemStorage.documents (store w))))
               (trace w)).
Proof.
  intros Hget. unfold pipeline. destruct (rejects Finalize); [reflexivity|].
  unfold storage, MemStorage.updateDocument. now rewrite Hget.
Qed.

Lemma markError_run (document d : Document.t) (w : World) :
  JSMap.get (Document.id document) (MemStorage.documents (store w)) = Some d ->
  markError document w
  = (Ok tt,
     mkWorld
       (MemStorage.with_documents (store w)
          (JSMap.set (Document.id document)
             (Document.spread d
                (Document.mkPartial None None None None None None None
                   (Some "error") (Some 0) None None))
             (MemStorage.documents (store w))))
       (trace w)).
Proof.
  intros Hget. unfold markError, bind, storage, ret.
  unfold MemStorage.updateDocumentProgress. now rewrite Hget.
Qed.

Lemma savedBefore_le (l : list EmbeddedChunk.t) : forall i,
  (savedBefore rejects i l <= List.length l)%nat.
Proof.
  induction l as [|c rest IH]; intros i; simpl; [lia|].
  destruct (rejects (Persist i)); [lia|]. specialize (IH (S i)). lia.
Qed.

Lemma firstn_savedBefore_length (l : list EmbeddedChunk.t) (i : nat) :
  List.length (firstn (savedBefore rejects i l) l) = savedBefore rejects i l.
Proof. apply firstn_length_le, savedBefore_le. Qed.

Lemma firstn_prefix {A : Type} (n : nat) (l : list A) :
  Ranking.prefix (firstn n l) l.
Proof. exists (skipn n l). symmetry. apply firstn_skipn. Qed.

Lemma nil_prefix {A : Type} (l : list A) : Ranking.prefix [] l.
Proof. now exists l. Qed.
End UploadFacts.

Section UploadRun.
Import DocumentProcessor Routes Invariant.
Variable processDocument : File.t -> option ProcessedDocument.t.
Variable generateEmbedding : nat -> string -> option (list R).
Variable rejects : PipelineCall -> bool.
Variable now : nat -> Z.

(** The [catch] once the block has thrown after a write of the document:
    the document is found under its id and overwritten. *)
Ltac caught_after_write :=
  erewrite markError_run by (simpl; apply get_set_same);
  simpl; rewrite set_set.

(** The processing block and its [catch], from a store that has the
    document under its id. *)
Lemma upload_processing (document : Document.t) (f : File.t) (w : World) :
  JSMap.get (Document.id document) (MemStorage.documents (store w))
  = Some document ->
  keys_ok (MemStorage.currentChunkId (store w)) (MemStorage.chunks (store w)) ->
  exists (d' : Document.t) (saved : list EmbeddedChunk.t),
    try_catch (processUpload processDocument generateEmbedding rejects now
                 document f)
              (markError document) w
    = (Ok tt,
       mkWorld
         (MemStorage.mk
            (JSMap.set (Document.id document) d'
               (MemStorage.documents (store w)))
            (MemStorage.chunks (store w)
               ++ savedEntries now (Document.id document) 0
                    (MemStorage.currentChunkId (store w)) saved)
            (MemStorage.chatMessages (store w))
            (MemStorage.currentDocumentId (store w))
            (MemStorage.currentChunkId (store w)
               + Z.of_nat (List.length saved))
            (MemStorage.currentMessageId (store w)))
         (trace w)) /\
    (raises processDocument generateEmbedding rejects f = true ->
     d' = failed document /\
     saved_on_error processDocument generateEmbedding f saved) /\
    (raises processDocument generateEmbedding rejects f = false ->
     exists processed,
       processDocument f = Some processed /\
       d' = completed document processed /\
       saved = generateChunkEmbeddings generateEmbedding
                 (ProcessedDocument.chunks processed)).
Proof.
  intros Hget Hok. destruct w as [s tr]. simpl in *.
  assert (Hnil : forall d',
            (Ok tt : outcome unit,
             mkWorld (MemStorage.with_documents s
                        (JSMap.set (Document.id document) d'
                           (MemStorage.documents s))) tr)
            = (Ok tt,
               mkWorld
                 (MemStorage.mk
                    (JSMap.set (Document.id document) d' (MemStorage.documents s))
                    (MemStorage.chunks s
                       ++ savedEntries now (Document.id document) 0
                            (MemStorage.currentChunkId s) [])
                    (MemStorage.chatMessages s)
                    (MemStorage.currentDocumentId s)
                    (MemStorage.currentChunkId s
                       + Z.of_nat (List.length (@nil EmbeddedChunk.t)))
                    (MemStorage.currentMessageId s)) tr)).
  { intros d'. destruct s; simpl. now rewrite app_nil_r, Z.add_0_r. }
  unfold try_catch, processUpload, raises, saved_on_error.
  fold (@Ranking.prefix EmbeddedChunk.t).
  unfold bind at 1. rewrite (progress_run _ _ _ _ _ document) by exact Hget.
  destruct (rejects Progress25) eqn:E25; simpl.
  { rewrite (markError_run document document) by exact Hget. simpl.
    exists (failed document), []. split; [apply Hnil|].
    split; [|discriminate]. intros _. split; [reflexivity|].
    destruct (processDocument f); [apply nil_prefix | reflexivity]. }
  unfold bind at 1.
  destruct (processDocument f) as [processed|] eqn:Ep.
  2:{ unfold throw. caught_after_write.
      exists (failed document), []. split; [apply Hnil|].
      split; [auto|discriminate]. }
  unfold ret at 1. unfold bind at 1.
  erewrite progress_run by (simpl; apply get_set_same).
  destruct (rejects Progress50) eqn:E50; simpl.
  { caught_after_write. exists (failed document), [].
    split; [apply Hnil|].
    split; [split; [reflexivity|apply nil_prefix]|discriminate]. }
  rewrite set_set. unfold bind at 1.
  erewrite progress_run by (simpl; apply get_set_same).
  destruct (rejects Progress75) eqn:E75; simpl.
  { caught_after_write. exists (failed document), [].
    split; [apply Hnil|].
    split; [split; [reflexivity|apply nil_prefix]|discriminate]. }
  rewrite set_set. unfold bind at 1.
  rewrite saveChunks_run by exact Hok. simpl.
  set (l := generateChunkEmbeddings generateEmbedding
              (ProcessedDocument.chunks processed)).
  destruct (Nat.ltb (savedBefore rejects 0 l) (List.length l)) eqn:Elt; simpl.
  { caught_after_write.
    exists (failed document), (firstn (savedBefore rejects 0 l) l).
    rewrite firstn_savedBefore_length.
    split; [reflexivity|].
    split; [split; [reflexivity|apply firstn_prefix]|discriminate]. }
  apply Nat.ltb_ge in Elt.
  assert (Hall : savedBefore rejects 0 l = List.length l)
    by (pose proof (savedBefore_le rejects l 0); lia).
  unfold bind at 1.
  erewrite finalize_run by (simpl; apply get_set_same).
  destruct (rejects Finalize) eqn:EF; simpl.
  { caught_after_write.
    exists (failed document), (firstn (savedBefore rejects 0 l) l).
    rewrite firstn_savedBefore_length.
    split; [reflexivity|].
    split; [split; [reflexivity|apply firstn_prefix]|discriminate]. }
  rewrite set_set. unfold ret.
  exists (completed document processed), l.
  rewrite Hall, firstn_all. split.
  - assert (Hlen : List.length l
                   = List.length (ProcessedDocument.chunks processed)).
    { subst l. rewrite generateChunkEmbeddings_embedFrom.
      apply embedFrom_length. }
    unfold completed. rewrite <- Hlen. reflexivity.
  - split; [discriminate|]. intros _. exists processed. auto.
Qed.

(** The whole handler on an upload that carries a file. *)
Lemma upload_run (f : File.t) (userId : string) (w : World) :
  sound (store w) ->
  exists (d' : Document.t) (saved : list EmbeddedChunk.t),
    upload processDocument generateEmbedding rejects now (Some f) userId w
    = (Ok tt,
       mkWorld
         (MemStorage.mk
            (MemStorage.documents (store w)
               ++ [(MemStorage.currentDocumentId (store w), d')])
            (MemStorage.chunks (store w)
               ++ savedEntries now (MemStorage.currentDocumentId (store w)) 0
                    (MemStorage.currentChunkId (store w)) saved)
            (MemStorage.chatMessages (store w))
            (MemStorage.currentDocumentId (store w) + 1)
            (MemStorage.currentChunkId (store w)
               + Z.of_nat (List.length saved))
            (MemStorage.currentMessageId (store w)))
         (trace w
            ++ [ResJson 200
                  (Created
                     (fst (MemStorage.createDocument (now 0)
                             (newDocument f userId) (store w))))])) /\
    (raises processDocument generateEmbedding rejects f = true ->
     d' = failed (fst (MemStorage.createDocument (now 0)
                         (newDocument f userId) (store w))) /\
     saved_on_error processDocument generateEmbedding f saved) /\
    (raises processDocument generateEmbedding rejects f = false ->
     exists processed,
       processDocument f = Some processed /\
       d' = completed (fst (MemStorage.createDocument (now 0)
                              (newDocument f userId) (store w)))
                      processed /\
       saved = generateChunkEmbeddings generateEmbedding
                 (ProcessedDocument.chunks processed)).
Proof.
  intros [[Kd Kc Km] _ _]. destruct w as [s tr]. simpl in *.
  set (created := fst (MemStorage.createDocument (now 0)
                         (newDocument f userId) s)).
  set (w1 := mkWorld (snd (MemStorage.createDocument (now 0)
                             (newDocument f userId) s))
                     (tr ++ [ResJson 200 (Created created)])).
  destruct (upload_processing created f w1) as (d' & saved & Hrun & Hcases).
  { simpl. apply get_set_same. }
  { exact Kc. }
  exists d', saved. split; [|exact Hcases].
  unfold upload, try_catch at 1, bind at 1, storage at 1.
  simpl. unfold bind at 1, emit at 1. simpl.
  match goal with
  | |- context [try_catch ?a ?b ?c] =>
      change (try_catch a b c)
        with (try_catch
                (processUpload processDocument generateEmbedding rejects now
                   created f)
                (markError created) w1)
  end.
  rewrite Hrun. simpl. rewrite set_set.
  rewrite (set_absent _ _ _ (keys_ok_fresh _ _ Kd)). reflexivity.
Qed.
End UploadRun.

Section SavedFacts.
Import DocumentProcessor Routes.
Variable now : nat -> Z.

Lemma savedEntries_length (documentId : Z) (l : list EmbeddedChunk.t) :
  forall i id, List.length (savedEntries now documentId i id l) = List.length l.
Proof. induction l; intros i id; simpl; auto. Qed.

Lemma savedEntries_parent (documentId : Z) (l : list EmbeddedChunk.t) :
  forall i id,
    Forall (fun kv => Chunk.documentId (snd kv) = documentId)
           (savedEntries now documentId i id l).
Proof. induction l; intros i id; simpl; constructor; auto. Qed.


Lemma savedBefore_never (l : list EmbeddedChunk.t) : forall i,
  savedBefore never i l = List.length l.
Proof. induction l; intros i; simpl; auto. Qed.

Lemma never_raises (processDocument : File.t -> option ProcessedDocument.t)
  (generateEmbedding : nat -> string -> option (list R)) (f : File.t)
  (processed : ProcessedDocument.t) :
  processDocument f = Some processed ->
  raises processDocument generateEmbedding never f = false.
Proof.
  intros H. unfold raises. rewrite H. simpl.
  rewrite savedBefore_never. now rewrite Nat.ltb_irrefl.
Qed.
End SavedFacts.





(** ** The chat handler *)

Section ChatFacts.
Import Routes.

Lemma consume_fails (fragments : list string) : forall fullResponse w,
  consume fragments false fullResponse w
  = (Thrown,
     mkWorld (store w)
             (trace w ++ map (fun chunk => ResWrite (EvChunk chunk)) fragments)).
Proof.
  induction fragments as [|chunk rest IH]; intros acc [s tr]; simpl.
  - unfold throw. now rewrite app_nil_r.
  - unfold bind, emit. simpl. rewrite IH. simpl. now rewrite <- app_assoc.
Qed.

Lemma frames_app (t1 t2 : list Effect) :
  frames (t1 ++ t2) = frames t1 ++ frames t2.
Proof.
  induction t1 as [|e t1 IH]; simpl; [reflexivity|].
  destruct e; simpl; now rewrite IH.
Qed.

Lemma frames_chunks (fragments : list string) :
  frames (map (fun chunk => ResWrite (EvChunk chunk)) fragments)
  = map EvChunk fragments.
Proof. induction fragments; simpl; congruence. Qed.

Lemma generatorCalls_chunks (fragments : list string) :
  generatorCalls (map (fun chunk => ResWrite (EvChunk chunk)) fragments) = [].
Proof. induction fragments; simpl; auto. Qed.
End ChatFacts.

(** C7. Let the question be a non-empty string, let the embedder return a
    vector for it, and let the generator fail, before or after some
    fragments.  Then the chat handler does not throw; the store is left as
    it was right after the user's message was saved, that message being
    appended to the transcript with role [user], so that the assistant
    messages of the transcript are those it had before; what is written on
    the stream is a chunk frame per fragment received and then one error
    frame, with no sources frame and no done frame; and the generator is
    called once. *)
Theorem chatSend_generator_failure
  (generateEmbedding : nat -> string -> option (list R))
  (streamChatResponse :
     string -> list string -> list (string * string) -> Routes.GenResult.t)
  (now : nat -> Z) (content userId : string) (w : Routes.World)
  (queryEmbedding : list R) :
  Invariant.sound (Routes.store w) ->
  content <> "" ->
  generateEmbedding 0%nat content = Some queryEmbedding ->
  let posted :=
    MemStorage.createChatMessage (now 0%nat)
      (Routes.userMessage content userId) (Routes.store w) in
  let context :=
    map (fun chunk => Chunk.content (Scored.chunk chunk))
        (MemStorage.findSimilarChunks queryEmbedding (Some userId) (Some 5)
           (snd posted)) in
  let history :=
    map (fun msg => (ChatMessage.role msg, ChatMessage.content msg))
        (MemStorage.getUserChatMessages userId (snd posted)) in
  let answer := streamChatResponse content context history in
  Routes.GenResult.completes answer = false ->
  let result :=
    Routes.chatSend generateEmbedding streamChatResponse now
      (JStr content) userId w in
  let written :=
    [Routes.ResWriteHead 200; Routes.CallGenerator content context history]
      ++ map (fun chunk => Routes.ResWrite (Routes.EvChunk chunk))
             (Routes.GenResult.fragments answer)
      ++ [Routes.ResWrite (Routes.EvError "Failed to generate response");
          Routes.ResEnd] in
  fst result = Routes.Ok tt /\
  Routes.store (snd result) = snd posted /\
  MemStorage.chatMessages (snd posted)
  = MemStorage.chatMessages (Routes.store w)
      ++ [(ChatMessage.id (fst posted), fst posted)] /\
  ChatMessage.role (fst posted) = "user" /\
  ChatMessage.content (fst posted) = content /\
  filter Routes.isAssistant
    (JSMap.values (MemStorage.chatMessages (Routes.store (snd result))))
  = filter Routes.isAssistant
      (JSMap.values (MemStorage.chatMessages (Routes.store w))) /\
  Routes.trace (snd result) = Routes.trace w ++ written /\
  Routes.frames written
  = map Routes.EvChunk (Routes.GenResult.fragments answer)
      ++ [Routes.EvError "Failed to generate response"] /\
  Routes.generatorCalls written
  = [Routes.CallGenerator content context history].
Proof.
  intros Hs Hc Hq posted context history answer Hfail result written.
  assert (Happ : MemStorage.chatMessages (snd posted)
                 = MemStorage.chatMessages (Routes.store w)
                     ++ [(ChatMessage.id (fst posted), fst posted)]).
  { simpl. apply set_absent, keys_ok_fresh, Hs. }
  assert (Hrun : result
                 = (Routes.Ok tt,
                    Routes.mkWorld (snd posted) (Routes.trace w ++ written))).
  { subst result. unfold Routes.chatSend.
    apply String.eqb_neq in Hc. rewrite Hc.
    unfold Routes.try_catch at 1, Routes.bind at 1, Routes.storage at 1.
    fold posted. destruct posted as [message s1] eqn:Eposted. simpl snd in *.
    unfold Routes.bind at 1. rewrite Hq. unfold Routes.ret at 1.
    unfold Routes.bind at 1, Routes.query at 1. simpl Routes.store.
    unfold Routes.bind at 1, Routes.query at 1. simpl Routes.store.
    unfold Routes.bind at 1, Routes.emit at 1. simpl Routes.store.
    simpl Routes.trace.
    unfold Routes.bind at 1, Routes.try_catch at 1, Routes.respond.
    unfold Routes.bind at 1, Routes.emit at 1. simpl Routes.store.
    simpl Routes.trace.
    unfold Routes.bind at 1. fold context. fold history. fold answer.
    rewrite Hfail, consume_fails. simpl.
    unfold Routes.emit. simpl. subst written.
    rewrite <- !app_assoc. reflexivity. }
  rewrite Hrun. cbn [fst snd Routes.store Routes.trace].
  split; [reflexivity|]. split; [reflexivity|]. split; [exact Happ|].
  split; [reflexivity|]. split; [reflexivity|]. split.
  { rewrite Happ. unfold JSMap.values. rewrite map_app, filter_app. simpl.
    apply app_nil_r. }
  split; [reflexivity|]. subst written. split.
  - simpl. rewrite frames_app, frames_chunks. reflexivity.
  - unfold Routes.generatorCalls. simpl. rewrite filter_app. simpl.
    f_equal. rewrite <- (app_nil_r []). f_equal.
    apply generatorCalls_chunks.
Qed.

Lemma chatSend_generator_failure_witness :
  Invariant.sound (Routes.store SampleRun.stocked) /\
  "why?" <> "" /\
  SampleRun.secondFails 0 "why?" = Some [1%R] /\
  (forall query context history,
     Routes.GenResult.completes (SampleRun.breaks query context history)
     = false) /\
  Routes.store
    (snd (Routes.chatSend SampleRun.secondFails SampleRun.breaks
            SampleRun.clock (JStr "why?") "alice" SampleRun.stocked))
  = snd (MemStorage.createChatMessage (SampleRun.clock 0)
           (Routes.userMessage "why?" "alice")
           (Routes.store SampleRun.stocked)) /\
  Routes.frames
    (Routes.trace
       (snd (Routes.chatSend SampleRun.secondFails SampleRun.breaks
               SampleRun.clock (JStr "why?") "alice" SampleRun.stocked)))
  = [Routes.EvChunk "Hel"; Routes.EvChunk "lo";
     Routes.EvError "Failed to generate response"].
Proof.
  pose proof (Invariant.wf_sound _ library_wf) as Hs.
  assert (Hc : "why?" <> "") by discriminate.
  split; [exact Hs|]. split; [exact Hc|]. split; [reflexivity|].
  split; [reflexivity|].
  destruct (chatSend_generator_failure SampleRun.secondFails SampleRun.breaks
              SampleRun.clock "why?" "alice" SampleRun.stocked [1%R]
              Hs Hc eq_refl eq_refl)
    as (_ & Hstore & _ & _ & _ & _ & Htrace & Hframes & _).
  split; [exact Hstore|]. rewrite Htrace. exact Hframes.
Defined.

(** * Further properties *)

(** ** Cosine similarity: range and scaling *)

Section CosineRange.
Import Cosine.
Local Open Scope R_scope.





End CosineRange.




(** ** Sorting by a comparator *)

Section SortFacts.
Context {A : Type}.
Variable after : A -> A -> bool.
Variable before : A -> A -> Prop.
Hypothesis after_false : forall x y, after x y = false -> before x y.
Hypothesis after_true : forall x y, after x y = true -> before y x.
Hypothesis before_trans : forall x y z, before x y -> before y z -> before x z.

Lemma insert_before_sorted (x : A) (l : list A) :
  StronglySorted before l -> StronglySorted before (JSArray.insert after x l).
Proof.
  induction 1 as [|y l Hs IH Hy]; simpl; [repeat constructor|].
  destruct (after x y) eqn:E.
  - constructor; [exact IH|].
    eapply Permutation_Forall; [apply Permutation_sym, insert_perm|].
    constructor; [now apply after_true | exact Hy].
  - constructor; [now constructor|].
    constructor; [now apply after_false|].
    eapply Forall_impl; [|exact Hy]. intros z Hz.
    eapply before_trans; [apply after_false, E | exact Hz].
Qed.

Lemma sort_before_sorted (l : list A) :
  StronglySorted before (JSArray.sort after l).
Proof.
  induction l as [|x l IH]; simpl; [constructor|].
  now apply insert_before_sorted.
Qed.

Variable stamped : Z -> A -> bool.
Hypothesis after_apart :
  forall v x y, after x y = true -> stamped v x = true -> stamped v y = false.

Lemma insert_keeps_stamped (v : Z) (x : A) (l : list A) :
  filter (stamped v) (JSArray.insert after x l) = filter (stamped v) (x :: l).
Proof.
  induction l as [|y l IH]; [reflexivity|]. simpl JSArray.insert.
  destruct (after x y) eqn:E; [|reflexivity].
  simpl in *. rewrite IH.
  destruct (stamped v x) eqn:Ex; [|reflexivity].
  now rewrite (after_apart v x y E Ex).
Qed.

Lemma sort_keeps_stamped (v : Z) (l : list A) :
  filter (stamped v) (JSArray.sort after l) = filter (stamped v) l.
Proof.
  induction l as [|x l IH]; [reflexivity|]. simpl JSArray.sort.
  rewrite insert_keeps_stamped. simpl. now rewrite IH.
Qed.

Lemma sort_lists (l : list A) :
  Listing.lists before stamped l (JSArray.sort after l).
Proof.
  split; [apply sort_perm|]. split; [apply sort_before_sorted|].
  intros v. apply sort_keeps_stamped.
Qed.

Hypothesis before_not_after : forall x y, before x y -> after x y = false.

(** Sorting an array that is in order leaves it as it is. *)
Lemma sort_sorted_same (l : list A) :
  StronglySorted before l -> JSArray.sort after l = l.
Proof.
  induction 1 as [|x l Hs IH Hx]; [reflexivity|]. simpl. rewrite IH.
  destruct l as [|y l]; [reflexivity|]. simpl.
  inversion Hx; subst. now rewrite before_not_after.
Qed.
End SortFacts.


(** ** Ranking: the best matches *)



(** ** Listings *)

Section ListingFacts.
Import Listing.

Lemma older_lists (l : list Document.t) :
  lists newest_first uploaded_at l (JSArray.sort MemStorage.older l).
Proof.
  apply sort_lists; unfold MemStorage.older, newest_first, uploaded_at.
  - intros x y H. apply Z.ltb_ge in H. lia.
  - intros x y H. apply Z.ltb_lt in H. lia.
  - intros x y z. lia.
  - intros v x y H Hx. apply Z.ltb_lt in H. apply Z.eqb_eq in Hx.
    apply Z.eqb_neq. lia.
Qed.

Lemma newer_lists (l : list ChatMessage.t) :
  lists oldest_first created_at l (JSArray.sort MemStorage.newer l).
Proof.
  apply sort_lists; unfold MemStorage.newer, oldest_first, created_at.
  - intros x y H. apply Z.ltb_ge in H. lia.
  - intros x y H. apply Z.ltb_lt in H. lia.
  - intros x y z. lia.
  - intros v x y H Hx. apply Z.ltb_lt in H. apply Z.eqb_eq in Hx.
    apply Z.eqb_neq. lia.
Qed.

Lemma newer_sorted_same (l : list ChatMessage.t) :
  StronglySorted oldest_first l -> JSArray.sort MemStorage.newer l = l.
Proof.
  apply sort_sorted_same. unfold MemStorage.newer, oldest_first.
  intros x y H. apply Z.ltb_ge. lia.
Qed.

Lemma filter_sorted {A : Type} (before : A -> A -> Prop) (p : A -> bool)
  (l : list A) :
  StronglySorted before l -> StronglySorted before (filter p l).
Proof.
  induction 1 as [|x l Hs IH Hx]; simpl; [constructor|].
  destruct (p x); [|exact IH]. constructor; [exact IH|].
  rewrite Forall_forall in *. intros y Hy. apply Hx.
  apply filter_In in Hy. apply Hy.
Qed.
End ListingFacts.

Lemma getAllDocuments_lists_aux (s : MemStorage.t) (A : string)
  (d : Document.t) :
  A <> "" ->
  (In d (MemStorage.getUserDocuments A s) <->
   In d (JSMap.values (MemStorage.documents s)) /\
   Document.userId d = Some A).
Proof.
  intros HA. split.
  - now apply getUserDocuments_owned.
  - intros [Hin Ho]. unfold MemStorage.getUserDocuments,
      MemStorage.getAllDocuments. rewrite (truthy_nonempty A HA).
    eapply Permutation_in; [apply Permutation_sym, sort_perm|].
    apply filter_In. split; [exact Hin|]. now apply owner_eqb_eq.
Qed.

(** X4. [getAllDocuments] lists the stored documents, or under a non-empty
    owner those of that owner and only those: the same documents, most
    recent upload first, documents of one upload time in insertion order. *)
Theorem getAllDocuments_lists (s : MemStorage.t) (userId : option string) :
  Listing.lists Listing.newest_first Listing.uploaded_at
    (Listing.documents_of userId s) (MemStorage.getAllDocuments userId s) /\
  (forall A d,
     A <> "" ->
     (In d (MemStorage.getUserDocuments A s) <->
      In d (JSMap.values (MemStorage.documents s)) /\
      Document.userId d = Some A)).
Proof.
  split.
  - unfold MemStorage.getAllDocuments, Listing.documents_of.
    destruct (truthy userId); apply older_lists.
  - intros A d HA. now apply getAllDocuments_lists_aux.
Qed.

Lemma getAllDocuments_lists_witness :
  "bob" <> "" /\
  forall d,
    In d (MemStorage.getUserDocuments "bob" Sample.library) <->
    In d (JSMap.values (MemStorage.documents Sample.library)) /\
    Document.userId d = Some "bob".
Proof.
  assert (H : "bob" <> "") by discriminate.
  split; [exact H|]. intros d.
  exact (proj2 (getAllDocuments_lists Sample.library None) "bob" d H).
Defined.

(** X5. [getAllChatMessages] lists the stored messages, or under a truthy
    owner those of that owner: the same messages, oldest first, messages of
    one creation time in insertion order.  When the messages were stored in
    the order of their timestamps, the listing is the stored sequence
    itself: conversation order is insertion order. *)
Theorem getAllChatMessages_lists (s : MemStorage.t) (userId : option string) :
  Listing.lists Listing.oldest_first Listing.created_at
    (Listing.messages_of userId s) (MemStorage.getAllChatMessages userId s) /\
  (Listing.chronological s ->
   MemStorage.getAllChatMessages userId s = Listing.messages_of userId s).
Proof.
  unfold MemStorage.getAllChatMessages, Listing.messages_of,
    Listing.chronological.
  split.
  - destruct (truthy userId); apply newer_lists.
  - intros Hc. destruct (truthy userId); apply newer_sorted_same;
      [now apply filter_sorted | exact Hc].
Qed.

Lemma library_chronological : Listing.chronological Sample.library.
Proof.
  unfold Listing.chronological. simpl.
  apply SSorted_cons; [apply SSorted_cons; [apply SSorted_nil|]|].
  - apply Forall_nil.
  - apply Forall_cons; [|apply Forall_nil].
    unfold Listing.oldest_first, ChatMessage.time. simpl. lia.
Qed.

Lemma getAllChatMessages_lists_witness :
  Listing.chronological Sample.library /\
  MemStorage.getAllChatMessages (Some "alice") Sample.library
  = Listing.messages_of (Some "alice") Sample.library.
Proof.
  split; [exact library_chronological|].
  exact (proj2 (getAllChatMessages_lists Sample.library (Some "alice"))
           library_chronological).
Defined.

(** ** Round trips through the store *)

Section StoreFacts.
Context {V : Type}.

Lemma delete_absent (k : Z) (m : JSMap.t V) :
  JSMap.get k m = None -> JSMap.delete k m = m.
Proof.
  induction m as [|[k' v] m IH]; simpl; [reflexivity|].
  destruct (k =? k'); [discriminate|]. intros H. now rewrite IH.
Qed.

Lemma get_delete_other (k k' : Z) (m : JSMap.t V) :
  k' <> k -> JSMap.get k' (JSMap.delete k m) = JSMap.get k' m.
Proof.
  intros Hne. induction m as [|[k0 v] m IH]; simpl; [reflexivity|].
  destruct (k =? k0) eqn:E; simpl.
  - apply Z.eqb_eq in E. subst k0. apply Z.eqb_neq in Hne. now rewrite Hne.
  - now rewrite IH.
Qed.

Lemma values_app (m1 m2 : JSMap.t V) :
  JSMap.values (m1 ++ m2) = JSMap.values m1 ++ JSMap.values m2.
Proof. apply map_app. Qed.
End StoreFacts.

Lemma with_documents_same (s : MemStorage.t) :
  MemStorage.with_documents s (MemStorage.documents s) = s.
Proof. now destruct s. Qed.

(** X6. The document that [createDocument] returns is the one
    [getDocument] finds under its id afterwards, and the documents under the
    other ids are not touched.  It is listed without a filter; it is listed
    for a non-empty owner exactly when it was created for that owner, so a
    document created without owner is listed for no owner. *)
Theorem createDocument_lookup
  (s : MemStorage.t) (now : Z) (ins : InsertDocument.t) :
  let d := fst (MemStorage.createDocument now ins s) in
  let s' := snd (MemStorage.createDocument now ins s) in
  MemStorage.getDocument (Document.id d) s' = Some d /\
  (forall k, k <> Document.id d ->
             MemStorage.getDocument k s' = MemStorage.getDocument k s) /\
  In d (MemStorage.getAllDocuments None s') /\
  (forall A, A <> "" -> InsertDocument.userId ins = Some A ->
             In d (MemStorage.getUserDocuments A s')) /\
  (forall A, A <> "" -> InsertDocument.userId ins <> Some A ->
             In d (MemStorage.getUserDocuments A s') ->
             In d (MemStorage.getUserDocuments A s)).
Proof.
  intros d s'.
  assert (Hget : MemStorage.getDocument (Document.id d) s' = Some d)
    by apply get_set_same.
  assert (Hin : In d (JSMap.values (MemStorage.documents s'))).
  { apply get_some_in in Hget. change d with (snd (Document.id d, d)).
    now apply in_map. }
  split; [exact Hget|]. split; [intros k Hk; now apply get_set_other|].
  split.
  { unfold MemStorage.getAllDocuments. simpl truthy. cbv iota.
    eapply Permutation_in; [apply Permutation_sym, sort_perm | exact Hin]. }
  split.
  - intros A HA Ho. apply (proj2 (getAllDocuments_lists_aux s' A d HA)).
    split; [exact Hin | exact Ho].
  - intros A HA Ho Hd. apply getUserDocuments_owned in Hd; [|exact HA].
    destruct Hd as [_ Hd]. exfalso. apply Ho. exact Hd.
Qed.

Lemma createDocument_lookup_witness :
  "carol" <> "" /\
  InsertDocument.userId (Sample.upload_of (Some "carol") "d.txt")
  = Some "carol" /\
  In (fst (MemStorage.createDocument 700
             (Sample.upload_of (Some "carol") "d.txt") Sample.library))
     (MemStorage.getUserDocuments "carol"
        (snd (MemStorage.createDocument 700
                (Sample.upload_of (Some "carol") "d.txt") Sample.library))).
Proof.
  assert (H : "carol" <> "") by discriminate.
  split; [exact H|]. split; [reflexivity|].
  destruct (createDocument_lookup Sample.library 700
              (Sample.upload_of (Some "carol") "d.txt"))
    as (_ & _ & _ & Hown & _).
  exact (Hown "carol" H eq_refl).
Defined.

(** X7. [updateDocument] on a present id stores the document with the
    fields of the partial update laid over it, under the same key and at the
    same place, and returns it; the documents under the other ids, the
    chunks, the messages and the counters are not touched.  On an absent id
    it returns nothing and the store is the same. *)
Theorem updateDocument_frame
  (s : MemStorage.t) (id : Z) (updates : Document.partial) :
  (forall document,
     MemStorage.getDocument id s = Some document ->
     MemStorage.updateDocument id updates s
     = (Some (Document.spread document updates),
        snd (MemStorage.updateDocument id updates s)) /\
     MemStorage.getDocument id (snd (MemStorage.updateDocument id updates s))
     = Some (Document.spread document updates) /\
     (forall id', id' <> id ->
        MemStorage.getDocument id'
          (snd (MemStorage.updateDocument id updates s))
        = MemStorage.getDocument id' s) /\
     JSMap.keys (MemStorage.documents
                   (snd (MemStorage.updateDocument id updates s)))
     = JSMap.keys (MemStorage.documents s) /\
     Frame.same_but_documents s
       (snd (MemStorage.updateDocument id updates s))) /\
  (MemStorage.getDocument id s = None ->
   MemStorage.updateDocument id updates s = (None, s)).
Proof.
  unfold MemStorage.getDocument, MemStorage.updateDocument. split.
  - intros document Hget. rewrite Hget. simpl.
    split; [reflexivity|]. split; [apply get_set_same|].
    split; [intros id' Hne; now apply get_set_other|].
    split; [apply keys_set_present; congruence | repeat split].
  - intros Hget. now rewrite Hget.
Qed.

Lemma updateDocument_frame_witness :
  (exists document,
     MemStorage.getDocument 2 Sample.library = Some document /\
     MemStorage.getDocument 2
       (snd (MemStorage.updateDocument 2 Sample.id_four Sample.library))
     = Some (Document.spread document Sample.id_four) /\
     MemStorage.getDocument 1
       (snd (MemStorage.updateDocument 2 Sample.id_four Sample.library))
     = MemStorage.getDocument 1 Sample.library) /\
  MemStorage.getDocument 9 Sample.library = None /\
  MemStorage.updateDocument 9 Sample.id_four Sample.library
  = (None, Sample.library).
Proof.
  split.
  - eexists. split; [reflexivity|].
    destruct (proj1 (updateDocument_frame Sample.library 2 Sample.id_four)
                _ eq_refl) as (_ & Hget & Hother & _).
    split; [exact Hget|]. apply Hother. discriminate.
  - split; [reflexivity|].
    exact (proj2 (updateDocument_frame Sample.library 9 Sample.id_four)
             eq_refl).
Defined.

(** X8. [deleteDocument] on an id that no document has returns [false] and
    leaves the whole store as it is, chunks that name this id as parent
    included.  In a store reached through its methods, deleting a document
    twice returns [false] the second time and changes nothing more. *)
Theorem deleteDocument_absent (s : MemStorage.t) (id : Z) :
  (MemStorage.getDocument id s = None ->
   MemStorage.deleteDocument id s = (false, s)) /\
  (Invariant.sound s ->
   MemStorage.deleteDocument id (snd (MemStorage.deleteDocument id s))
   = (false, snd (MemStorage.deleteDocument id s))).
Proof.
  assert (Habsent : forall s0, MemStorage.getDocument id s0 = None ->
                               MemStorage.deleteDocument id s0 = (false, s0)).
  { intros s0 Hget. unfold MemStorage.getDocument in Hget.
    unfold MemStorage.deleteDocument, JSMap.has. rewrite Hget.
    rewrite delete_absent by exact Hget. now rewrite with_documents_same. }
  split; [apply Habsent|].
  intros [[[_ [Hnd _]] _ _] _ _]. apply Habsent.
  unfold MemStorage.getDocument, MemStorage.deleteDocument, JSMap.has.
  destruct (JSMap.get id (MemStorage.documents s)) eqn:E; simpl.
  - now apply get_delete_same.
  - rewrite delete_absent by exact E. exact E.
Qed.

Lemma deleteDocument_absent_witness :
  MemStorage.getDocument 9 Sample.library = None /\
  MemStorage.deleteDocument 9 Sample.library = (false, Sample.library) /\
  Invariant.sound Sample.library /\
  fst (MemStorage.deleteDocument 1
         (snd (MemStorage.deleteDocument 1 Sample.library))) = false.
Proof.
  pose proof (Invariant.wf_sound _ library_wf) as Hs.
  split; [reflexivity|].
  split; [exact (proj1 (deleteDocument_absent Sample.library 9) eq_refl)|].
  split; [exact Hs|].
  rewrite (proj2 (deleteDocument_absent Sample.library 1) Hs). reflexivity.
Defined.

(** X9. In a store reached through its methods, [deleteChunksByDocument]
    removes the chunks of the document and no other, keeping the order of
    the rest; it returns [true] exactly when the document had a chunk; and it
    leaves the documents as they are, the chunk count recorded in the
    document included. *)
Theorem deleteChunksByDocument_exact (s : MemStorage.t) (documentId : Z) :
  Invariant.sound s ->
  MemStorage.chunks (snd (MemStorage.deleteChunksByDocument documentId s))
  = filter (fun kv => negb (Chunk.documentId (snd kv) =? documentId))
           (MemStorage.chunks s) /\
  (fst (MemStorage.deleteChunksByDocument documentId s) = true <->
   MemStorage.getChunksByDocument documentId s <> []) /\
  MemStorage.getChunksByDocument documentId
    (snd (MemStorage.deleteChunksByDocument documentId s)) = [] /\
  (forall id', id' <> documentId ->
     MemStorage.getChunksByDocument id'
       (snd (MemStorage.deleteChunksByDocument documentId s))
     = MemStorage.getChunksByDocument id' s) /\
  MemStorage.documents (snd (MemStorage.deleteChunksByDocument documentId s))
  = MemStorage.documents s.
Proof.
  intros [[_ [_ [Hnd _]] _] Hkeyed _].
  rewrite deleteChunksByDocument_store by assumption. simpl.
  split; [reflexivity|]. split.
  { unfold MemStorage.deleteChunksByDocument, MemStorage.getChunksByDocument.
    simpl. rewrite length_map.
    destruct (filter _ (JSMap.values (MemStorage.chunks s))); simpl.
    - split; [discriminate | congruence].
    - split; [discriminate | reflexivity]. }
  unfold MemStorage.getChunksByDocument. simpl.
  rewrite (values_filter (fun c => negb (Chunk.documentId c =? documentId))).
  split; [|split; [|reflexivity]].
  - apply filter_none. intros c Hc. apply filter_In in Hc.
    destruct Hc as [_ Hc]. now apply negb_true_iff in Hc.
  - intros id' Hne. rewrite filter_filter_and. apply filter_ext. intros c.
    destruct (Chunk.documentId c =? documentId) eqn:E1; simpl; [|reflexivity].
    apply Z.eqb_eq in E1. symmetry. apply Z.eqb_neq. congruence.
Qed.

Lemma deleteChunksByDocument_exact_witness :
  Invariant.sound Sample.library /\
  MemStorage.getChunksByDocument 2
    (snd (MemStorage.deleteChunksByDocument 2 Sample.library)) = [] /\
  MemStorage.getChunksByDocument 1
    (snd (MemStorage.deleteChunksByDocument 2 Sample.library))
  = MemStorage.getChunksByDocument 1 Sample.library.
Proof.
  pose proof (Invariant.wf_sound _ library_wf) as Hs.
  destruct (deleteChunksByDocument_exact Sample.library 2 Hs)
    as (_ & _ & Hgone & Hother & _).
  split; [exact Hs|]. split; [exact Hgone|]. apply Hother. discriminate.
Defined.

(** X10. In a store reached through its methods, the chunk that
    [createChunk] returns is appended to the chunks of its parent id and the
    chunks of every other id stay as they are; the parent need not exist.
    A chunk created without embedding gets the empty one and is a candidate
    of no search. *)
Theorem createChunk_lookup
  (s : MemStorage.t) (now : Z) (ins : InsertChunk.t) :
  Invariant.sound s ->
  let chunk := fst (MemStorage.createChunk now ins s) in
  let s' := snd (MemStorage.createChunk now ins s) in
  MemStorage.getChunksByDocument (InsertChunk.documentId ins) s'
  = MemStorage.getChunksByDocument (InsertChunk.documentId ins) s ++ [chunk] /\
  (forall id', id' <> InsertChunk.documentId ins ->
     MemStorage.getChunksByDocument id' s'
     = MemStorage.getChunksByDocument id' s) /\
  MemStorage.getAllChunks s' = MemStorage.getAllChunks s ++ [chunk] /\
  (InsertChunk.embedding ins = None ->
   Chunk.embedding chunk = [] /\
   forall userId, MemStorage.candidates userId s'
                  = MemStorage.candidates userId s).
Proof.
  intros [[_ Kc _] _ _] chunk s'.
  assert (Happ : MemStorage.chunks s' = MemStorage.chunks s
                                         ++ [(Chunk.id chunk, chunk)]).
  { simpl. apply set_absent, keys_ok_fresh, Kc. }
  unfold MemStorage.getChunksByDocument, MemStorage.getAllChunks.
  rewrite Happ, values_app. simpl JSMap.values.
  split; [|split; [|split]].
  - rewrite filter_app. simpl. now rewrite Z.eqb_refl.
  - intros id' Hne. rewrite filter_app. simpl.
    apply Z.eqb_neq in Hne. rewrite Z.eqb_sym in Hne. rewrite Hne.
    apply app_nil_r.
  - reflexivity.
  - intros Hnone. assert (He : Chunk.embedding chunk = [])
      by (simpl; now rewrite Hnone).
    split; [exact He|]. intros userId.
    assert (Hf : filter (fun c => Nat.ltb 0 (List.length (Chunk.embedding c)))
                        (JSMap.values (MemStorage.chunks s'))
                 = filter (fun c => Nat.ltb 0 (List.length (Chunk.embedding c)))
                          (JSMap.values (MemStorage.chunks s))).
    { rewrite Happ, values_app, filter_app. simpl. rewrite Hnone. simpl.
      apply app_nil_r. }
    unfold MemStorage.candidates. rewrite Hf. reflexivity.
Qed.

Lemma createChunk_lookup_witness :
  Invariant.sound Sample.library /\
  InsertChunk.embedding (InsertChunk.mk 7 "orphan" None None) = None /\
  MemStorage.getChunksByDocument 7
    (snd (MemStorage.createChunk 700 (InsertChunk.mk 7 "orphan" None None)
            Sample.library))
  = [fst (MemStorage.createChunk 700 (InsertChunk.mk 7 "orphan" None None)
            Sample.library)] /\
  MemStorage.candidates None
    (snd (MemStorage.createChunk 700 (InsertChunk.mk 7 "orphan" None None)
            Sample.library))
  = MemStorage.candidates None Sample.library.
Proof.
  pose proof (Invariant.wf_sound _ library_wf) as Hs.
  destruct (createChunk_lookup Sample.library 700
              (InsertChunk.mk 7 "orphan" None None) Hs)
    as (Hget & _ & _ & Hnone).
  split; [exact Hs|]. split; [reflexivity|].
  split; [exact Hget|]. exact (proj2 (Hnone eq_refl) None).
Defined.

(** X11. In a store reached through its methods, once [deleteDocument] has
    removed a document, [findSimilarChunks] returns no chunk of it, whatever
    the query, the owner filter and the limit. *)
Theorem findSimilarChunks_after_delete
  (s : MemStorage.t) (id : Z) (d : Document.t)
  (q : list R) (userId : option string) (limit : option Z) (r : Scored.t) :
  Invariant.sound s ->
  MemStorage.getDocument id s = Some d ->
  In r (MemStorage.findSimilarChunks q userId limit
          (snd (MemStorage.deleteDocument id s))) ->
  Chunk.documentId (Scored.chunk r) <> id.
Proof.
  intros [[_ [_ [Hnd _]] _] Hkeyed _] Hget Hr.
  apply findSimilarChunks_in in Hr. destruct Hr as [chunk [Hc ->]].
  apply candidates_stored in Hc. destruct Hc as [Hin _]. simpl.
  unfold MemStorage.getDocument in Hget.
  assert (E : snd (MemStorage.deleteDocument id s)
              = snd (MemStorage.deleteChunksByDocument id
                       (MemStorage.with_documents s
                          (JSMap.delete id (MemStorage.documents s))))).
  { unfold MemStorage.deleteDocument, JSMap.has. now rewrite Hget. }
  rewrite E in Hin. rewrite deleteChunksByDocument_store in Hin by assumption.
  simpl in Hin.
  rewrite (values_filter (fun c => negb (Chunk.documentId c =? id))) in Hin.
  apply filter_In in Hin. destruct Hin as [_ Hne].
  apply negb_true_iff, Z.eqb_neq in Hne. exact Hne.
Qed.

Lemma findSimilarChunks_after_delete_witness :
  Invariant.sound Sample.library /\
  (exists d, MemStorage.getDocument 1 Sample.library = Some d) /\
  forall r,
    In r (MemStorage.findSimilarChunks [1%R; 0%R] None None
            (snd (MemStorage.deleteDocument 1 Sample.library))) ->
    Chunk.documentId (Scored.chunk r) <> 1.
Proof.
  pose proof (Invariant.wf_sound _ library_wf) as Hs.
  split; [exact Hs|]. split; [eexists; reflexivity|]. intros r.
  exact (findSimilarChunks_after_delete Sample.library 1 _ [1%R; 0%R]
           None None r Hs eq_refl).
Defined.

(** ** The routes *)

(** X12. [getUserId] never returns the empty string; it leaves the
    identifier it returns in the session, and every later call on that
    session returns the same identifier, whatever the time and the random
    text.  A session that holds a non-empty identifier keeps it. *)
Theorem getUserId_stable
  (stamp suffix stamp' suffix' : string) (session : option string) :
  fst (Api.getUserId stamp suffix session) <> "" /\
  snd (Api.getUserId stamp suffix session)
  = Some (fst (Api.getUserId stamp suffix session)) /\
  Api.getUserId stamp' suffix' (snd (Api.getUserId stamp suffix session))
  = Api.getUserId stamp suffix session /\
  (forall u, session = Some u -> u <> "" ->
             Api.getUserId stamp suffix session = (u, session)).
Proof.
  unfold Api.getUserId.
  destruct session as [u|]; simpl.
  - destruct (String.eqb u "") eqn:E; simpl.
    + split; [discriminate|]. split; [reflexivity|].
      split; [reflexivity|]. intros u' [= <-] Hu.
      apply String.eqb_eq in E. contradiction.
    + split; [now apply String.eqb_neq|]. split; [reflexivity|].
      rewrite E. simpl. split; [reflexivity|]. intros u' [= <-] _.
      reflexivity.
  - split; [discriminate|]. split; [reflexivity|].
    split; [reflexivity|]. discriminate.
Qed.

Lemma getUserId_stable_witness :
  Some "user_17_ab" = Some "user_17_ab" /\ "user_17_ab" <> "" /\
  Api.getUserId "99" "zz" (Some "user_17_ab")
  = ("user_17_ab", Some "user_17_ab").
Proof.
  assert (H : "user_17_ab" <> "") by discriminate.
  split; [reflexivity|]. split; [exact H|].
  destruct (getUserId_stable "99" "zz" "99" "zz" (Some "user_17_ab"))
    as (_ & _ & _ & Hkeep).
  exact (Hkeep "user_17_ab" eq_refl H).
Defined.

(** [deleteDocument] on a present id, in a store reached through its
    methods. *)
Lemma deleteDocument_store (s : MemStorage.t) (id : Z) (d : Document.t) :
  Invariant.sound s ->
  MemStorage.getDocument id s = Some d ->
  MemStorage.deleteDocument id s
  = (true,
     MemStorage.mk
       (JSMap.delete id (MemStorage.documents s))
       (filter (fun kv => negb (Chunk.documentId (snd kv) =? id))
               (MemStorage.chunks s))
       (MemStorage.chatMessages s)
       (MemStorage.currentDocumentId s) (MemStorage.currentChunkId s)
       (MemStorage.currentMessageId s)).
Proof.
  intros [[_ [_ [Hnd _]] _] Hkeyed _] Hget.
  unfold MemStorage.getDocument in Hget.
  unfold MemStorage.deleteDocument, JSMap.has. rewrite Hget.
  rewrite deleteChunksByDocument_store by assumption. reflexivity.
Qed.

Lemma chunks_of_other_kept (s : MemStorage.t) (id k : Z) :
  k <> id ->
  filter (fun c => Chunk.documentId c =? k)
         (JSMap.values
            (filter (fun kv => negb (Chunk.documentId (snd kv) =? id))
                    (MemStorage.chunks s)))
  = MemStorage.getChunksByDocument k s.
Proof.
  intros Hne. unfold MemStorage.getChunksByDocument.
  rewrite (values_filter (fun c => negb (Chunk.documentId c =? id))).
  rewrite filter_filter_and. apply filter_ext. intros c.
  destruct (Chunk.documentId c =? id) eqn:E1; simpl; [|reflexivity].
  apply Z.eqb_eq in E1. symmetry. apply Z.eqb_neq. congruence.
Qed.

Lemma owner_eqb_neq (x y : option string) : x <> y -> owner_eqb x y = false.
Proof.
  intros H. apply not_true_is_false. intros E. apply owner_eqb_eq in E. auto.
Qed.

(** X13. In a store reached through its methods, a document that the
    requester does not own is protected from the requester: the progress
    route and the delete route answer 403 for it, and whatever document the
    requester asks to delete, this document and its chunks stay as they
    are.  A document without owner is protected from everybody in this
    way. *)
Theorem foreign_document_protected
  (s : MemStorage.t) (userId : string) (k : Z) (d : Document.t)
  (id : option Z) :
  Invariant.sound s ->
  MemStorage.getDocument k s = Some d ->
  Document.userId d <> Some userId ->
  Api.documentProgress (Some k) userId s
  = Api.respond 403 (Api.Note "Access denied") /\
  Api.removeDocument (Some k) userId s
  = (Api.respond 403 (Api.Note "Access denied"), s) /\
  MemStorage.getDocument k (snd (Api.removeDocument id userId s)) = Some d /\
  MemStorage.getChunksByDocument k (snd (Api.removeDocument id userId s))
  = MemStorage.getChunksByDocument k s.
Proof.
  intros Hs Hget Hforeign.
  pose proof (owner_eqb_neq _ _ Hforeign) as Ho.
  split; [|split].
  - unfold Api.documentProgress. rewrite Hget, Ho. reflexivity.
  - unfold Api.removeDocument. rewrite Hget, Ho. reflexivity.
  - unfold Api.removeDocument. destruct id as [k'|]; [|now split].
    destruct (MemStorage.getDocument k' s) as [d'|] eqn:Hget'; [|now split].
    destruct (owner_eqb (Document.userId d') (Some userId)) eqn:Ho';
      simpl; [|now split].
    assert (Hne : k <> k').
    { intros ->. rewrite Hget in Hget'. injection Hget' as <-.
      congruence. }
    rewrite (deleteDocument_store s k' d' Hs Hget'). simpl.
    split.
    + unfold MemStorage.getDocument in *. simpl.
      now rewrite get_delete_other.
    + unfold MemStorage.getChunksByDocument at 1. simpl.
      now apply chunks_of_other_kept.
Qed.

Lemma foreign_document_protected_witness :
  Invariant.sound Sample.library /\
  (exists d,
     MemStorage.getDocument 2 Sample.library = Some d /\
     Document.userId d <> Some "alice" /\
     MemStorage.getDocument 2
       (snd (Api.removeDocument (Some 1) "alice" Sample.library)) = Some d) /\
  Api.documentProgress (Some 2) "alice" Sample.library
  = Api.respond 403 (Api.Note "Access denied") /\
  Api.documentProgress (Some 3) "alice" Sample.library
  = Api.respond 403 (Api.Note "Access denied").
Proof.
  pose proof (Invariant.wf_sound _ library_wf) as Hs.
  assert (H2 : Some "bob" <> Some "alice") by discriminate.
  assert (H3 : @None string <> Some "alice") by discriminate.
  split; [exact Hs|]. split; [|split].
  - eexists. split; [reflexivity|]. split; [exact H2|].
    exact (proj1 (proj2 (proj2
             (foreign_document_protected Sample.library "alice" 2 _ (Some 1)
                Hs eq_refl H2)))).
  - exact (proj1 (foreign_document_protected Sample.library "alice" 2 _ None
                    Hs eq_refl H2)).
  - exact (proj1 (foreign_document_protected Sample.library "alice" 3 _ None
                    Hs eq_refl H3)).
Defined.

(** X14. In a store reached through its methods, the delete route answers
    200 to the owner of the document; afterwards the document is gone and
    has no chunk left, and the other documents, their chunks and the
    transcript are as before. *)
Theorem removeDocument_owner
  (s : MemStorage.t) (userId : string) (k : Z) (d : Document.t) :
  Invariant.sound s ->
  MemStorage.getDocument k s = Some d ->
  Document.userId d = Some userId ->
  let s' := snd (Api.removeDocument (Some k) userId s) in
  fst (Api.removeDocument (Some k) userId s)
  = Api.respond 200 (Api.Note "Document deleted successfully") /\
  MemStorage.getDocument k s' = None /\
  MemStorage.getChunksByDocument k s' = [] /\
  (forall k', k' <> k ->
     MemStorage.getDocument k' s' = MemStorage.getDocument k' s /\
     MemStorage.getChunksByDocument k' s'
     = MemStorage.getChunksByDocument k' s) /\
  MemStorage.chatMessages s' = MemStorage.chatMessages s.
Proof.
  intros Hs Hget Ho s'.
  assert (Hrun : Api.removeDocument (Some k) userId s
                 = (Api.respond 200 (Api.Note "Document deleted successfully"),
                    snd (MemStorage.deleteDocument k s))).
  { unfold Api.removeDocument. rewrite Hget.
    rewrite (proj2 (owner_eqb_eq _ _) Ho). simpl.
    now rewrite (deleteDocument_store s k d Hs Hget). }
  subst s'. rewrite Hrun. simpl fst. simpl snd.
  rewrite (deleteDocument_store s k d Hs Hget). simpl snd.
  split; [reflexivity|].
  pose proof Hs as [[[_ [Hnd _]] _ _] _ _].
  split; [unfold MemStorage.getDocument; simpl; now apply get_delete_same|].
  split.
  { unfold MemStorage.getChunksByDocument. simpl.
    rewrite (values_filter (fun c => negb (Chunk.documentId c =? k))).
    apply filter_none. intros c Hc. apply filter_In in Hc.
    destruct Hc as [_ Hc]. now apply negb_true_iff in Hc. }
  split; [|reflexivity].
  intros k' Hne. split.
  - unfold MemStorage.getDocument. simpl. now apply get_delete_other.
  - unfold MemStorage.getChunksByDocument at 1. simpl.
    now apply chunks_of_other_kept.
Qed.

Lemma removeDocument_owner_witness :
  Invariant.sound Sample.library /\
  (exists d,
     MemStorage.getDocument 1 Sample.library = Some d /\
     Document.userId d = Some "alice") /\
  fst (Api.removeDocument (Some 1) "alice" Sample.library)
  = Api.respond 200 (Api.Note "Document deleted successfully") /\
  MemStorage.getDocument 1
    (snd (Api.removeDocument (Some 1) "alice" Sample.library)) = None.
Proof.
  pose proof (Invariant.wf_sound _ library_wf) as Hs.
  split; [exact Hs|]. split; [eexists; split; reflexivity|].
  destruct (removeDocument_owner Sample.library "alice" 1 _ Hs eq_refl eq_refl)
    as (Hcode & Hgone & _).
  split; [exact Hcode | exact Hgone].
Defined.

Section StatsFacts.
Import Invariant.

Lemma length_filter_or {A : Type} (p q : A -> bool) (l : list A) :
  (forall x, p x = true -> q x = false) ->
  List.length (filter (fun x => p x || q x) l)
  = (List.length (filter p l) + List.length (filter q l))%nat.
Proof.
  intros H. induction l as [|x l IH]; simpl; [reflexivity|].
  destruct (p x) eqn:Ep; simpl.
  - rewrite (H x Ep). simpl. now rewrite IH.
  - destruct (q x); simpl; rewrite IH; lia.
Qed.

Lemma countChunks_from (s : MemStorage.t) (l : list Document.t) :
  NoDup (map Document.id l) ->
  forall acc,
    fold_left
      (fun chunkCount doc =>
         chunkCount
         + Z.of_nat (List.length
                       (MemStorage.getChunksByDocument (Document.id doc) s)))
      l acc
    = acc + Z.of_nat
              (List.length
                 (filter (fun c => existsb (Z.eqb (Chunk.documentId c))
                                           (map Document.id l))
                         (MemStorage.getAllChunks s))).
Proof.
  induction l as [|d l IH]; intros Hnd acc; simpl.
  - rewrite filter_false. simpl. lia.
  - inversion Hnd as [|? ? Hd Hnd']; subst. rewrite IH by exact Hnd'.
    rewrite length_filter_or.
    + unfold MemStorage.getChunksByDocument, MemStorage.getAllChunks. lia.
    + intros c Hc. apply Z.eqb_eq in Hc. apply not_true_is_false.
      intros Hex. apply existsb_exists in Hex. destruct Hex as [i [Hi Hci]].
      apply Z.eqb_eq in Hci. apply Hd. congruence.
Qed.

(** Filtering records keeps their ids distinct. *)
Lemma filter_ids_distinct {V : Type} (id_of : V -> Z) (keep : V -> bool) :
  forall records : list V,
    NoDup (map id_of records) -> NoDup (map id_of (filter keep records)).
Proof.
  intros records. induction records as [|r rest IH]; intros Hnd;
    [exact Hnd|].
  apply NoDup_cons_iff in Hnd. destruct Hnd as [Hfresh Hrest].
  cbn [filter]. destruct (keep r); [|now apply IH].
  cbn [map]. apply NoDup_cons; [|now apply IH].
  intros Hin. apply Hfresh. apply in_map_iff in Hin.
  destruct Hin as (r' & Hid & Hr'). apply filter_In in Hr'.
  apply in_map_iff. exists r'. split; [exact Hid | apply Hr'].
Qed.

Lemma keyed_ids {V : Type} (id_of : V -> Z) (m : JSMap.t V) :
  keyed id_of m -> map id_of (JSMap.values m) = JSMap.keys m.
Proof.
  unfold keyed, JSMap.values, JSMap.keys.
  induction 1 as [|kv m Hkv _ IH]; simpl; congruence.
Qed.

Lemma getUserDocuments_ids_NoDup (s : MemStorage.t) (userId : string) :
  wf s -> NoDup (map Document.id (MemStorage.getUserDocuments userId s)).
Proof.
  intros [[[[_ [Hnd _]] _ _] _ _] Hk].
  unfold MemStorage.getUserDocuments, MemStorage.getAllDocuments.
  eapply Permutation_NoDup;
    [apply Permutation_map, Permutation_sym, sort_perm|].
  rewrite <- (keyed_ids _ _ Hk) in Hnd.
  destruct (truthy (Some userId)); [now apply filter_ids_distinct | exact Hnd].
Qed.

(** In a well-formed store, a chunk names a document of a non-empty owner
    exactly when its parent document is owned by that owner. *)
Lemma listed_parent_owned (s : MemStorage.t) (userId : string) (c : Chunk.t) :
  wf s -> userId <> "" ->
  existsb (Z.eqb (Chunk.documentId c))
          (map Document.id (MemStorage.getUserDocuments userId s))
  = Listing.parent_owned userId s c.
Proof.
  intros Hwf HA. unfold Listing.parent_owned.
  destruct (MemStorage.getDocument (Chunk.documentId c) s) as [d|] eqn:Hget.
  - destruct (owner_eqb (Document.userId d) (Some userId)) eqn:Ho.
    + apply existsb_exists. exists (Document.id d).
      assert (Hin : In d (JSMap.values (MemStorage.documents s))).
      { apply get_some_in in Hget.
        change d with (snd (Chunk.documentId c, d)). now apply in_map. }
      pose proof (stored_document_found s d Hwf Hin) as Hd.
      split.
      * apply in_map. apply getAllDocuments_lists_aux; [exact HA|].
        split; [exact Hin | now apply owner_eqb_eq].
      * apply Z.eqb_eq. destruct Hwf as [_ Hk]. unfold keyed in Hk.
        rewrite Forall_forall in Hk. apply get_some_in in Hget.
        symmetry. apply (Hk _ Hget).
    + apply not_true_is_false. intros Hex. apply existsb_exists in Hex.
      destruct Hex as [i [Hi Hci]]. apply Z.eqb_eq in Hci. subst i.
      apply in_map_iff in Hi. destruct Hi as [d' [Hid Hd']].
      apply getUserDocuments_owned in Hd'; [|exact HA].
      destruct Hd' as [Hin' Ho'].
      pose proof (stored_document_found s d' Hwf Hin') as Hf.
      rewrite Hid, Hget in Hf. injection Hf as <-.
      apply owner_eqb_eq in Ho'. congruence.
  - apply not_true_is_false. intros Hex. apply existsb_exists in Hex.
    destruct Hex as [i [Hi Hci]]. apply Z.eqb_eq in Hci. subst i.
    apply in_map_iff in Hi. destruct Hi as [d' [Hid Hd']].
    apply getUserDocuments_owned in Hd'; [|exact HA].
    destruct Hd' as [Hin' _].
    pose proof (stored_document_found s d' Hwf Hin') as Hf.
    rewrite Hid, Hget in Hf. discriminate.
Qed.
End StatsFacts.

(** X15. In a well-formed store and for a non-empty requester, the stats
    route reports the number of the requester's documents, the number of
    stored chunks whose parent document the requester owns, the number of
    the requester's messages, and a hundred times that number as token
    estimate. *)
Theorem stats_counts (s : MemStorage.t) (userId : string) :
  Invariant.wf s -> userId <> "" ->
  Api.stats userId s
  = Api.respond 200
      (Api.Stats
         (Z.of_nat (List.length (Listing.documents_of (Some userId) s)))
         (Z.of_nat (List.length
                      (filter (Listing.parent_owned userId s)
                              (MemStorage.getAllChunks s))))
         (Z.of_nat (List.length (Listing.messages_of (Some userId) s)))
         (Z.of_nat (List.length (Listing.messages_of (Some userId) s)) * 100)).
Proof.
  intros Hwf HA. unfold Api.stats, Api.countChunks.
  rewrite countChunks_from by (now apply getUserDocuments_ids_NoDup).
  rewrite (filter_ext _ _ (fun c => listed_parent_owned s userId c Hwf HA)).
  unfold MemStorage.getUserDocuments, MemStorage.getAllDocuments,
    MemStorage.getUserChatMessages, MemStorage.getAllChatMessages,
    Listing.documents_of, Listing.messages_of.
  rewrite !(Permutation_length (sort_perm _ _)). reflexivity.
Qed.

Lemma stats_counts_witness :
  Invariant.wf Sample.library /\ "alice" <> "" /\
  Api.stats "alice" Sample.library = Api.respond 200 (Api.Stats 1 1 1 100).
Proof.
  assert (H : "alice" <> "") by discriminate.
  split; [exact library_wf|]. split; [exact H|].
  rewrite (stats_counts Sample.library "alice" library_wf H). reflexivity.
Defined.

Lemma getUserId_nonempty (stamp suffix : string) (session : option string) :
  fst (Api.getUserId stamp suffix session) <> "".
Proof.
  unfold Api.getUserId. destruct session as [u|]; simpl; [|discriminate].
  destruct (String.eqb u "") eqn:E; simpl; [discriminate|].
  now apply String.eqb_neq.
Qed.

(** X16. In a store reached through its methods, the clear route of a
    session answers 200 and removes the messages of the session's
    identifier and no other: through the route the whole transcript is
    never cleared at once, since the identifier is never empty. *)
Theorem clearMessagesOf_scoped
  (stamp suffix : string) (session : option string) (s : MemStorage.t) :
  Invariant.sound s ->
  let userId := fst (Api.getUserId stamp suffix session) in
  let out := Api.clearMessagesOf stamp suffix session s in
  fst (fst out) = Api.respond 200 (Api.Note "Chat history cleared") /\
  snd out = Some userId /\
  (forall k msg,
     In (k, msg) (MemStorage.chatMessages (snd (fst out))) <->
     In (k, msg) (MemStorage.chatMessages s) /\
     ChatMessage.userId msg <> Some userId) /\
  MemStorage.documents (snd (fst out)) = MemStorage.documents s /\
  MemStorage.chunks (snd (fst out)) = MemStorage.chunks s.
Proof.
  intros [[_ _ [_ [Hnd _]]] _ Hkeyed] userId out.
  pose proof (getUserId_nonempty stamp suffix session) as HA. fold userId in HA.
  pose proof (clearChatMessages_store (Some userId) s Hnd Hkeyed) as Hstore.
  rewrite (truthy_nonempty userId HA) in Hstore.
  assert (Hout : out = (Api.respond 200 (Api.Note "Chat history cleared"),
                        snd (MemStorage.clearChatMessages (Some userId) s),
                        Some userId)).
  { subst out userId. unfold Api.clearMessagesOf, Api.clearMessages.
    assert (Hs : snd (Api.getUserId stamp suffix session)
                 = Some (fst (Api.getUserId stamp suffix session))).
    { unfold Api.getUserId. destruct session as [u|]; simpl; [|reflexivity].
      destruct (String.eqb u ""); reflexivity. }
    destruct (Api.getUserId stamp suffix session) as [u session'].
    simpl in *. subst session'.
    destruct (MemStorage.clearChatMessages (Some u) s). reflexivity. }
  rewrite Hout. simpl fst. simpl snd. rewrite Hstore. simpl.
  split; [reflexivity|]. split; [reflexivity|].
  split; [|split; reflexivity].
  intros k msg. rewrite filter_In. simpl. rewrite negb_true_iff.
  split; intros [Hin Ho]; (split; [exact Hin|]).
  - intros E. apply owner_eqb_eq in E. congruence.
  - now apply owner_eqb_neq.
Qed.

Lemma clearMessagesOf_scoped_witness :
  Invariant.sound Sample.mixed /\
  exists k msg,
    ChatMessage.userId msg = Some "" /\
    In (k, msg)
       (MemStorage.chatMessages
          (snd (fst (Api.clearMessagesOf "17" "ab" (Some "") Sample.mixed)))).
Proof.
  assert (Hs : Invariant.sound Sample.mixed).
  { apply reachable_sound. apply play_reachable; [|constructor].
    repeat constructor. }
  split; [exact Hs|].
  destruct (clearMessagesOf_scoped "17" "ab" (Some "") Sample.mixed Hs)
    as (_ & _ & Hkept & _).
  do 2 eexists. split; [|apply Hkept; split; [left; reflexivity|]].
  - reflexivity.
  - discriminate.
Defined.

(** ** The chat handler, every outcome *)

Section ChatRun.
Import Routes.
Variable generateEmbedding : nat -> string -> option (list R).
Variable streamChatResponse :
  string -> list string -> list (string * string) -> GenResult.t.
Variable now : nat -> Z.

Lemma consume_completes (fragments : list string) : forall fullResponse w,
  consume fragments true fullResponse w
  = (Ok (fold_left String.append fragments fullResponse),
     mkWorld (store w)
             (trace w ++ map (fun chunk => ResWrite (EvChunk chunk)) fragments)).
Proof.
  induction fragments as [|chunk rest IH]; intros acc [s tr]; simpl.
  - unfold ret. now rewrite app_nil_r.
  - unfold bind, emit. simpl. rewrite IH. simpl. now rewrite <- app_assoc.
Qed.

(** The handler on a non-empty question whose embedding succeeds. *)
Lemma chatSend_run (content userId : string) (q : list R) (w : World) :
  content <> "" ->
  generateEmbedding 0 content = Some q ->
  chatSend generateEmbedding streamChatResponse now (JStr content) userId w
  = (Ok tt,
     mkWorld (Chat.final streamChatResponse now content userId q w)
             (trace w ++ Chat.written streamChatResponse now content userId q w)).
Proof.
  intros Hc Hq. unfold chatSend.
  apply String.eqb_neq in Hc. rewrite Hc.
  unfold try_catch at 1, bind at 1, storage at 1.
  change (MemStorage.createChatMessage (now 0%nat)
            (userMessage content userId) (store w))
    with (Chat.posted now content userId w).
  destruct (Chat.posted now content userId w) as [message s1] eqn:Eposted.
  unfold bind at 1. rewrite Hq. unfold ret at 1.
  unfold bind at 1, query at 1. simpl store.
  unfold bind at 1, query at 1. simpl store.
  unfold bind at 1, emit at 1. simpl store. simpl trace.
  unfold bind at 1, try_catch at 1, respond.
  unfold bind at 1, emit at 1. simpl store. simpl trace.
  unfold bind at 1.
  unfold Chat.final, Chat.written, Chat.chunkFrames, Chat.assistantMessage,
    Chat.sources, Chat.fullResponse, Chat.answer, Chat.contextTexts,
    Chat.formattedHistory, Chat.similarChunks.
  rewrite Eposted. simpl snd.
  set (answer := streamChatResponse content _ _).
  destruct (GenResult.completes answer) eqn:Ecomp.
  - rewrite consume_completes. simpl.
    unfold bind, emit, storage, ret. simpl.
    rewrite <- !app_assoc. reflexivity.
  - rewrite consume_fails. simpl. unfold emit. simpl.
    rewrite <- !app_assoc. reflexivity.
Qed.
End ChatRun.

(** X17. A chat request whose content is not a non-empty string is answered
    400 and nothing else happens: the store is untouched, and neither the
    embedder nor the generator is called. *)
Theorem chatSend_rejects_malformed
  (generateEmbedding : nat -> string -> option (list R))
  (streamChatResponse :
     string -> list string -> list (string * string) -> Routes.GenResult.t)
  (now : nat -> Z) (body : Json) (userId : string) (w : Routes.World) :
  (forall content, body = JStr content -> content = "") ->
  Routes.chatSend generateEmbedding streamChatResponse now body userId w
  = (Routes.Ok tt,
     Routes.mkWorld (Routes.store w)
       (Routes.trace w
          ++ [Routes.ResJson 400
                (Routes.Message "Message content is required")])).
Proof.
  intros Hbody. unfold Routes.chatSend.
  destruct body as [|n|content|items|fields]; try reflexivity.
  rewrite (Hbody content eq_refl). reflexivity.
Qed.

Lemma chatSend_rejects_malformed_witness :
  (forall content, JNum 7 = JStr content -> content = "") /\
  Routes.chatSend SampleRun.secondFails SampleRun.breaks SampleRun.clock
    (JNum 7) "alice" SampleRun.stocked
  = (Routes.Ok tt,
     Routes.mkWorld Sample.library
       [Routes.ResJson 400 (Routes.Message "Message content is required")]).
Proof.
  assert (H : forall content, JNum 7 = JStr content -> content = "")
    by discriminate.
  split; [exact H|].
  exact (chatSend_rejects_malformed SampleRun.secondFails SampleRun.breaks
           SampleRun.clock (JNum 7) "alice" SampleRun.stocked H).
Defined.

(** X18. When the embedder throws on the question, the chat route answers
    500 without opening the stream and without calling the generator, and
    the user's message, saved before the embedding, stays in the store. *)
Theorem chatSend_embedder_failure
  (generateEmbedding : nat -> string -> option (list R))
  (streamChatResponse :
     string -> list string -> list (string * string) -> Routes.GenResult.t)
  (now : nat -> Z) (content userId : string) (w : Routes.World) :
  content <> "" ->
  generateEmbedding 0%nat content = None ->
  let posted :=
    MemStorage.createChatMessage (now 0%nat)
      (Routes.userMessage content userId) (Routes.store w) in
  Routes.chatSend generateEmbedding streamChatResponse now
    (JStr content) userId w
  = (Routes.Ok tt,
     Routes.mkWorld (snd posted)
       (Routes.trace w
          ++ [Routes.ResJson 500
                (Routes.Message "Failed to process message")])) /\
  (Invariant.sound (Routes.store w) ->
   MemStorage.chatMessages (snd posted)
   = MemStorage.chatMessages (Routes.store w)
       ++ [(MemStorage.currentMessageId (Routes.store w), fst posted)] /\
   ChatMessage.role (fst posted) = "user" /\
   ChatMessage.content (fst posted) = content /\
   ChatMessage.userId (fst posted) = Some userId).
Proof.
  intros Hc Hq posted. split.
  - unfold Routes.chatSend. apply String.eqb_neq in Hc. rewrite Hc.
    unfold Routes.try_catch at 1, Routes.bind at 1, Routes.storage at 1.
    fold posted. destruct posted as [message s1].
    unfold Routes.bind at 1. rewrite Hq. reflexivity.
  - intros Hs. split; [|repeat split].
    simpl. apply set_absent, keys_ok_fresh, Hs.
Qed.

Lemma chatSend_embedder_failure_witness :
  Routes.chatSend SampleChat.embedderThrows SampleRun.breaks SampleRun.clock
    (JStr "why?") "alice" SampleRun.stocked
  = (Routes.Ok tt,
     Routes.mkWorld
       (snd (MemStorage.createChatMessage (SampleRun.clock 0%nat)
               (Routes.userMessage "why?" "alice") Sample.library))
       [Routes.ResJson 500 (Routes.Message "Failed to process message")]).
Proof.
  assert (Hc : "why?" <> "") by discriminate.
  exact (proj1 (chatSend_embedder_failure SampleChat.embedderThrows
                  SampleRun.breaks SampleRun.clock "why?" "alice"
                  SampleRun.stocked Hc eq_refl)).
Defined.

Lemma fold_append_concat (fragments : list string) : forall acc,
  fold_left String.append fragments acc
  = (acc ++ String.concat "" fragments)%string.
Proof.
  assert (Hassoc : forall a b c : string,
            ((a ++ b) ++ c = a ++ (b ++ c))%string).
  { induction a as [|ch a IH]; intros b c; simpl; [reflexivity|].
    now rewrite IH. }
  assert (Hnil : forall a : string, (a ++ "")%string = a).
  { induction a as [|ch a IH]; simpl; [reflexivity|]. now rewrite IH. }
  induction fragments as [|x rest IH]; intros acc; simpl.
  - now rewrite Hnil.
  - rewrite IH. destruct rest as [|y rest'].
    + simpl. now rewrite Hnil.
    + rewrite Hassoc. reflexivity.
Qed.

Lemma set_in {V : Type} (k : Z) (v : V) (m : JSMap.t V) :
  In (k, v) (JSMap.set k v m).
Proof.
  induction m as [|[k' v'] m IH]; simpl; [now left|].
  destruct (k =? k'); [now left | now right].
Qed.

Lemma createChatMessage_wf (now : Z) (ins : InsertChatMessage.t)
  (s : MemStorage.t) :
  Invariant.wf s -> Invariant.wf (snd (MemStorage.createChatMessage now ins s)).
Proof.
  intros H.
  exact (run_wf (Invariant.CreateChatMessage now ins) s I H).
Qed.

Lemma createChatMessage_sound (now : Z) (ins : InsertChatMessage.t)
  (s : MemStorage.t) :
  Invariant.sound s ->
  Invariant.sound (snd (MemStorage.createChatMessage now ins s)).
Proof.
  intros H.
  exact (run_sound (Invariant.CreateChatMessage now ins) s H).
Qed.

(** X19. When the embedder and the generator both succeed on a non-empty
    question, the chat route does not throw; it adds exactly two messages
    to the transcript of a sound store, the question with role user and then
    the answer with role assistant, whose content is the fragments received
    put together in order and whose sources are those sent on the stream;
    documents and chunks stay as they were; and the stream carries one chunk
    frame per fragment, then the sources frame, then the done frame, and is
    ended last. *)
Theorem chatSend_success
  (generateEmbedding : nat -> string -> option (list R))
  (streamChatResponse :
     string -> list string -> list (string * string) -> Routes.GenResult.t)
  (now : nat -> Z) (content userId : string) (q : list R)
  (w : Routes.World) :
  content <> "" ->
  generateEmbedding 0%nat content = Some q ->
  Invariant.sound (Routes.store w) ->
  let answer := Chat.answer streamChatResponse now content userId q w in
  let sources := Chat.sources now content userId q w in
  Routes.GenResult.completes answer = true ->
  let result :=
    Routes.chatSend generateEmbedding streamChatResponse now
      (JStr content) userId w in
  let n := MemStorage.currentMessageId (Routes.store w) in
  fst result = Routes.Ok tt /\
  (exists user assistant,
     MemStorage.chatMessages (Routes.store (snd result))
     = MemStorage.chatMessages (Routes.store w)
         ++ [(n, user); (n + 1, assistant)] /\
     ChatMessage.role user = "user" /\
     ChatMessage.content user = content /\
     ChatMessage.userId user = Some userId /\
     ChatMessage.role assistant = "assistant" /\
     ChatMessage.content assistant
     = String.concat "" (Routes.GenResult.fragments answer) /\
     ChatMessage.sources assistant = sources /\
     ChatMessage.userId assistant = Some userId) /\
  MemStorage.documents (Routes.store (snd result))
  = MemStorage.documents (Routes.store w) /\
  MemStorage.chunks (Routes.store (snd result))
  = MemStorage.chunks (Routes.store w) /\
  Routes.frames (Routes.trace (snd result))
  = Routes.frames (Routes.trace w)
      ++ map Routes.EvChunk (Routes.GenResult.fragments answer)
      ++ [Routes.EvSources sources; Routes.EvDone] /\
  last (Routes.trace (snd result)) (Routes.ResJson 0 (Routes.Message ""))
  = Routes.ResEnd.
Proof.
  intros Hc Hq Hs answer sources Hdone result n. subst result.
  rewrite (chatSend_run generateEmbedding streamChatResponse now
             content userId q w Hc Hq).
  simpl fst. simpl snd. simpl Routes.store. simpl Routes.trace.
  unfold Chat.final, Chat.written. fold answer. rewrite Hdone.
  split; [reflexivity|].
  pose proof (createChatMessage_sound (now 0%nat)
                (Routes.userMessage content userId) (Routes.store w) Hs)
    as Hs1.
  fold (Chat.posted now content userId w) in Hs1.
  split; [|split; [reflexivity|split; [reflexivity|split]]].
  - exists (fst (Chat.posted now content userId w)).
    exists (fst (MemStorage.createChatMessage (now 1%nat)
                   (Chat.assistantMessage streamChatResponse now content
                      userId q w)
                   (snd (Chat.posted now content userId w)))).
    split; [|repeat split].
    + simpl MemStorage.chatMessages at 1.
      rewrite set_absent
        by (apply keys_ok_fresh; exact (Invariant.message_keys _
              (Invariant.sound_keys _ Hs1))).
      simpl. rewrite set_absent
        by (apply keys_ok_fresh; exact (Invariant.message_keys _
              (Invariant.sound_keys _ Hs))).
      now rewrite <- app_assoc.
    + simpl. unfold Chat.fullResponse. fold answer.
      now rewrite fold_append_concat.
  - rewrite !frames_app. simpl.
    unfold Chat.chunkFrames. fold answer.
    rewrite frames_chunks. reflexivity.
  - rewrite 2!app_assoc.
    change [Routes.ResWrite (Routes.EvSources
              (Chat.sources now content userId q w));
            Routes.ResWrite Routes.EvDone; Routes.ResEnd]
      with ([Routes.ResWrite (Routes.EvSources
               (Chat.sources now content userId q w));
             Routes.ResWrite Routes.EvDone] ++ [Routes.ResEnd]).
    rewrite app_assoc. apply last_last.
Qed.

Lemma chatSend_success_witness :
  "why?" <> "" /\ Invariant.sound (Routes.store SampleRun.stocked) /\
  Routes.frames
    (Routes.trace
       (snd (Routes.chatSend SampleChat.embeds SampleChat.answers
               SampleRun.clock (JStr "why?") "alice" SampleRun.stocked)))
  = [Routes.EvChunk "Hel"; Routes.EvChunk "lo";
     Routes.EvSources
       (Chat.sources SampleRun.clock "why?" "alice" [1%R; 0%R]
          SampleRun.stocked);
     Routes.EvDone].
Proof.
  assert (Hc : "why?" <> "") by discriminate.
  pose proof (Invariant.wf_sound _ library_wf) as Hs.
  split; [exact Hc|]. split; [exact Hs|].
  exact (proj1 (proj2 (proj2 (proj2 (proj2
           (chatSend_success SampleChat.embeds SampleChat.answers
              SampleRun.clock "why?" "alice" [1%R; 0%R] SampleRun.stocked
              Hc eq_refl Hs eq_refl)))))).
Defined.

(** X20. The context the chat route hands to the generator holds at most
    five texts, and in a well-formed store each of them is the content of a
    stored chunk that has an embedding and whose document belongs to the
    user who asks (the user id being non-empty); the generator is called
    once, with that context. *)
Theorem chatSend_context_scoped
  (generateEmbedding : nat -> string -> option (list R))
  (streamChatResponse :
     string -> list string -> list (string * string) -> Routes.GenResult.t)
  (now : nat -> Z) (content userId : string) (q : list R)
  (w : Routes.World) :
  content <> "" -> userId <> "" ->
  generateEmbedding 0%nat content = Some q ->
  Invariant.wf (Routes.store w) ->
  let result :=
    Routes.chatSend generateEmbedding streamChatResponse now
      (JStr content) userId w in
  let similarChunks := Chat.similarChunks now content userId q w in
  Routes.generatorCalls (Routes.trace (snd result))
  = Routes.generatorCalls (Routes.trace w)
      ++ [Routes.CallGenerator content
            (map (fun r => Chunk.content (Scored.chunk r)) similarChunks)
            (Chat.formattedHistory now content userId w)] /\
  (List.length similarChunks <= 5)%nat /\
  Forall (fun r =>
            In (Scored.chunk r)
               (JSMap.values (MemStorage.chunks (Routes.store w))) /\
            Chunk.embedding (Scored.chunk r) <> [] /\
            Listing.parent_owned userId (Routes.store w) (Scored.chunk r)
            = true)
         similarChunks.
Proof.
  intros Hc Hu Hq Hwf result similarChunks. subst result.
  rewrite (chatSend_run generateEmbedding streamChatResponse now
             content userId q w Hc Hq).
  simpl snd. simpl Routes.trace. split; [|split].
  - unfold Chat.written, Routes.generatorCalls.
    rewrite !filter_app. simpl filter at 2.
    fold (Routes.generatorCalls
            (Chat.chunkFrames streamChatResponse now content userId q w)).
    unfold Chat.chunkFrames. rewrite generatorCalls_chunks.
    destruct (Routes.GenResult.completes _); reflexivity.
  - subst similarChunks.
    unfold Chat.similarChunks, MemStorage.findSimilarChunks. simpl nullish.
    pose proof (slice0_length 5
                  (JSArray.sort MemStorage.lower
                     (map (MemStorage.score q)
                        (MemStorage.candidates (Some userId)
                           (snd (Chat.posted now content userId w))))))
      as Hlen.
    lia.
  - apply Forall_forall. intros r Hr. subst similarChunks.
    unfold Chat.similarChunks in Hr.
    apply findSimilarChunks_in in Hr. destruct Hr as [chunk [Hin ->]].
    simpl Scored.chunk.
    pose proof (createChatMessage_wf (now 0%nat)
                  (Routes.userMessage content userId) (Routes.store w) Hwf)
      as Hwf1.
    fold (Chat.posted now content userId w) in Hwf1.
    destruct (candidates_stored _ _ _ Hin) as [Hst Hne].
    destruct (scoped_candidate_parent userId _ chunk Hwf1 Hu Hin)
      as [d [Hd Ho]].
    split; [exact Hst|]. split; [exact Hne|].
    unfold Listing.parent_owned.
    change (MemStorage.getDocument (Chunk.documentId chunk) (Routes.store w))
      with (MemStorage.getDocument (Chunk.documentId chunk)
              (snd (Chat.posted now content userId w))).
    rewrite Hd, Ho. unfold owner_eqb. now rewrite String.eqb_refl.
Qed.

Lemma chatSend_context_scoped_witness :
  "why?" <> "" /\ "alice" <> "" /\
  Invariant.wf (Routes.store SampleRun.stocked) /\
  (List.length
     (Chat.similarChunks SampleRun.clock "why?" "alice" [1%R; 0%R]
        SampleRun.stocked) <= 5)%nat.
Proof.
  assert (Hc : "why?" <> "") by discriminate.
  assert (Hu : "alice" <> "") by discriminate.
  split; [exact Hc|]. split; [exact Hu|]. split; [exact library_wf|].
  exact (proj1 (proj2
           (chatSend_context_scoped SampleChat.embeds SampleChat.answers
              SampleRun.clock "why?" "alice" [1%R; 0%R] SampleRun.stocked
              Hc Hu eq_refl library_wf))).
Defined.

(** X21. The history the chat route hands to the generator already holds
    the question: the user's message is saved before the history is read,
    so the generator gets the question both as an entry of the history and
    as the query.  With a non-empty user id every entry of the history is
    the role and content of a stored message of that user. *)
Theorem chatSend_history_has_question
  (generateEmbedding : nat -> string -> option (list R))
  (streamChatResponse :
     string -> list string -> list (string * string) -> Routes.GenResult.t)
  (now : nat -> Z) (content userId : string) (q : list R)
  (w : Routes.World) :
  content <> "" ->
  generateEmbedding 0%nat content = Some q ->
  let result :=
    Routes.chatSend generateEmbedding streamChatResponse now
      (JStr content) userId w in
  exists context history,
    In (Routes.CallGenerator content context history)
       (Routes.trace (snd result)) /\
    In ("user", content) history /\
    (userId <> "" ->
     forall entry, In entry history ->
       exists msg,
         In msg (JSMap.values
                   (MemStorage.chatMessages
                      (snd (Chat.posted now content userId w)))) /\
         ChatMessage.userId msg = Some userId /\
         entry = (ChatMessage.role msg, ChatMessage.content msg)).
Proof.
  intros Hc Hq result. subst result.
  rewrite (chatSend_run generateEmbedding streamChatResponse now
             content userId q w Hc Hq).
  simpl snd. simpl Routes.trace.
  exists (Chat.contextTexts now content userId q w).
  exists (Chat.formattedHistory now content userId w).
  split; [|split].
  - apply in_or_app. right. unfold Chat.written. right. now left.
  - unfold Chat.formattedHistory.
    change ("user", content)
      with ((fun msg => (ChatMessage.role msg, ChatMessage.content msg))
              (fst (Chat.posted now content userId w))).
    apply in_map.
    unfold MemStorage.getUserChatMessages, MemStorage.getAllChatMessages.
    eapply Permutation_in; [apply Permutation_sym, sort_perm|].
    assert (Hin : In (fst (Chat.posted now content userId w))
                     (JSMap.values
                        (MemStorage.chatMessages
                           (snd (Chat.posted now content userId w))))).
    { unfold JSMap.values. apply in_map_iff.
      exists (MemStorage.currentMessageId (Routes.store w),
              fst (Chat.posted now content userId w)).
      split; [reflexivity|]. simpl. apply set_in. }
    destruct (truthy (Some userId)); [|exact Hin].
    apply filter_In. split; [exact Hin|].
    simpl. unfold owner_eqb. now rewrite String.eqb_refl.
  - intros Hu entry He. unfold Chat.formattedHistory in He.
    apply in_map_iff in He. destruct He as [msg [<- Hm]].
    unfold MemStorage.getUserChatMessages, MemStorage.getAllChatMessages in Hm.
    eapply Permutation_in in Hm; [|apply sort_perm].
    rewrite (truthy_nonempty userId Hu) in Hm.
    apply filter_In in Hm. destruct Hm as [Hin Ho].
    exists msg. split; [exact Hin|]. split; [|reflexivity].
    now apply owner_eqb_eq.
Qed.

Lemma chatSend_history_has_question_witness :
  "why?" <> "" /\
  exists context history,
    In (Routes.CallGenerator "why?" context history)
       (Routes.trace
          (snd (Routes.chatSend SampleChat.embeds SampleChat.answers
                  SampleRun.clock (JStr "why?") "alice" SampleRun.stocked))) /\
    In ("user", "why?") history.
Proof.
  assert (Hc : "why?" <> "") by discriminate.
  split; [exact Hc|].
  destruct (chatSend_history_has_question SampleChat.embeds
              SampleChat.answers SampleRun.clock "why?" "alice" [1%R; 0%R]
              SampleRun.stocked Hc eq_refl)
    as (context & history & Hcall & Hin & _).
  exists context, history. split; [exact Hcall | exact Hin].
Defined.

(** ** The requests to the chat API *)

Lemma slice_last_suffix {A : Type} (n : nat) (l : list A) :
  firstn (List.length l - n) l ++ OpenAI.slice_last n l = l.
Proof. apply firstn_skipn. Qed.

Lemma slice_last_length {A : Type} (n : nat) (l : list A) :
  List.length (OpenAI.slice_last n l) = Nat.min n (List.length l).
Proof. unfold OpenAI.slice_last. rewrite length_skipn. lia. Qed.

Lemma slice_last_app {A : Type} (n : nat) (l : list A) (x : A) :
  OpenAI.slice_last (S n) (l ++ [x]) = OpenAI.slice_last n l ++ [x].
Proof.
  unfold OpenAI.slice_last. rewrite length_app. simpl.
  replace (List.length l + 1 - S n)%nat with (List.length l - n)%nat by lia.
  rewrite skipn_app.
  replace (List.length l - n - List.length l)%nat with 0%nat by lia.
  reflexivity.
Qed.

(** X22. The messages of a chat request are the system prompt, then the
    last ten entries of the history in their order (the whole history when
    it has at most ten), then the query as a user message: at most twelve
    messages, whatever the length of the history. *)
Theorem messages_window (query : string) (context : list string)
  (chatHistory : list (string * string)) :
  exists dropped window,
    chatHistory = dropped ++ window /\
    List.length window = Nat.min 10 (List.length chatHistory) /\
    OpenAI.messages query context chatHistory
    = ("system",
       OpenAI.systemPrompt (String.concat (OpenAI.nl ++ OpenAI.nl) context))
        :: window ++ [("user", query)] /\
    (List.length (OpenAI.messages query context chatHistory) <= 12)%nat /\
    ((List.length chatHistory <= 10)%nat -> window = chatHistory).
Proof.
  exists (firstn (List.length chatHistory - 10) chatHistory).
  exists (OpenAI.slice_last 10 chatHistory).
  split; [symmetry; apply slice_last_suffix|].
  split; [apply slice_last_length|]. split; [reflexivity|]. split.
  - unfold OpenAI.messages. rewrite !length_app, slice_last_length.
    cbn [List.length]. lia.
  - intros Hle. unfold OpenAI.slice_last.
    replace (List.length chatHistory - 10)%nat with 0%nat by lia.
    reflexivity.
Qed.

Lemma yielded_nonempty (deltas : list (option string)) :
  Forall (fun chunk => chunk <> "") (OpenAI.yielded deltas).
Proof.
  unfold OpenAI.yielded. apply Forall_forall. intros chunk Hin.
  apply in_map_iff in Hin. destruct Hin as [d [<- Hd]].
  apply filter_In in Hd. destruct Hd as [_ Ht].
  destruct d as [c|]; simpl in *; [|discriminate].
  intros ->. discriminate.
Qed.

Lemma yielded_concat (deltas : list (option string)) :
  String.concat "" (OpenAI.yielded deltas)
  = String.concat "" (map (fun content => nullish content "") deltas).
Proof.
  assert (Hcons : forall (x : string) l,
            String.concat "" (x :: l) = (x ++ String.concat "" l)%string).
  { intros x [|y l]; simpl; [|reflexivity].
    induction x as [|ch x IH]; simpl; [reflexivity|]. now rewrite <- IH. }
  unfold OpenAI.yielded.
  induction deltas as [|d rest IH]; [reflexivity|].
  cbn [filter map]. destruct d as [c|]; cbn [truthy nullish].
  - destruct (String.eqb c "") eqn:E; cbn [negb map nullish].
    + apply String.eqb_eq in E. subst c. rewrite Hcons. exact IH.
    + rewrite !Hcons. now rewrite IH.
  - rewrite Hcons. exact IH.
Qed.

(** X23. When the streaming call to the API is accepted, the generator
    that [streamChatResponse] returns yields no empty fragment: a chunk whose
    text is missing, null or empty is passed over.  Nothing else is lost:
    put together, the fragments are the texts of all the chunks put
    together.  The request made is the streamed one for the query. *)
Theorem streamChatResponse_yields
  (create : OpenAI.Request -> option OpenAI.Stream)
  (query : string) (context : list string)
  (chatHistory : list (string * string)) (stream : OpenAI.Stream) :
  create (OpenAI.request true query context chatHistory) = Some stream ->
  let answer := OpenAI.streamChatResponse create query context chatHistory in
  Forall (fun chunk => chunk <> "") (Routes.GenResult.fragments answer) /\
  String.concat "" (Routes.GenResult.fragments answer)
  = String.concat ""
      (map (fun content => nullish content "") (OpenAI.deltas stream)) /\
  Routes.GenResult.completes answer = OpenAI.ends stream.
Proof.
  intros Hcreate answer. subst answer. unfold OpenAI.streamChatResponse.
  rewrite Hcreate. simpl.
  split; [apply yielded_nonempty|]. split; [apply yielded_concat|reflexivity].
Qed.

Lemma streamChatResponse_yields_witness :
  Routes.GenResult.fragments
    (OpenAI.streamChatResponse SampleApi.streams "why?" [] SampleApi.history)
  = ["Hel"; "lo"] /\
  Forall (fun chunk => chunk <> "")
    (Routes.GenResult.fragments
       (OpenAI.streamChatResponse SampleApi.streams "why?" []
          SampleApi.history)).
Proof.
  split; [reflexivity|].
  exact (proj1 (streamChatResponse_yields SampleApi.streams "why?" []
                  SampleApi.history
                  (OpenAI.mkStream [Some "Hel"; None; Some ""; Some "lo"] true)
                  eq_refl)).
Defined.

Section HistoryFacts.
Import MemStorage.

Lemma insert_newer_last (a x : ChatMessage.t) (m : list ChatMessage.t) :
  ChatMessage.time a <= ChatMessage.time x ->
  JSArray.insert newer a (m ++ [x]) = JSArray.insert newer a m ++ [x].
Proof.
  intros Hle. induction m as [|y m IH]; simpl.
  - unfold newer. destruct (ChatMessage.time x <? ChatMessage.time a) eqn:E;
      [apply Z.ltb_lt in E; lia | reflexivity].
  - destruct (newer a y); [now rewrite IH | reflexivity].
Qed.

Lemma sort_newer_last (x : ChatMessage.t) (l : list ChatMessage.t) :
  Forall (fun m => ChatMessage.time m <= ChatMessage.time x) l ->
  JSArray.sort newer (l ++ [x]) = JSArray.sort newer l ++ [x].
Proof.
  induction 1 as [|a l Ha Hl IH]; [reflexivity|].
  change (JSArray.insert newer a (JSArray.sort newer (l ++ [x]))
          = JSArray.insert newer a (JSArray.sort newer l) ++ [x]).
  rewrite IH. now apply insert_newer_last.
Qed.
End HistoryFacts.

(** X24. The chat route with the generator of services/openai.ts: on a
    sound store none of whose messages is later than the clock, the question
    is the last entry of the history read after it was saved, so the request
    to the API ends with the question twice, once from the history and once
    as the query; and the content saved for the assistant when the stream
    ends is the texts of all the streamed chunks put together. *)
Theorem chatSend_question_twice
  (generateEmbedding : nat -> string -> option (list R))
  (create : OpenAI.Request -> option OpenAI.Stream)
  (now : nat -> Z) (content userId : string) (q : list R)
  (w : Routes.World) :
  content <> "" ->
  generateEmbedding 0%nat content = Some q ->
  Invariant.sound (Routes.store w) ->
  Listing.not_after (now 0%nat) (Routes.store w) ->
  let history := Chat.formattedHistory now content userId w in
  let context := Chat.contextTexts now content userId q w in
  let result :=
    Routes.chatSend generateEmbedding (OpenAI.streamChatResponse create) now
      (JStr content) userId w in
  Routes.generatorCalls (Routes.trace (snd result))
  = Routes.generatorCalls (Routes.trace w)
      ++ [Routes.CallGenerator content context history] /\
  (exists earlier,
     OpenAI.request_messages (OpenAI.request true content context history)
     = earlier ++ [("user", content); ("user", content)]) /\
  (forall stream,
     create (OpenAI.request true content context history) = Some stream ->
     OpenAI.ends stream = true ->
     exists earlier saved,
       JSMap.values (MemStorage.chatMessages (Routes.store (snd result)))
       = earlier ++ [saved] /\
       ChatMessage.role saved = "assistant" /\
       ChatMessage.content saved
       = String.concat ""
           (map (fun c => nullish c "") (OpenAI.deltas stream))).
Proof.
  intros Hc Hq Hs Hna history context result. subst result.
  rewrite (chatSend_run generateEmbedding (OpenAI.streamChatResponse create)
             now content userId q w Hc Hq).
  simpl snd. simpl Routes.trace. simpl Routes.store.
  assert (Hposted :
            MemStorage.chatMessages (snd (Chat.posted now content userId w))
            = MemStorage.chatMessages (Routes.store w)
                ++ [(MemStorage.currentMessageId (Routes.store w),
                     fst (Chat.posted now content userId w))]).
  { simpl. apply set_absent, keys_ok_fresh, Hs. }
  split; [|split].
  - unfold Chat.written, Routes.generatorCalls.
    rewrite !filter_app. simpl filter at 2.
    fold (Routes.generatorCalls
            (Chat.chunkFrames (OpenAI.streamChatResponse create) now content
               userId q w)).
    unfold Chat.chunkFrames. rewrite generatorCalls_chunks.
    destruct (Routes.GenResult.completes _); reflexivity.
  - assert (Hh : exists before, history = before ++ [("user", content)]).
    { subst history. unfold Chat.formattedHistory,
        MemStorage.getUserChatMessages, MemStorage.getAllChatMessages.
      rewrite Hposted. unfold JSMap.values. rewrite map_app. cbn [map snd].
      fold (JSMap.values (MemStorage.chatMessages (Routes.store w))).
      set (old := JSMap.values (MemStorage.chatMessages (Routes.store w))).
      assert (Hold : Forall (fun m => ChatMessage.time m
                               <= ChatMessage.time
                                    (fst (Chat.posted now content userId w)))
                            old).
      { exact Hna. }
      destruct (truthy (Some userId)).
      - rewrite filter_app.
        assert (Hown : filter
                         (fun msg =>
                            owner_eqb (ChatMessage.userId msg) (Some userId))
                         [fst (Chat.posted now content userId w)]
                       = [fst (Chat.posted now content userId w)]).
        { simpl. now rewrite String.eqb_refl. }
        rewrite Hown. rewrite sort_newer_last.
        + rewrite map_app. eexists. reflexivity.
        + apply Forall_forall. intros m Hm. apply filter_In in Hm.
          rewrite Forall_forall in Hold. apply Hold, Hm.
      - rewrite sort_newer_last by exact Hold.
        rewrite map_app. eexists. reflexivity. }
    destruct Hh as [before Hb]. simpl OpenAI.request_messages.
    unfold OpenAI.messages. rewrite Hb.
    rewrite (slice_last_app 9 before ("user", content)).
    exists (("system",
             OpenAI.systemPrompt
               (String.concat (OpenAI.nl ++ OpenAI.nl) context))
              :: OpenAI.slice_last 9 before).
    simpl. now rewrite <- app_assoc.
  - intros stream Hcreate Hends.
    unfold Chat.final.
    assert (Hans : Chat.answer (OpenAI.streamChatResponse create) now content
                     userId q w
                   = Routes.GenResult.mk (OpenAI.yielded (OpenAI.deltas stream))
                       true).
    { unfold Chat.answer, OpenAI.streamChatResponse.
      fold context. fold history. rewrite Hcreate, Hends. reflexivity. }
    rewrite Hans. cbn [Routes.GenResult.completes].
    pose proof (createChatMessage_sound (now 0%nat)
                  (Routes.userMessage content userId) (Routes.store w) Hs)
      as Hs1.
    fold (Chat.posted now content userId w) in Hs1.
    set (assistant :=
           fst (MemStorage.createChatMessage (now 1%nat)
                  (Chat.assistantMessage (OpenAI.streamChatResponse create)
                     now content userId q w)
                  (snd (Chat.posted now content userId w)))).
    assert (Hfinal :
              MemStorage.chatMessages
                (snd (MemStorage.createChatMessage (now 1%nat)
                        (Chat.assistantMessage
                           (OpenAI.streamChatResponse create)
                           now content userId q w)
                        (snd (Chat.posted now content userId w))))
              = MemStorage.chatMessages
                  (snd (Chat.posted now content userId w))
                  ++ [(ChatMessage.id assistant, assistant)]).
    { simpl. apply set_absent, keys_ok_fresh.
      exact (Invariant.message_keys _ (Invariant.sound_keys _ Hs1)). }
    exists (JSMap.values
              (MemStorage.chatMessages
                 (snd (Chat.posted now content userId w)))).
    exists assistant. rewrite Hfinal. unfold JSMap.values.
    rewrite map_app. split; [reflexivity|]. split; [reflexivity|].
    subst assistant. simpl. unfold Chat.fullResponse. rewrite Hans.
    cbn [Routes.GenResult.fragments].
    rewrite fold_append_concat. simpl. apply yielded_concat.
Qed.

Lemma chatSend_question_twice_witness :
  "why?" <> "" /\ Invariant.sound (Routes.store SampleRun.stocked) /\
  Listing.not_after (SampleRun.clock 0%nat) (Routes.store SampleRun.stocked) /\
  exists earlier,
    OpenAI.request_messages
      (OpenAI.request true "why?"
         (Chat.contextTexts SampleRun.clock "why?" "alice" [1%R; 0%R]
            SampleRun.stocked)
         (Chat.formattedHistory SampleRun.clock "why?" "alice"
            SampleRun.stocked))
    = earlier ++ [("user", "why?"); ("user", "why?")].
Proof.
  assert (Hc : "why?" <> "") by discriminate.
  pose proof (Invariant.wf_sound _ library_wf) as Hs.
  assert (Hna : Listing.not_after (SampleRun.clock 0%nat)
                  (Routes.store SampleRun.stocked)).
  { unfold Listing.not_after. simpl.
    repeat (apply Forall_cons; [vm_compute; discriminate|]).
    apply Forall_nil. }
  split; [exact Hc|]. split; [exact Hs|]. split; [exact Hna|].
  exact (proj1 (proj2
           (chatSend_question_twice SampleChat.embeds SampleApi.streams
              SampleRun.clock "why?" "alice" [1%R; 0%R] SampleRun.stocked
              Hc eq_refl Hs Hna))).
Defined.

(** ** Uploads, then searches and listings *)

Section SavedNth.
Import DocumentProcessor Routes.
Variable generateEmbedding : nat -> string -> option (list R).
Variable now : nat -> Z.

Lemma embedFrom_nth (chunks : list RawChunk.t) : forall i k raw,
  nth_error chunks k = Some raw ->
  nth_error (embedFrom generateEmbedding i chunks) k
  = Some (embedChunk generateEmbedding (i + k) raw).
Proof.
  induction chunks as [|c rest IH]; intros i [|k] raw Hk; simpl in *;
    try discriminate.
  - injection Hk as ->. now rewrite Nat.add_0_r.
  - rewrite (IH (S i) k raw Hk). do 2 f_equal. lia.
Qed.

Lemma savedEntries_nth (documentId : Z) (l : list EmbeddedChunk.t) :
  forall i id k c,
    nth_error l k = Some c ->
    nth_error (savedEntries now documentId i id l) k
    = Some (id + Z.of_nat k,
            savedChunk now documentId (i + k) (id + Z.of_nat k) c).
Proof.
  induction l as [|c' rest IH]; intros i id [|k] c Hk; simpl in *;
    try discriminate.
  - injection Hk as ->. now rewrite Nat.add_0_r, Z.add_0_r.
  - rewrite (IH (S i) (id + 1) k c Hk).
    replace (id + 1 + Z.of_nat k) with (id + Z.pos (Pos.of_succ_nat k)) by lia.
    replace (S i + k)%nat with (i + S k)%nat by lia. reflexivity.
Qed.
End SavedNth.

(** The store an upload leaves when no store call rejects and the
    extractor returns. *)
Lemma upload_completed_store
  (processDocument : Routes.File.t -> option DocumentProcessor.ProcessedDocument.t)
  (generateEmbedding : nat -> string -> option (list R))
  (now : nat -> Z) (f : Routes.File.t) (userId : string) (w : Routes.World)
  (processed : DocumentProcessor.ProcessedDocument.t) :
  Invariant.sound (Routes.store w) ->
  processDocument f = Some processed ->
  let created :=
    fst (MemStorage.createDocument (now 0%nat) (Routes.newDocument f userId)
           (Routes.store w)) in
  Routes.store
    (snd (Routes.upload processDocument generateEmbedding Routes.never now
            (Some f) userId w))
  = MemStorage.mk
      (MemStorage.documents (Routes.store w)
         ++ [(MemStorage.currentDocumentId (Routes.store w),
              Routes.completed created processed)])
      (MemStorage.chunks (Routes.store w)
         ++ Routes.savedEntries now
              (MemStorage.currentDocumentId (Routes.store w)) 0
              (MemStorage.currentChunkId (Routes.store w))
              (DocumentProcessor.embedFrom generateEmbedding 0
                 (DocumentProcessor.ProcessedDocument.chunks processed)))
      (MemStorage.chatMessages (Routes.store w))
      (MemStorage.currentDocumentId (Routes.store w) + 1)
      (MemStorage.currentChunkId (Routes.store w)
         + Z.of_nat (List.length
                       (DocumentProcessor.ProcessedDocument.chunks processed)))
      (MemStorage.currentMessageId (Routes.store w)).
Proof.
  intros Hs Hp created.
  destruct (upload_run processDocument generateEmbedding Routes.never now
              f userId w Hs) as (d' & saved & Hrun & _ & Hok).
  destruct (Hok (never_raises processDocument generateEmbedding f processed Hp))
    as (processed' & Hp' & Hd & Hsaved).
  rewrite Hp in Hp'. injection Hp' as <-.
  rewrite Hrun. simpl. subst d' saved. fold created.
  rewrite generateChunkEmbeddings_embedFrom, embedFrom_length. reflexivity.
Qed.

(** X25. An upload followed by a search.  Let a user with a non-empty id
    upload a file into a well-formed store, the extractor returning and no
    store call rejecting.  Then every chunk of the file for which the
    embedder returned a non-empty vector is a candidate of that user's
    searches, with its text and that vector; a chunk saved for the new
    document without an embedding is a candidate of nobody; and no search of
    another user returns a chunk of the new document. *)
Theorem upload_then_search
  (processDocument : Routes.File.t -> option DocumentProcessor.ProcessedDocument.t)
  (generateEmbedding : nat -> string -> option (list R))
  (now : nat -> Z) (f : Routes.File.t) (userId : string) (w : Routes.World)
  (processed : DocumentProcessor.ProcessedDocument.t) :
  Invariant.wf (Routes.store w) ->
  userId <> "" ->
  processDocument f = Some processed ->
  let s' :=
    Routes.store
      (snd (Routes.upload processDocument generateEmbedding Routes.never now
              (Some f) userId w)) in
  let n := MemStorage.currentDocumentId (Routes.store w) in
  (forall k raw e,
     nth_error (DocumentProcessor.ProcessedDocument.chunks processed) k
     = Some raw ->
     generateEmbedding k (DocumentProcessor.RawChunk.content raw) = Some e ->
     e <> [] ->
     exists chunk,
       In chunk (MemStorage.candidates (Some userId) s') /\
       Chunk.documentId chunk = n /\
       Chunk.content chunk = DocumentProcessor.RawChunk.content raw /\
       Chunk.embedding chunk = e) /\
  (forall other chunk,
     In chunk (MemStorage.candidates other s') ->
     Chunk.embedding chunk <> []) /\
  (forall other q limit r,
     other <> "" -> other <> userId ->
     In r (MemStorage.findSimilarChunks q (Some other) limit s') ->
     Chunk.documentId (Scored.chunk r) <> n).
Proof.
  intros Hwf Hu Hp s' n.
  pose proof (upload_completed_store processDocument generateEmbedding now f
                userId w processed (Invariant.wf_sound _ Hwf) Hp) as Hstore.
  cbv zeta in Hstore. fold s' in Hstore. fold n in Hstore.
  set (created := fst (MemStorage.createDocument (now 0%nat)
                         (Routes.newDocument f userId) (Routes.store w)))
    in Hstore.
  split; [|split].
  - intros k raw e Hk He Hne.
    pose proof (embedFrom_nth generateEmbedding _ 0 k raw Hk) as Hemb.
    pose proof (savedEntries_nth now n _ 0
                  (MemStorage.currentChunkId (Routes.store w)) k _ Hemb)
      as Hsaved.
    simpl in Hsaved. unfold DocumentProcessor.embedChunk in Hsaved.
    rewrite He in Hsaved.
    exists (Routes.savedChunk now n k
              (MemStorage.currentChunkId (Routes.store w) + Z.of_nat k)
              (DocumentProcessor.EmbeddedChunk.mk
                 (DocumentProcessor.RawChunk.content raw)
                 (DocumentProcessor.RawChunk.metadata raw) e)).
    split; [|repeat split].
    + unfold MemStorage.candidates. rewrite (truthy_nonempty userId Hu).
      apply filter_In. split.
      * apply filter_In. split.
        -- rewrite Hstore. simpl MemStorage.chunks. unfold JSMap.values.
           rewrite map_app. apply in_or_app. right.
           apply nth_error_In in Hsaved.
           apply (in_map snd) in Hsaved. exact Hsaved.
        -- simpl. destruct e; [congruence | reflexivity].
      * apply existsb_exists. exists n. split; [|apply Z.eqb_refl].
        change n with (Document.id (Routes.completed created processed)).
        apply in_map.
        unfold MemStorage.getUserDocuments, MemStorage.getAllDocuments.
        rewrite (truthy_nonempty userId Hu).
        eapply Permutation_in; [apply Permutation_sym, sort_perm|].
        apply filter_In. split.
        -- rewrite Hstore. simpl MemStorage.documents. unfold JSMap.values.
           rewrite map_app. apply in_or_app. right. now left.
        -- simpl. apply String.eqb_refl.
  - intros other chunk Hin. apply (candidates_stored _ _ _ Hin).
  - intros other q limit r Ho Hneq Hr Hn.
    apply findSimilarChunks_in in Hr. destruct Hr as [chunk [Hin ->]].
    simpl in Hn. unfold MemStorage.candidates in Hin.
    rewrite (truthy_nonempty other Ho) in Hin.
    apply filter_In in Hin. destruct Hin as [_ Hex].
    apply existsb_exists in Hex. destruct Hex as [i [Hi Heq]].
    apply Z.eqb_eq in Heq. subst i.
    apply in_map_iff in Hi. destruct Hi as [d [Hid Hd]].
    apply getUserDocuments_owned in Hd; [|exact Ho].
    destruct Hd as [Hd Hown]. rewrite Hstore in Hd.
    simpl MemStorage.documents in Hd. unfold JSMap.values in Hd.
    rewrite map_app in Hd. apply in_app_or in Hd. destruct Hd as [Hd|Hd].
    + apply in_map_iff in Hd. destruct Hd as [[key d0] [Hsnd Hkv]].
      simpl in Hsnd. subst d0.
      destruct Hwf as [[[[_ [_ Hlt]] _ _] _ _] Hkeyed].
      unfold Invariant.keyed in Hkeyed. rewrite Forall_forall in Hkeyed.
      pose proof (Hkeyed _ Hkv) as Hidk. simpl in Hidk.
      rewrite Forall_forall in Hlt.
      assert (Hkin : In key (JSMap.keys (MemStorage.documents (Routes.store w)))).
      { unfold JSMap.keys. change key with (fst (key, d)). now apply in_map. }
      specialize (Hlt _ Hkin). fold n in Hlt. lia.
    + destruct Hd as [Hd|[]]. subst d. simpl in Hown. congruence.
Qed.

Lemma upload_then_search_witness :
  Invariant.wf (Routes.store SampleRun.stocked) /\ "alice" <> "" /\
  exists chunk,
    In chunk
       (MemStorage.candidates (Some "alice")
          (Routes.store
             (snd (Routes.upload SampleRun.extracts SampleChat.embeds
                     Routes.never SampleRun.clock (Some SampleRun.file)
                     "alice" SampleRun.stocked)))) /\
    Chunk.documentId chunk = 4 /\
    Chunk.content chunk = "b" /\
    Chunk.embedding chunk = [1%R; 0%R].
Proof.
  assert (Hu : "alice" <> "") by discriminate.
  assert (Hne : [1%R; 0%R] <> []) by discriminate.
  split; [exact library_wf|]. split; [exact Hu|].
  exact (proj1 (upload_then_search SampleRun.extracts SampleChat.embeds
                  SampleRun.clock SampleRun.file "alice" SampleRun.stocked
                  SampleRun.twoChunks library_wf Hu eq_refl)
           1%nat (DocumentProcessor.RawChunk.mk "b" JNull) [1%R; 0%R]
           eq_refl eq_refl Hne).
Defined.



(** ** Text extraction *)

Import Stdlib.Strings.Ascii.

Section TextFacts.
Import DocumentText.

Lemma length_append (a b : string) :
  String.length (a ++ b) = (String.length a + String.length b)%nat.
Proof. induction a as [|c a IH]; simpl; [reflexivity | now rewrite IH]. Qed.

Lemma collapse_tidy (s : string) : forall b, tidy b (collapse b s) = true.
Proof.
  induction s as [|c rest IH]; intros b; simpl; [reflexivity|].
  destruct (isSpace c) eqn:E.
  - destruct b; [apply IH|]. simpl. apply IH.
  - simpl. rewrite E. apply IH.
Qed.

Lemma tidy_collapse (s : string) : forall b,
  tidy b s = true -> collapse b s = s.
Proof.
  induction s as [|c rest IH]; intros b H; simpl in *; [reflexivity|].
  destruct (isSpace c) eqn:E.
  - apply andb_true_iff in H. destruct H as [H Hrest].
    apply andb_true_iff in H. destruct H as [Hc Hb].
    apply Ascii.eqb_eq in Hc. subst c.
    destruct b; [discriminate|]. now rewrite IH.
  - now rewrite IH.
Qed.

Lemma tidy_trimStart (s : string) : forall b b',
  tidy b s = true -> tidy b' (trimStart s) = true.
Proof.
  induction s as [|c rest IH]; intros b b' H; simpl in *; [reflexivity|].
  destruct (isSpace c) eqn:E.
  - apply andb_true_iff in H. destruct H as [_ Hrest]. now apply (IH true).
  - simpl. now rewrite E.
Qed.

Lemma tidy_trimEnd (s : string) : forall b,
  tidy b s = true -> tidy b (trimEnd s) = true.
Proof.
  induction s as [|c rest IH]; intros b H; simpl in *; [reflexivity|].
  destruct (isSpace c) eqn:E.
  - apply andb_true_iff in H. destruct H as [H Hrest].
    specialize (IH true Hrest).
    destruct (trimEnd rest) as [|c' kept]; [reflexivity|].
    simpl. rewrite E, H. exact IH.
  - specialize (IH false H).
    destruct (trimEnd rest) as [|c' kept]; simpl; rewrite E; [reflexivity|].
    exact IH.
Qed.

Lemma trimStart_fixed (s : string) :
  trimStart (trimStart s) = trimStart s.
Proof.
  induction s as [|c rest IH]; simpl; [reflexivity|].
  destruct (isSpace c) eqn:E; [exact IH|]. simpl. now rewrite E.
Qed.

Lemma trimEnd_cons (c : ascii) (s : string) :
  trimEnd (String c s)
  = match trimEnd s with
    | EmptyString => if isSpace c then EmptyString else String c EmptyString
    | String _ _ as kept => String c kept
    end.
Proof. reflexivity. Qed.

Lemma trimEnd_fixed (s : string) : trimEnd (trimEnd s) = trimEnd s.
Proof.
  induction s as [|c rest IH]; [reflexivity|].
  rewrite trimEnd_cons.
  destruct (trimEnd rest) as [|c' kept] eqn:Er.
  - destruct (isSpace c) eqn:E; [reflexivity|].
    rewrite trimEnd_cons. simpl. now rewrite E.
  - rewrite trimEnd_cons, IH. reflexivity.
Qed.

(** [trimEnd] keeps a first character that is not white space. *)
Lemma trimStart_trimEnd (s : string) :
  trimStart s = s -> trimStart (trimEnd s) = trimEnd s.
Proof.
  destruct s as [|c rest]; [reflexivity|]. simpl.
  destruct (isSpace c) eqn:E.
  - intros H. exfalso.
    assert (Hlen : forall x, (String.length (trimStart x) <= String.length x)%nat).
    { induction x as [|d x IHx]; simpl; [lia|].
      destruct (isSpace d); simpl; lia. }
    specialize (Hlen rest). rewrite H in Hlen. simpl in Hlen. lia.
  - intros _. destruct (trimEnd rest); simpl; now rewrite E.
Qed.

Lemma normalise_tidy (s : string) : tidy false (normalise s) = true.
Proof.
  unfold normalise, trim. apply tidy_trimEnd.
  apply (tidy_trimStart _ false false), collapse_tidy.
Qed.

(** Normalising twice is normalising once. *)
Lemma normalise_fixed (s : string) : normalise (normalise s) = normalise s.
Proof.
  unfold normalise at 1. rewrite (tidy_collapse _ false (normalise_tidy s)).
  unfold normalise, trim.
  rewrite trimStart_trimEnd by apply trimStart_fixed.
  apply trimEnd_fixed.
Qed.

Lemma trimStart_starts (s : string) :
  match trimStart s with
  | EmptyString => True
  | String c _ => isSpace c = false
  end.
Proof.
  induction s as [|c rest IH]; simpl; [exact I|].
  destruct (isSpace c) eqn:E; [exact IH | exact E].
Qed.

Lemma trimEnd_ends (s : string) : endsInSpace (trimEnd s) = false.
Proof.
  induction s as [|c rest IH]; simpl; [reflexivity|].
  destruct (trimEnd rest) as [|c' kept] eqn:Er.
  - destruct (isSpace c) eqn:E; simpl; [reflexivity | exact E].
  - exact IH.
Qed.

Lemma trimEnd_starts (s : string) (c : Ascii.ascii) (rest : string) :
  trimEnd s = String c rest ->
  exists rest', s = String c rest'.
Proof.
  destruct s as [|d s']; simpl; [discriminate|].
  destruct (trimEnd s'); [destruct (isSpace d)|]; intros [= <- _]; eauto.
Qed.

(** Without a closing parenthesis there is no match. *)
Lemma groups_none (s : string) : forall current,
  ~ In ")"%char (list_ascii_of_string s) -> groups current s = [].
Proof.
  induction s as [|c rest IH]; intros current Hno; simpl in *; [reflexivity|].
  assert (Hc : Ascii.eqb c ")" = false).
  { apply Ascii.eqb_neq. intros ->. apply Hno. now left. }
  assert (Hrest : ~ In ")"%char (list_ascii_of_string rest)) by tauto.
  destruct current as [run|]; rewrite ?Hc.
  - now apply IH.
  - destruct (Ascii.eqb c "("); now apply IH.
Qed.

Lemma pdfNotice_length (filename : string) :
  (100 <= String.length (pdfNotice filename))%nat.
Proof. unfold pdfNotice. rewrite !length_append. simpl. lia. Qed.

Lemma docxNotice_length (filename : string) :
  (50 <= String.length (docxNotice filename))%nat.
Proof. unfold docxNotice. rewrite !length_append. simpl. lia. Qed.
End TextFacts.

(** The text of the PDF branch: long enough, and the notice or the
    extracted text. *)
Lemma createDocumentFromBuffer_pdf_aux
  (utf8 : list Byte.byte -> string) (buffer : list Byte.byte)
  (filename : string) :
  let text :=
    DocumentText.text
      (DocumentText.createDocumentFromBuffer utf8 buffer filename
         "application/pdf") in
  (100 <= String.length text)%nat /\
  (text = DocumentText.pdfNotice filename \/
   text = DocumentText.pdfText buffer).
Proof.
  intros text. subst text.
  unfold DocumentText.createDocumentFromBuffer. cbn [String.eqb Ascii.eqb
    Bool.eqb DocumentText.text].
  destruct (Nat.ltb (String.length (DocumentText.pdfText buffer)) 100) eqn:E.
  - split; [apply pdfNotice_length | now left].
  - apply Nat.ltb_ge in E. split; [exact E | now right].
Qed.

(** X27. The text of a PDF document.  It has at least 100 characters.  It
    is either the notice that the content could not be extracted, naming the
    file, or the extracted text, and the extracted text is normalised: every
    white-space character in it is a single plain space between two other
    characters, so that normalising it again changes nothing, and it neither
    begins nor ends with white space.  A buffer that holds no closing
    parenthesis always gives the notice. *)
Theorem createDocumentFromBuffer_pdf
  (utf8 : list Byte.byte -> string) (buffer : list Byte.byte)
  (filename : string) :
  let document :=
    DocumentText.createDocumentFromBuffer utf8 buffer filename
      "application/pdf" in
  let text := DocumentText.text document in
  (100 <= String.length text)%nat /\
  (text = DocumentText.pdfNotice filename \/
   text = DocumentText.pdfText buffer /\
   DocumentText.tidy true text = true /\
   DocumentText.endsInSpace text = false /\
   DocumentText.normalise text = text) /\
  (~ In ")"%char (list_ascii_of_string (string_of_list_byte buffer)) ->
   text = DocumentText.pdfNotice filename).
Proof.
  intros document text. subst text document.
  unfold DocumentText.createDocumentFromBuffer. cbn [String.eqb Ascii.eqb
    Bool.eqb DocumentText.text].
  destruct (Nat.ltb (String.length (DocumentText.pdfText buffer)) 100) eqn:E.
  - split; [apply pdfNotice_length|]. split; [now left|reflexivity].
  - apply Nat.ltb_ge in E. split; [exact E|]. split.
    + right. split; [reflexivity|].
      unfold DocumentText.pdfText. cbv zeta.
      set (joined := String.concat " " _).
      split; [|split].
      * pose proof (normalise_tidy joined) as Ht.
        unfold DocumentText.normalise, DocumentText.trim in *.
        pose proof (trimStart_starts (DocumentText.collapse false joined))
          as Hstart.
        destruct (DocumentText.trimEnd _) as [|c rest] eqn:Et;
          [reflexivity|].
        destruct (trimEnd_starts _ _ _ Et) as [rest' Hs].
        rewrite Hs in Hstart. simpl in *. rewrite Hstart in *. exact Ht.
      * apply trimEnd_ends.
      * apply normalise_fixed.
    + intros Hno. exfalso. unfold DocumentText.pdfText in E.
      rewrite (groups_none _ None Hno) in E. simpl in E. lia.
Qed.

(** X28. The text of a DOCX document has at least 50 characters and holds
    a letter: it is the decoded buffer when that is so of it, and else the
    notice that names the file. *)
Theorem createDocumentFromBuffer_docx
  (utf8 : list Byte.byte -> string) (buffer : list Byte.byte)
  (filename : string) :
  let document :=
    DocumentText.createDocumentFromBuffer utf8 buffer filename
      "application/vnd.openxmlformats-officedocument.wordprocessingml.document" in
  let text := DocumentText.text document in
  (50 <= String.length text)%nat /\
  DocumentText.hasLetter text = true /\
  (text = utf8 buffer \/ text = DocumentText.docxNotice filename) /\
  (text = utf8 buffer <->
   (50 <= String.length (utf8 buffer))%nat /\
   DocumentText.hasLetter (utf8 buffer) = true).
Proof.
  intros document text. subst text document.
  unfold DocumentText.createDocumentFromBuffer. cbn [String.eqb Ascii.eqb
    Bool.eqb DocumentText.text].
  destruct (DocumentText.hasLetter (utf8 buffer)) eqn:Eh; cbn [negb orb].
  - destruct (Nat.ltb (String.length (utf8 buffer)) 50) eqn:El.
    + apply Nat.ltb_lt in El.
      split; [apply docxNotice_length|]. split; [reflexivity|].
      split; [now right|]. split.
      * intros H. pose proof (docxNotice_length filename) as Hn.
        rewrite H in Hn. lia.
      * intros [Hlen _]. lia.
    + apply Nat.ltb_ge in El.
      split; [exact El|]. split; [exact Eh|]. split; [now left|].
      split; [intros _; now split | reflexivity].
  - split; [apply docxNotice_length|]. split; [reflexivity|].
    split; [now right|]. split.
    + intros H. exfalso.
      assert (Hl : DocumentText.hasLetter (DocumentText.docxNotice filename)
                   = true) by reflexivity.
      rewrite H, Eh in Hl. discriminate.
    + intros [_ Hfalse]. discriminate.
Qed.

Section ProcessingFacts.
Import DocumentText.
Variable chunkMetadata : string -> nat -> Node -> Json.

Lemma chunksFrom_length (filename : string) (nodes : list Node) : forall index,
  List.length (chunksFrom chunkMetadata filename index nodes)
  = List.length nodes.
Proof. induction nodes; intros index; simpl; auto. Qed.

Lemma savedEntries_content (now : nat -> Z) (documentId : Z)
  (l : list DocumentProcessor.EmbeddedChunk.t) : forall i id,
  map Chunk.content (JSMap.values (Routes.savedEntries now documentId i id l))
  = map DocumentProcessor.EmbeddedChunk.content l.
Proof.
  induction l as [|c rest IH]; intros i id; simpl; [reflexivity|].
  f_equal. apply IH.
Qed.
End ProcessingFacts.

(** X29. An upload of a PDF from the buffer to the store.  When the parser
    returns its nodes and no store call rejects, the document ends
    completed, with progress 100, with the number of nodes as its chunk
    count and with a content of at least 100 characters (the extracted text
    or the notice); and one chunk per node is added to the store, the texts
    of the chunks being those of the chunks made from the nodes, in order,
    whatever the embedder does. *)
Theorem upload_pdf_completes
  (utf8 : list Byte.byte -> string)
  (getNodesFromDocuments :
     DocumentText.LlamaDocument -> option (list DocumentText.Node))
  (chunkMetadata : string -> nat -> DocumentText.Node -> Json)
  (generateEmbedding : nat -> string -> option (list R))
  (now : nat -> Z) (f : Routes.File.t) (userId : string) (w : Routes.World)
  (nodes : list DocumentText.Node) :
  Invariant.sound (Routes.store w) ->
  Routes.File.mimetype f = "application/pdf" ->
  getNodesFromDocuments
    (DocumentText.createDocumentFromBuffer utf8 (Routes.File.buffer f)
       (Routes.File.originalname f) (Routes.File.mimetype f)) = Some nodes ->
  let result :=
    Routes.upload
      (DocumentText.processDocument utf8 getNodesFromDocuments chunkMetadata)
      generateEmbedding Routes.never now (Some f) userId w in
  let n := MemStorage.currentDocumentId (Routes.store w) in
  (exists d,
     MemStorage.getDocument n (Routes.store (snd result)) = Some d /\
     Document.status d = "completed" /\
     Document.progress d = 100 /\
     Document.chunkCount d = Z.of_nat (List.length nodes) /\
     Document.userId d = Some userId /\
     (100 <= String.length (Document.content d))%nat /\
     (Document.content d
      = DocumentText.pdfNotice (Routes.File.originalname f) \/
      Document.content d = DocumentText.pdfText (Routes.File.buffer f))) /\
  (exists added,
     MemStorage.chunks (Routes.store (snd result))
     = MemStorage.chunks (Routes.store w) ++ added /\
     List.length added = List.length nodes /\
     Forall (fun kv => Chunk.documentId (snd kv) = n) added /\
     map Chunk.content (JSMap.values added)
     = map DocumentProcessor.RawChunk.content
         (DocumentText.chunksFrom chunkMetadata (Routes.File.originalname f)
            0 nodes)).
Proof.
  intros Hs Hmime Hnodes result n.
  set (document :=
         DocumentText.createDocumentFromBuffer utf8 (Routes.File.buffer f)
           (Routes.File.originalname f) (Routes.File.mimetype f)) in *.
  set (processed :=
         DocumentProcessor.ProcessedDocument.mk (DocumentText.text document)
           (DocumentText.chunksFrom chunkMetadata (Routes.File.originalname f)
              0 nodes)).
  assert (Hp : DocumentText.processDocument utf8 getNodesFromDocuments
                 chunkMetadata f = Some processed).
  { unfold DocumentText.processDocument. fold document. now rewrite Hnodes. }
  pose proof (upload_completed_store _ generateEmbedding now f userId w
                processed Hs Hp) as Hstore.
  cbv zeta in Hstore. fold result in Hstore. fold n in Hstore.
  rewrite Hstore. cbn [MemStorage.chunks].
  assert (Hfresh : JSMap.get n (MemStorage.documents (Routes.store w)) = None).
  { apply keys_ok_fresh. apply Hs. }
  split.
  - eexists. split.
    + unfold MemStorage.getDocument. cbn [MemStorage.documents].
      rewrite <- (set_absent _ _ _ Hfresh). apply get_set_same.
    + cbn [Routes.completed Document.status Document.progress
             Document.chunkCount Document.userId Document.content
             DocumentProcessor.ProcessedDocument.content
             DocumentProcessor.ProcessedDocument.chunks processed].
      split; [reflexivity|]. split; [reflexivity|].
      split; [now rewrite chunksFrom_length|]. split; [reflexivity|].
      subst document. rewrite Hmime.
      pose proof (createDocumentFromBuffer_pdf_aux utf8 (Routes.File.buffer f)
                    (Routes.File.originalname f)) as [Hlen Hshape].
      split; [exact Hlen | exact Hshape].
  - eexists. split; [reflexivity|].
    rewrite savedEntries_length, embedFrom_length. cbn [processed
      DocumentProcessor.ProcessedDocument.chunks].
    split; [apply chunksFrom_length|]. split; [apply savedEntries_parent|].
    rewrite savedEntries_content. apply embedFrom_content.
Qed.

Lemma upload_pdf_completes_witness :
  Invariant.sound (Routes.store SampleRun.fresh) /\
  Routes.File.mimetype SamplePdf.scan = "application/pdf" /\
  exists d,
    MemStorage.getDocument 1
      (Routes.store
         (snd (Routes.upload
                 (DocumentText.processDocument SamplePdf.decode
                    SamplePdf.oneNode SamplePdf.noMetadata)
                 SampleChat.embeds Routes.never SampleRun.clock
                 (Some SamplePdf.scan) "alice" SampleRun.fresh))) = Some d /\
    Document.status d = "completed" /\
    Document.chunkCount d = 1 /\
    (100 <= String.length (Document.content d))%nat.
Proof.
  pose proof (Invariant.wf_sound _ init_wf) as Hs.
  split; [exact Hs|]. split; [reflexivity|].
  destruct (upload_pdf_completes SamplePdf.decode SamplePdf.oneNode
              SamplePdf.noMetadata SampleChat.embeds SampleRun.clock
              SamplePdf.scan "alice" SampleRun.fresh
              [DocumentText.mkNode
                 (Some (DocumentText.text
                          (DocumentText.createDocumentFromBuffer
                             SamplePdf.decode
                             (Routes.File.buffer SamplePdf.scan)
                             (Routes.File.originalname SamplePdf.scan)
                             (Routes.File.mimetype SamplePdf.scan))))
                 (DocumentText.text
                    (DocumentText.createDocumentFromBuffer
                       SamplePdf.decode
                       (Routes.File.buffer SamplePdf.scan)
                       (Routes.File.originalname SamplePdf.scan)
                       (Routes.File.mimetype SamplePdf.scan))) "n1"]
              Hs eq_refl eq_refl)
    as [(d & Hd & Hst & _ & Hcount & _ & Hlen & _) _].
  exists d. split; [exact Hd|]. split; [exact Hst|]. split; [exact Hcount|].
  exact Hlen.
Defined.

(** ** The time labels of the client *)

(** X30. From one hour on, the document list and the message list give the
    same label for the same age: the hours counted through the minutes are
    the hours counted directly.  Below one hour the document list says
    Just now, also where the message list counts minutes. *)
Theorem formatTimeAgo_agree (diff : Z) :
  3600000 <= diff ->
  DocumentList.formatTimeAgo diff = ChatMessages.formatTimeAgo diff.
Proof.
  intros H. unfold DocumentList.formatTimeAgo, ChatMessages.formatTimeAgo.
  cbv zeta.
  assert (Hh : diff / (1000 * 60) / 60 = diff / (1000 * 60 * 60)).
  { rewrite Z.div_div by lia. f_equal. }
  assert (Hm : 60 <= diff / (1000 * 60)).
  { apply Z.div_le_lower_bound; lia. }
  rewrite Hh.
  destruct (diff / (1000 * 60) <? 1) eqn:E1; [apply Z.ltb_lt in E1; lia|].
  destruct (diff / (1000 * 60) <? 60) eqn:E2; [apply Z.ltb_lt in E2; lia|].
  assert (H1 : 1 <= diff / (1000 * 60 * 60)).
  { apply Z.div_le_lower_bound; lia. }
  destruct (diff / (1000 * 60 * 60) <? 1) eqn:E3;
    [apply Z.ltb_lt in E3; lia|].
  reflexivity.
Qed.

Lemma formatTimeAgo_agree_witness :
  3600000 <= 7200000 /\
  DocumentList.formatTimeAgo 7200000 = "2 hours ago" /\
  ChatMessages.formatTimeAgo 7200000 = "2 hours ago".
Proof.
  assert (H : 3600000 <= 7200000) by lia.
  split; [exact H|]. split; [reflexivity|].
  rewrite <- (formatTimeAgo_agree 7200000 H). reflexivity.
Defined.
